(** * Smart grievance system: Telegram intake and status normalisation

    A shallow embedding of the conversational intake engine of
    [src/src/server.ts] (session store, identity resolver, ticket writer,
    conversation handlers, webhook route) and of the two status
    normalisation paths ([normalizeStatus] of the dashboard page and the
    stage computation of the tracking endpoint), over the SQLite schema of
    [src/src/db.ts]; with them the status logic of the dashboard page
    (its counters, filters and polling effect), the status update of the
    authority endpoint, and the bearer tokens of login, [auth] and
    logout.

    Conventions of the embedding.
    - A JavaScript string is a [string]: a sequence of code units, here
      the code units below 256.  [trim], [toLowerCase] and the white-space
      class are the ECMAScript ones restricted to that range.
    - The database is a record of tables.  A statement that violates a
      declared constraint (PRIMARY KEY, UNIQUE, FOREIGN KEY with
      [PRAGMA foreign_keys = ON]) throws; whatever was written before the
      throw stays written, as no handler opens a transaction.
    - Outbound calls to the chat platform are logged in an outbox and
      return; the translated texts of [tgText] are kept symbolic
      (language and key).
    - A handler runs from its first statement to its last before the next
      one starts; where a handler keeps an object across an [await] and a
      property depends on it (the session handed to the ticket writer),
      the function is also stated on the object as it was read earlier.
      Failures of the environment (disk, network) are not part of the
      model.
    - Preparing a statement parses it: a statement that names a result
      column with a reserved word throws at [prepare], before it reads or
      writes anything.
    - Numbers that are keys (update, chat, user and category ids) are
      integers; the [update_id] of a request body is any JSON value, a
      number with or without a fractional part included; coordinates are
      rationals, the exact values of the doubles.  [Number] applied to
      a button payload is a parameter of the development.
    - Timestamp columns are not represented. *)

From Stdlib Require Import ZArith NArith QArith Qround Qabs String Ascii List Lia Bool Sorted.
From stdpp Require Import base decidable option list gmap strings pretty.

Local Open Scope string_scope.
Local Open Scope list_scope.

(** ** JavaScript string primitives used by the server *)

Module JsString.

Definition code (c : ascii) : N := N_of_ascii c.

(** ECMAScript WhiteSpace and LineTerminator code points below 256:
    TAB, LF, VT, FF, CR, SP and NBSP. *)
Definition isWhiteSpace (c : ascii) : bool :=
  let n := code c in
  ((9 <=? n) && (n <=? 13) || (n =? 32) || (n =? 160))%N.

Fixpoint trimStart (s : string) : string :=
  match s with
  | EmptyString => EmptyString
  | String c r => if isWhiteSpace c then trimStart r else s
  end.

Definition trimEnd (s : string) : string :=
  String.rev (trimStart (String.rev s)).

(** [String.prototype.trim] *)
Definition trim (s : string) : string := trimEnd (trimStart s).

(** Lower-case mapping of one code unit below 256: A-Z, and the capital
    letters U+00C0..U+00DE except the multiplication sign U+00D7. *)
Definition lowerChar (c : ascii) : ascii :=
  let n := code c in
  if ((65 <=? n) && (n <=? 90))%N then ascii_of_N (n + 32)
  else if ((192 <=? n) && (n <=? 222) && negb (n =? 215))%N then ascii_of_N (n + 32)
  else c.

Fixpoint toLowerCase (s : string) : string :=
  match s with
  | EmptyString => EmptyString
  | String c r => String (lowerChar c) (toLowerCase r)
  end.

(** Upper-case mapping, on the ASCII letters.  The server applies it to
    the output of [toString(36)] only. *)
Definition upperChar (c : ascii) : ascii :=
  let n := code c in
  if ((97 <=? n) && (n <=? 122))%N then ascii_of_N (n - 32) else c.

Fixpoint toUpperCase (s : string) : string :=
  match s with
  | EmptyString => EmptyString
  | String c r => String (upperChar c) (toUpperCase r)
  end.

(** [s.startsWith(p)] *)
Definition startsWith (s p : string) : bool := String.prefix p s.

Fixpoint drop (n : nat) (s : string) : string :=
  match n, s with
  | O, _ => s
  | S _, EmptyString => EmptyString
  | S m, String _ r => drop m r
  end.

(** [s.replace(pat, repl)] with a string pattern: the first occurrence. *)
Fixpoint replace (pat repl s : string) : string :=
  if String.prefix pat s then repl +:+ drop (String.length pat) s
  else match s with
       | EmptyString => EmptyString
       | String c r => String c (replace pat repl r)
       end.

(** [s.slice(0, n)] for a non-negative [n] *)
Definition slice0 (n : nat) (s : string) : string := String.substring 0 n s.

(** [s.split(/\s+/)]: the pieces between the maximal white-space runs;
    a run at either end leaves an empty piece there. *)
Fixpoint split_go (cur : string) (inrun : bool) (s : string) : list string :=
  match s with
  | EmptyString => [String.rev cur]
  | String c r =>
      if isWhiteSpace c
      then (if inrun then split_go cur true r
            else String.rev cur :: split_go EmptyString true r)
      else split_go (String c cur) false r
  end.

Definition split_ws (s : string) : list string := split_go EmptyString false s.

(** [xs.includes(v)] on an array of strings *)
Definition includes (xs : list string) (v : string) : bool :=
  existsb (String.eqb v) xs.

End JsString.

(** ** Status normalisation *)

Module Status.

(** [item.complaint_status === lit]: the field may be absent or null. *)
Definition coarse_is (complaint_status : option string) (lit : string) : bool :=
  match complaint_status with
  | Some c => String.eqb c lit
  | None => false
  end.

(** [normalizeStatus] of the dashboard page. *)
Definition normalizeStatus (status : string) (complaint_status : option string) : string :=
  if coarse_is complaint_status "accepted" then "accepted"
  else if coarse_is complaint_status "in_progress" then "in_progress"
  else if coarse_is complaint_status "closed" then "closed"
  else if String.eqb status "resolved" then "closed"
  else if String.eqb status "under_review" || String.eqb status "assigned"
          || String.eqb status "escalated" || String.eqb status "reopened" then "accepted"
  else if String.eqb status "in_progress" || String.eqb status "awaiting_confirmation"
       then "in_progress"
  else if String.eqb status "closed" then "closed"
  else "submitted".

(** The stage computation of [GET /api/grievances/track/:ticket]:
    [complaintStatus] is [String(grievance.complaint_status ?? "")]. *)
Definition trackStage (status : string) (complaint_status : option string) : string :=
  let complaintStatus := default "" complaint_status in
  if String.eqb complaintStatus "closed" || String.eqb status "closed" then "closed"
  else if String.eqb status "resolved" then "closed"
  else if String.eqb complaintStatus "in_progress" || String.eqb status "in_progress"
          || String.eqb status "awaiting_confirmation" then "in_progress"
  else if String.eqb complaintStatus "accepted" || String.eqb status "under_review"
          || String.eqb status "assigned" || String.eqb status "escalated"
          || String.eqb status "reopened" then "accepted"
  else "submitted".

(** The fixed table of the specification, from its words: resolved and
    closed map to closed; under_review, assigned, escalated and reopened
    to accepted; in_progress and awaiting_confirmation to in_progress;
    every other value to submitted. *)
Definition legacyTable (status : string) : string :=
  if JsString.includes ["resolved"; "closed"] status then "closed"
  else if JsString.includes ["under_review"; "assigned"; "escalated"; "reopened"] status
       then "accepted"
  else if JsString.includes ["in_progress"; "awaiting_confirmation"] status
       then "in_progress"
  else "submitted".

(** The values of the [complaint_status] field in the client's
    [Grievance] type, and those among them that are not the default. *)
Definition complaintStatusValues : list string :=
  ["pending"; "accepted"; "in_progress"; "closed"].

Definition isStage (c : string) : bool :=
  JsString.includes ["accepted"; "in_progress"; "closed"] c.

(** Progress order of the canonical stages. *)
Definition rank (stage : string) : nat :=
  if String.eqb stage "closed" then 3
  else if String.eqb stage "in_progress" then 2
  else if String.eqb stage "accepted" then 1
  else 0.

(** The stage carried by the coarse field, if it carries one. *)
Definition coarseStage (complaint_status : option string) : option string :=
  match complaint_status with
  | Some c => if isStage c then Some c else None
  | None => None
  end.

(** The later of two stages in the progress order. *)
Definition later (a b : string) : string :=
  if (rank a <? rank b)%nat then b else a.

(** Whether the two paths give the same stage, by the order of stages. *)
Definition agree (status : string) (c : option string) : bool :=
  match coarseStage c with
  | None => true
  | Some k => (rank (legacyTable status) <=? rank k)%nat
  end.

(** The pairs (status, complaint_status) the server's own statements
    write: the inserts of the intake paths and of the seed, where
    [complaint_status] is or defaults to pending, and the updates of the
    authority endpoint with their fallbacks for older schemas. *)
Definition written_pairs : list (string * option string) :=
  [ ("submitted", Some "pending"); ("in_progress", Some "pending");
    ("under_review", Some "pending");
    ("under_review", Some "accepted"); ("assigned", Some "accepted");
    ("in_progress", Some "in_progress");
    ("closed", Some "closed"); ("resolved", Some "closed") ].

End Status.

(** ** Number formatting *)

Module JsNumber.

(** Digit of [Number.prototype.toString(36)]. *)
Definition digit36 (d : N) : ascii :=
  if (d <? 10)%N then ascii_of_N (48 + d) else ascii_of_N (87 + d).

Fixpoint toString36_go (fuel : nat) (n : N) (acc : string) : string :=
  match fuel with
  | O => acc
  | S fuel' =>
      let acc' := String (digit36 (n mod 36)) acc in
      if (n / 36 =? 0)%N then acc' else toString36_go fuel' (n / 36) acc'
  end.

(** [n.toString(36)] for a non-negative integer [n]. *)
Definition toString36 (n : N) : string :=
  toString36_go (S (N.to_nat (N.log2 n))) n EmptyString.

Fixpoint zeros (k : nat) : string :=
  match k with
  | O => EmptyString
  | S k' => String "0" (zeros k')
  end.

(** [x.toFixed(6)] for a finite [x] of magnitude below 1e21, on the
    exact value of the number: the integer [n] closest to [x * 10^6]
    (the larger one on a tie), written with six decimals. *)
Definition toFixed6 (x : Q) : string :=
  let s := if (Qnum x <? 0)%Z then "-" else "" in
  let n := Qfloor (Qabs x * 1000000 + (1 # 2)) in
  let m := pretty (Z.to_N n) in
  let m := zeros (7 - String.length m) +:+ m in
  let k := String.length m in
  s +:+ String.substring 0 (k - 6) m +:+ "." +:+ String.substring (k - 6) 6 m.

End JsNumber.

(** ** Data model *)

Inductive TelegramLanguage := en | hi | mr.

Inductive TelegramState :=
| idle | awaiting_language | awaiting_category
| awaiting_description | awaiting_location | awaiting_confirmation.

Inductive TranslationKey :=
| welcome | chooseLanguage | languageSet | chooseCategory | enterDescription
| enterLocation | confirmPrompt | submitted | cancelled | help
| invalidDescription | invalidLocation | unknown
| statusMissing | statusNotFound | statusResult.

Record TelegramDraft := {
  categoryId : option Z;
  categoryName : option string;
  description : option string;
  location : option string;
  latitude : option Q;
  longitude : option Q
}.

(** The draft [{}]. *)
Definition emptyDraft : TelegramDraft :=
  {| categoryId := None; categoryName := None; description := None;
     location := None; latitude := None; longitude := None |}.

Record TelegramSession := {
  chatId : string;
  userId : option Z;
  state : TelegramState;
  language : TelegramLanguage;
  draft : TelegramDraft
}.

(** What [JSON.parse] makes of a non-null [draft_json] text. *)
Inductive DraftText :=
| TextMalformed                  (* the empty text, or one that JSON.parse rejects *)
| TextNonObject                  (* a JSON number, string, boolean or null *)
| TextObject (d : TelegramDraft) (* the text JSON.stringify writes for d *).

(** A row of [telegram_sessions]; the key [chat_id] is the key of the map. *)
Record TelegramSessionRow := {
  row_user_id : option Z;
  row_state : TelegramState;
  row_language : TelegramLanguage;
  row_draft_json : option DraftText
}.

Record UserRow := {
  u_id : Z;
  u_email : string;
  u_password : string;
  u_name : string;
  u_role : string;
  u_telegram_chat_id : option string
}.

Record CategoryRow := { cat_id : Z; cat_name : string }.

Record GrievanceRow := {
  g_ticket_number : string;
  g_citizen_id : Z;
  g_category_id : Z;
  g_title : string;
  g_description : string;
  g_location : string;
  g_latitude : option Q;
  g_longitude : option Q;
  g_priority : string;
  g_status : string;
  g_complaint_status : option string;
  g_source_channel : option string;
  g_source_user_id : option string
}.

(** The tables the Telegram subsystem reads or writes.  [users_seq] is the
    AUTOINCREMENT counter of [users]. *)
Record Db := {
  users : list UserRow;
  users_seq : Z;
  grievance_categories : list CategoryRow;
  grievances : list GrievanceRow;
  telegram_sessions : gmap string TelegramSessionRow;
  telegram_updates : list Z
}.

Record TelegramUser := {
  tg_user_id : Z;
  first_name : option string;
  last_name : option string
}.

Record TelegramLocation := { loc_latitude : Q; loc_longitude : Q }.

Record TelegramMessage := {
  message_id : Z;
  chat_id : Z;
  text : option string;
  msg_location : option TelegramLocation;
  msg_from : option TelegramUser
}.

Record TelegramCallbackQuery := {
  cb_id : string;
  cb_from : TelegramUser;
  data : option string;
  cb_message : option TelegramMessage
}.

Record TelegramUpdate := {
  update_id : Z;
  message : option TelegramMessage;
  callback_query : option TelegramCallbackQuery
}.

(** Replies, with the translated text kept symbolic. *)
Inductive MessageText :=
| Tr (l : TelegramLanguage) (key : TranslationKey)
| TrWith (l : TelegramLanguage) (key : TranslationKey) (params : list (string * string))
| TwoLines (a b : MessageText)
| ComplaintSummary (l : TelegramLanguage) (d : TelegramDraft).

Inductive ReplyMarkup :=
| LanguageKeyboard
| CategoryKeyboard (rows : list (list (string * string)))
| ConfirmationKeyboard (l : TelegramLanguage).

Inductive Outbound :=
| SendMessage (chat : string) (body : MessageText) (markup : option ReplyMarkup)
| AnswerCallbackQuery (callback_query_id : string).

Record World := {
  db : Db;
  outbox : list Outbound
}.

(** What a request draws from its environment: the clock reading of
    [Date.now()] and the hash [bcrypt.hashSync(uuid(), 10)]. *)
Record Env := { now : N; tempPassword : string }.

(** ** Computations that read and write the world, and may throw *)

Inductive Outcome (A : Type) :=
| Returned (a : A) (w : World)
| Thrown (w : World).
Arguments Returned {A} a w.
Arguments Thrown {A} w.

Definition M (A : Type) : Type := World -> Outcome A.

Definition ret {A} (a : A) : M A := fun w => Returned a w.

Definition throw {A} : M A := fun w => Thrown w.

Definition bind {A B} (c : M A) (k : A -> M B) : M B :=
  fun w => match c w with
           | Returned a w' => k a w'
           | Thrown w' => Thrown w'
           end.

Notation "x <- c ;; k" := (bind c (fun x => k))
  (at level 100, c at next level, right associativity).
Notation "c ;;; k" := (bind c (fun _ => k))
  (at level 100, right associativity).

(** [try { c } catch { log }] *)
Definition try_catch (c : M unit) : M unit :=
  fun w => match c w with
           | Returned _ w' => Returned tt w'
           | Thrown w' => Returned tt w'
           end.

Definition final {A} (o : Outcome A) : World :=
  match o with Returned _ w => w | Thrown w => w end.

Definition result {A} (o : Outcome A) : option A :=
  match o with Returned a _ => Some a | Thrown _ => None end.

Definition getDb : M Db := fun w => Returned (db w) w.

Definition setDb (d : Db) : M unit :=
  fun w => Returned tt {| db := d; outbox := outbox w |}.

Definition emit (o : Outbound) : M unit :=
  fun w => Returned tt {| db := db w; outbox := outbox w ++ [o] |}.

(** ** Statements on the tables *)

Definition with_users (us : list UserRow) (seq : Z) (d : Db) : Db :=
  {| users := us; users_seq := seq;
     grievance_categories := grievance_categories d;
     grievances := grievances d;
     telegram_sessions := telegram_sessions d;
     telegram_updates := telegram_updates d |}.

Definition with_grievances (gs : list GrievanceRow) (d : Db) : Db :=
  {| users := users d; users_seq := users_seq d;
     grievance_categories := grievance_categories d;
     grievances := gs;
     telegram_sessions := telegram_sessions d;
     telegram_updates := telegram_updates d |}.

Definition with_sessions (ss : gmap string TelegramSessionRow) (d : Db) : Db :=
  {| users := users d; users_seq := users_seq d;
     grievance_categories := grievance_categories d;
     grievances := grievances d;
     telegram_sessions := ss;
     telegram_updates := telegram_updates d |}.

Definition with_updates (us : list Z) (d : Db) : Db :=
  {| users := users d; users_seq := users_seq d;
     grievance_categories := grievance_categories d;
     grievances := grievances d;
     telegram_sessions := telegram_sessions d;
     telegram_updates := us |}.

Definition found {A} (o : option A) : bool :=
  match o with Some _ => true | None => false end.

Definition opt_is (o : option string) (v : string) : bool :=
  match o with Some x => String.eqb x v | None => false end.

(** [SELECT id FROM users WHERE telegram_chat_id = ?] *)
Definition user_by_chat (d : Db) (chat : string) : option UserRow :=
  find (fun u => opt_is (u_telegram_chat_id u) chat) (users d).

(** [SELECT id FROM users WHERE email = ?] *)
Definition user_by_email (d : Db) (email : string) : option UserRow :=
  find (fun u => String.eqb (u_email u) email) (users d).

Definition user_exists (d : Db) (id : Z) : bool :=
  existsb (fun u => Z.eqb (u_id u) id) (users d).

Definition category_by_id (d : Db) (id : Z) : option CategoryRow :=
  find (fun c => Z.eqb (cat_id c) id) (grievance_categories d).

(** The next AUTOINCREMENT key of [users]. *)
Definition next_user_id (d : Db) : Z :=
  Z.succ (fold_right Z.max (users_seq d) (map u_id (users d))).

(** [UPDATE users SET telegram_chat_id = ? WHERE id = ?], under the unique
    index on [telegram_chat_id]. *)
Definition update_user_chat (id : Z) (chat : string) : M unit :=
  d <- getDb ;;
  if existsb (fun u => opt_is (u_telegram_chat_id u) chat && negb (Z.eqb (u_id u) id)) (users d)
     && user_exists d id
  then throw
  else setDb (with_users
                (map (fun u => if Z.eqb (u_id u) id
                               then {| u_id := u_id u; u_email := u_email u;
                                       u_password := u_password u; u_name := u_name u;
                                       u_role := u_role u;
                                       u_telegram_chat_id := Some chat |}
                               else u) (users d))
                (users_seq d) d).

(** [INSERT INTO users (email, password, name, role, telegram_chat_id)],
    under UNIQUE(email) and the unique index on [telegram_chat_id];
    returns [lastInsertRowid]. *)
Definition insert_user (email password name chat : string) : M Z :=
  d <- getDb ;;
  if existsb (fun u => String.eqb (u_email u) email) (users d)
     || existsb (fun u => opt_is (u_telegram_chat_id u) chat) (users d)
  then throw
  else
    let id := next_user_id d in
    setDb (with_users
             (users d ++ [{| u_id := id; u_email := email; u_password := password;
                             u_name := name; u_role := "citizen";
                             u_telegram_chat_id := Some chat |}])
             id d) ;;;
    ret id.

(** [INSERT INTO grievances ...], under UNIQUE(ticket_number) and the two
    foreign keys. *)
Definition insert_grievance (g : GrievanceRow) : M unit :=
  d <- getDb ;;
  if existsb (fun x => String.eqb (g_ticket_number x) (g_ticket_number g)) (grievances d)
     || negb (user_exists d (g_citizen_id g))
     || negb (found (category_by_id d (g_category_id g)))
  then throw
  else setDb (with_grievances (grievances d ++ [g]) d).

(** ** The Telegram subsystem *)

Record Config := {
  TELEGRAM_BOT_TOKEN : string;
  TELEGRAM_WEBHOOK_SECRET : string
}.

(** Truthiness of an optional number and of an optional string. *)
Definition falsy_num (o : option Z) : bool :=
  match o with Some z => Z.eqb z 0 | None => true end.

Definition falsy_str (o : option string) : bool :=
  match o with Some x => String.eqb x "" | None => true end.

Definition set_state (st : TelegramState) (s : TelegramSession) : TelegramSession :=
  {| chatId := chatId s; userId := userId s; state := st;
     language := language s; draft := draft s |}.

Definition set_draft (d : TelegramDraft) (s : TelegramSession) : TelegramSession :=
  {| chatId := chatId s; userId := userId s; state := state s;
     language := language s; draft := d |}.

Definition set_language (l : TelegramLanguage) (s : TelegramSession) : TelegramSession :=
  {| chatId := chatId s; userId := userId s; state := state s;
     language := l; draft := draft s |}.

Definition set_userId (u : option Z) (s : TelegramSession) : TelegramSession :=
  {| chatId := chatId s; userId := u; state := state s;
     language := language s; draft := draft s |}.

Definition parseTelegramLanguage (input : option string) : option TelegramLanguage :=
  let value := JsString.toLowerCase (JsString.trim (default "" input)) in
  if String.eqb value "en" then Some en
  else if String.eqb value "hi" then Some hi
  else if String.eqb value "mr" then Some mr
  else if JsString.includes ["english"; "eng"] value then Some en
  else if JsString.includes ["hindi"; "hin"] value then Some hi
  else if JsString.includes ["marathi"; "mar"] value then Some mr
  else None.

Definition parseDraft (raw : option DraftText) : TelegramDraft :=
  match raw with
  | Some (TextObject d) => d
  | _ => emptyDraft
  end.

Definition JSON_stringify (d : TelegramDraft) : DraftText := TextObject d.

Definition row_of (s : TelegramSession) : TelegramSessionRow :=
  {| row_user_id := userId s; row_state := state s; row_language := language s;
     row_draft_json := Some (JSON_stringify (draft s)) |}.

(** The row's language is typed [TelegramLanguage], on which the
    membership test of the source is the identity. *)
Definition getTelegramSession (chat : string) : M TelegramSession :=
  d <- getDb ;;
  match telegram_sessions d !! chat with
  | None =>
      let session := {| chatId := chat; userId := None; state := awaiting_language;
                        language := en; draft := emptyDraft |} in
      setDb (with_sessions (<[chat := row_of session]> (telegram_sessions d)) d) ;;;
      ret session
  | Some row =>
      ret {| chatId := chat; userId := row_user_id row; state := row_state row;
             language := row_language row; draft := parseDraft (row_draft_json row) |}
  end.

(** The upsert on [telegram_sessions], under the foreign key on [user_id]. *)
Definition saveTelegramSession (session : TelegramSession) : M unit :=
  d <- getDb ;;
  match userId session with
  | Some u =>
      if user_exists d u
      then setDb (with_sessions (<[chatId session := row_of session]> (telegram_sessions d)) d)
      else throw
  | None =>
      setDb (with_sessions (<[chatId session := row_of session]> (telegram_sessions d)) d)
  end.

Fixpoint insert_by_name (c : CategoryRow) (cs : list CategoryRow) : list CategoryRow :=
  match cs with
  | [] => [c]
  | x :: r => if String.leb (cat_name c) (cat_name x) then c :: cs
              else x :: insert_by_name c r
  end.

(** [SELECT id, name FROM grievance_categories ORDER BY name] *)
Definition getTelegramCategories (d : Db) : list CategoryRow :=
  fold_right insert_by_name [] (grievance_categories d).

Definition keepChar (c : ascii) : bool :=
  let n := JsString.code c in
  ((97 <=? n) && (n <=? 122) || (65 <=? n) && (n <=? 90)
   || (48 <=? n) && (n <=? 57) || (n =? 95) || (n =? 45))%N.

(** [chatId.replace(/[^a-zA-Z0-9_-]/g, "_")] *)
Fixpoint sanitize (s : string) : string :=
  match s with
  | EmptyString => EmptyString
  | String c r => String (if keepChar c then c else "_"%char) (sanitize r)
  end.

Definition fallbackEmail (chat : string) : string :=
  "tg_" +:+ sanitize chat +:+ "@telegram.local".

Definition fullName (chat : string) (user : option TelegramUser) : string :=
  let first := default "" (user ≫= first_name) in
  let last := default "" (user ≫= last_name) in
  let n := JsString.trim (first +:+ " " +:+ last) in
  if String.eqb n "" then "Telegram User " +:+ chat else n.

Definition ensureTelegramCitizen (env : Env) (chat : string) (user : option TelegramUser) : M Z :=
  d <- getDb ;;
  match user_by_chat d chat with
  | Some existing => ret (u_id existing)
  | None =>
      match user_by_email d (fallbackEmail chat) with
      | Some byEmail =>
          update_user_chat (u_id byEmail) chat ;;;
          ret (u_id byEmail)
      | None =>
          insert_user (fallbackEmail chat) (tempPassword env) (fullName chat user) chat
      end
  end.

Definition languageKeyboard : ReplyMarkup := LanguageKeyboard.

Fixpoint keyboard_rows (cs : list CategoryRow) : list (list (string * string)) :=
  match cs with
  | [] => []
  | [a] => [[(cat_name a, "cat:" +:+ pretty (cat_id a))]]
  | a :: b :: r =>
      [(cat_name a, "cat:" +:+ pretty (cat_id a));
       (cat_name b, "cat:" +:+ pretty (cat_id b))] :: keyboard_rows r
  end.

Definition categoryKeyboard (d : Db) : ReplyMarkup :=
  CategoryKeyboard (keyboard_rows (getTelegramCategories d)).

Definition confirmationKeyboard (l : TelegramLanguage) : ReplyMarkup :=
  ConfirmationKeyboard l.

Definition buildComplaintSummary (l : TelegramLanguage) (d : TelegramDraft) : MessageText :=
  ComplaintSummary l d.

(** [`TGM-${Date.now().toString(36).toUpperCase()}`] *)
Definition ticketNumber (env : Env) : string :=
  "TGM-" +:+ JsString.toUpperCase (JsNumber.toString36 (now env)).

Section Bot.

Variable cfg : Config.

(** [Number(s)] when that is an integer, [None] when it is any other
    number or NaN; the lookup of a category by it is by integer key. *)
Variable Number : string -> option Z.

Definition isTelegramEnabled : bool :=
  negb (String.eqb (TELEGRAM_BOT_TOKEN cfg) "").

Definition callTelegramApi (o : Outbound) : M unit :=
  if isTelegramEnabled then emit o else ret tt.

Definition sendTelegramMessage (chat : string) (body : MessageText)
    (markup : option ReplyMarkup) : M unit :=
  callTelegramApi (SendMessage chat body markup).

Definition answerTelegramCallback (id : string) : M unit :=
  callTelegramApi (AnswerCallbackQuery id).

(** The guard of the ticket writer:
    [!session.userId || !session.draft.categoryId
     || !session.draft.description || !session.draft.location]. *)
Definition submit_refused (session : TelegramSession) : bool :=
  falsy_num (userId session) || falsy_num (categoryId (draft session))
  || falsy_str (description (draft session)) || falsy_str (location (draft session)).

(** Returns the ticket, or [None] for the source's [null], and the
    session object as the call leaves it. *)
Definition submitTelegramComplaint (env : Env) (session : TelegramSession) (chat : string)
  : M (option string * TelegramSession) :=
  if submit_refused session
  then ret (None, session)
  else
    let ticket := ticketNumber env in
    let desc := default "" (description (draft session)) in
    let title := JsString.slice0 100 desc in
    insert_grievance
      {| g_ticket_number := ticket;
         g_citizen_id := default 0%Z (userId session);
         g_category_id := default 0%Z (categoryId (draft session));
         g_title := title;
         g_description := desc;
         g_location := default "" (location (draft session));
         g_latitude := latitude (draft session);
         g_longitude := longitude (draft session);
         g_priority := "medium";
         g_status := "submitted";
         g_complaint_status := Some "pending";
         g_source_channel := Some "telegram";
         g_source_user_id := Some chat |} ;;;
    let session' := set_draft emptyDraft (set_state idle session) in
    saveTelegramSession session' ;;;
    ret (Some ticket, session').

Definition telegram_grievance (d : Db) (ticket chat : string) : option GrievanceRow :=
  find (fun g => String.eqb (g_ticket_number g) ticket
                 && opt_is (g_source_channel g) "telegram"
                 && opt_is (g_source_user_id g) chat) (grievances d).

Definition handleTelegramMessage (env : Env) (update : TelegramUpdate) : M unit :=
  match message update with
  | None => ret tt
  | Some message =>
    let chat := pretty (chat_id message) in
    session <- getTelegramSession chat ;;
    let text := JsString.trim (default "" (text message)) in
    let lower := JsString.toLowerCase text in
    if JsString.startsWith lower "/start" || JsString.startsWith lower "/new" then
      let session := set_draft emptyDraft (set_state awaiting_language session) in
      saveTelegramSession session ;;;
      sendTelegramMessage chat
        (TwoLines (Tr (language session) welcome) (Tr (language session) chooseLanguage))
        (Some languageKeyboard)
    else if JsString.startsWith lower "/help" then
      sendTelegramMessage chat (Tr (language session) help) None
    else if JsString.startsWith lower "/cancel" then
      let session := set_draft emptyDraft (set_state idle session) in
      saveTelegramSession session ;;;
      sendTelegramMessage chat (Tr (language session) cancelled) None
    else if JsString.startsWith lower "/status" then
      let ticket := JsString.trim <$> nth_error (JsString.split_ws text) 1 in
      if falsy_str ticket then
        sendTelegramMessage chat (Tr (language session) statusMissing) None
      else
        d <- getDb ;;
        match telegram_grievance d (default "" ticket) chat with
        | None => sendTelegramMessage chat (Tr (language session) statusNotFound) None
        | Some grievance =>
            sendTelegramMessage chat
              (TrWith (language session) statusResult
                 [("ticket", g_ticket_number grievance); ("status", g_status grievance)])
              None
        end
    else
      match state session with
      | awaiting_language =>
          match parseTelegramLanguage (Some text) with
          | None =>
              sendTelegramMessage chat (Tr (language session) chooseLanguage)
                (Some languageKeyboard)
          | Some selected =>
              let session := set_state awaiting_category (set_language selected session) in
              uid <- ensureTelegramCitizen env chat (msg_from message) ;;
              let session := set_userId (Some uid) session in
              saveTelegramSession session ;;;
              d <- getDb ;;
              sendTelegramMessage chat
                (TwoLines (Tr (language session) languageSet)
                          (Tr (language session) chooseCategory))
                (Some (categoryKeyboard d))
          end
      | awaiting_description =>
          if (String.length text <? 10)%nat then
            sendTelegramMessage chat (Tr (language session) invalidDescription) None
          else
            let d := draft session in
            let session :=
              set_state awaiting_location
                (set_draft {| categoryId := categoryId d; categoryName := categoryName d;
                              description := Some text; location := location d;
                              latitude := latitude d; longitude := longitude d |} session) in
            saveTelegramSession session ;;;
            sendTelegramMessage chat (Tr (language session) enterLocation) None
      | awaiting_location =>
          let d := draft session in
          let located :=
            match msg_location message with
            | Some loc =>
                Some {| categoryId := categoryId d; categoryName := categoryName d;
                        description := description d;
                        location := Some (JsNumber.toFixed6 (loc_latitude loc) +:+ ", "
                                          +:+ JsNumber.toFixed6 (loc_longitude loc));
                        latitude := Some (loc_latitude loc);
                        longitude := Some (loc_longitude loc) |}
            | None =>
                if (3 <=? String.length text)%nat
                then Some {| categoryId := categoryId d; categoryName := categoryName d;
                             description := description d; location := Some text;
                             latitude := None; longitude := None |}
                else None
            end in
          match located with
          | None => sendTelegramMessage chat (Tr (language session) invalidLocation) None
          | Some d' =>
              let session := set_state awaiting_confirmation (set_draft d' session) in
              saveTelegramSession session ;;;
              sendTelegramMessage chat
                (buildComplaintSummary (language session) (draft session))
                (Some (confirmationKeyboard (language session)))
          end
      | _ => sendTelegramMessage chat (Tr (language session) unknown) None
      end
  end.

Definition handleTelegramCallback (env : Env) (update : TelegramUpdate) : M unit :=
  match callback_query update with
  | None => ret tt
  | Some callback =>
    match cb_message callback with
    | None => ret tt
    | Some message =>
      let chat := pretty (chat_id message) in
      let data := default "" (data callback) in
      session <- getTelegramSession chat ;;
      answerTelegramCallback (cb_id callback) ;;;
      if JsString.startsWith data "lang:" then
        match parseTelegramLanguage (Some (JsString.replace "lang:" "" data)) with
        | None => ret tt
        | Some selected =>
            let session := set_state awaiting_category (set_language selected session) in
            uid <- ensureTelegramCitizen env chat (Some (cb_from callback)) ;;
            let session := set_userId (Some uid) session in
            saveTelegramSession session ;;;
            d <- getDb ;;
            sendTelegramMessage chat
              (TwoLines (Tr (language session) languageSet)
                        (Tr (language session) chooseCategory))
              (Some (categoryKeyboard d))
        end
      else if JsString.startsWith data "cat:" then
        d <- getDb ;;
        match Number (JsString.replace "cat:" "" data) ≫= category_by_id d with
        | None => ret tt
        | Some category =>
            let dr := draft session in
            let session :=
              set_state awaiting_description
                (set_draft {| categoryId := Some (cat_id category);
                              categoryName := Some (cat_name category);
                              description := description dr; location := location dr;
                              latitude := latitude dr; longitude := longitude dr |}
                           session) in
            saveTelegramSession session ;;;
            sendTelegramMessage chat (Tr (language session) enterDescription) None
        end
      else if String.eqb data "confirm:cancel" then
        let session := set_draft emptyDraft (set_state idle session) in
        saveTelegramSession session ;;;
        sendTelegramMessage chat (Tr (language session) cancelled) None
      else if String.eqb data "confirm:submit" then
        r <- submitTelegramComplaint env session chat ;;
        match r with
        | (None, session) => sendTelegramMessage chat (Tr (language session) unknown) None
        | (Some ticket, session) =>
            sendTelegramMessage chat
              (TrWith (language session) submitted [("ticket", ticket)]) None
        end
      else ret tt
    end
  end.

(** *** The webhook *)

(** The JSON value found at [update_id]: [JsNumeric] is a number that is
    an integer, [JsFraction] any other number. *)
Inductive JsValue :=
| JsUndefined | JsNull | JsBoolean (b : bool) | JsNumeric (z : Z)
| JsFraction (q : Q) | JsText (s : string) | JsObject.

(** [typeof v === "number"] *)
Definition is_number (v : JsValue) : bool :=
  match v with JsNumeric _ | JsFraction _ => true | _ => false end.

(** A request body that is an object. *)
Record Body := {
  body_update_id : JsValue;
  body_message : option TelegramMessage;
  body_callback_query : option TelegramCallbackQuery
}.

(** A request: the secret header, and the body ([None] when it is
    missing or not an object). *)
Record Request := {
  secret_header : option string;
  body : option Body
}.

Inductive ResponseBody :=
| ErrorBody (error : string)
| OkBody (duplicate : bool).

Record Response := { status_code : nat; json : ResponseBody }.

(** Keywords that the parser of SQLite takes as keywords only, never as
    a name (they are outside its fallback list); among them the ones
    that the statements of the server spell.  Keywords are matched
    without regard to case. *)
Definition reserved_word (name : string) : bool :=
  JsString.includes ["select"; "from"; "where"; "as"; "exists"; "insert"; "into";
                     "values"; "update"; "set"; "and"; "or"; "not"; "null"; "order";
                     "join"]
                    (JsString.toLowerCase name).

(** [db.prepare(sql)], by the names that the statement introduces
    unquoted (its column aliases): a reserved word among them is a
    syntax error, and [prepare] throws it. *)
Definition prepare (aliases : list string) : M unit :=
  if existsb reserved_word aliases then throw else ret tt.

(** [db.prepare("SELECT 1 as exists FROM telegram_updates WHERE
    update_id = ?").get(update.update_id)]: whether a row came back. *)
Definition selectUpdate (id : JsValue) : M bool :=
  prepare ["exists"] ;;;
  d <- getDb ;;
  ret (match id with
       | JsNumeric z => existsb (Z.eqb z) (telegram_updates d)
       | _ => false
       end).

(** [db.prepare("INSERT INTO telegram_updates (update_id) VALUES
    (?)").run(update.update_id)], under the INTEGER PRIMARY KEY of the
    column, which takes no number that is not an integer and no
    identifier twice. *)
Definition insertUpdate (id : JsValue) : M unit :=
  prepare [] ;;;
  d <- getDb ;;
  match id with
  | JsNumeric z =>
      if existsb (Z.eqb z) (telegram_updates d) then throw
      else setDb (with_updates (telegram_updates d ++ [z]) d)
  | _ => throw
  end.

(** The [try] of the route, with its [catch] that logs. *)
Definition dispatch (env : Env) (update : TelegramUpdate) : M unit :=
  try_catch
    (match callback_query update, message update with
     | Some _, _ => handleTelegramCallback env update
     | None, Some _ => handleTelegramMessage env update
     | None, None => ret tt
     end).

(** The update object as the handlers read it; they do not read
    [update_id]. *)
Definition update_of (b : Body) : TelegramUpdate :=
  {| update_id := match body_update_id b with JsNumeric z => z | _ => 0%Z end;
     message := body_message b; callback_query := body_callback_query b |}.

(** [POST /webhooks/telegram].  The handler returns the response it
    sends, or throws: the two statements on the ledger stand before the
    [try], so what they throw leaves the handler with no response
    sent. *)
Definition webhook (env : Env) (req : Request) : M Response :=
  if negb isTelegramEnabled then
    ret {| status_code := 503; json := ErrorBody "Telegram integration is disabled" |}
  else if negb (String.eqb (TELEGRAM_WEBHOOK_SECRET cfg) "")
          && negb (String.eqb (default "" (secret_header req)) (TELEGRAM_WEBHOOK_SECRET cfg))
  then ret {| status_code := 401; json := ErrorBody "Invalid webhook secret" |}
  else
    match body req with
    | None => ret {| status_code := 400; json := ErrorBody "Invalid update payload" |}
    | Some update =>
        if negb (is_number (body_update_id update))
        then ret {| status_code := 400; json := ErrorBody "Invalid update payload" |}
        else
          seen <- selectUpdate (body_update_id update) ;;
          if seen then ret {| status_code := 200; json := OkBody true |}
          else
            insertUpdate (body_update_id update) ;;;
            dispatch env (update_of update) ;;;
            ret {| status_code := 200; json := OkBody false |}
    end.

End Bot.

(** ** Invariants of the tables, and the notions the theorems use *)

Section Specs.
Variable cfg : Config.
Variable Number : string -> option Z.

(** The secret check of the webhook lets the request through. *)
Definition secret_passes (req : Request) : bool :=
  String.eqb (TELEGRAM_WEBHOOK_SECRET cfg) ""
  || String.eqb (default "" (secret_header req)) (TELEGRAM_WEBHOOK_SECRET cfg).

(** The session a handler finds for a chat id: the stored one, or the
    default one it creates. *)
Definition session_found (d : Db) (chat : string) : TelegramSession :=
  match telegram_sessions d !! chat with
  | Some row => {| chatId := chat; userId := row_user_id row; state := row_state row;
                   language := row_language row; draft := parseDraft (row_draft_json row) |}
  | None => {| chatId := chat; userId := None; state := awaiting_language;
               language := en; draft := emptyDraft |}
  end.

(** The state stored after a message with trimmed text [text] reaches a
    session that is in [awaiting_language]. *)
Definition first_message_state (text : string) : TelegramState :=
  let lower := JsString.toLowerCase text in
  if JsString.startsWith lower "/start" || JsString.startsWith lower "/new"
  then awaiting_language
  else if JsString.startsWith lower "/help" then awaiting_language
  else if JsString.startsWith lower "/cancel" then idle
  else if JsString.startsWith lower "/status" then awaiting_language
  else if found (parseTelegramLanguage (Some text)) then awaiting_category
  else awaiting_language.

(** The category a [cat:] callback selects. *)
Definition selected_category (d : Db) (data : string) : option CategoryRow :=
  if JsString.startsWith data "lang:" then None
  else if JsString.startsWith data "cat:"
       then Number (JsString.replace "cat:" "" data) ≫= category_by_id d
       else None.

(** The state stored after a callback with payload [data] reaches a
    session that is in [awaiting_language] with no account. *)
Definition first_callback_state (d : Db) (data : string) : TelegramState :=
  if JsString.startsWith data "lang:"
  then if found (parseTelegramLanguage (Some (JsString.replace "lang:" "" data)))
       then awaiting_category else awaiting_language
  else if JsString.startsWith data "cat:"
       then if found (selected_category d data) then awaiting_description
            else awaiting_language
  else if String.eqb data "confirm:cancel" then idle
  else awaiting_language.

Definition first_callback_draft (d : Db) (data : string) : TelegramDraft :=
  match selected_category d data with
  | Some category =>
      {| categoryId := Some (cat_id category); categoryName := Some (cat_name category);
         description := None; location := None; latitude := None; longitude := None |}
  | None => emptyDraft
  end.

(** The row is bound to the chat id. *)
Definition has_chat (chat : string) (u : UserRow) : bool :=
  opt_is (u_telegram_chat_id u) chat.

(** The row after [UPDATE users SET telegram_chat_id = chat WHERE id = id]. *)
Definition bind_chat (id : Z) (chat : string) (u : UserRow) : UserRow :=
  if Z.eqb (u_id u) id
  then {| u_id := u_id u; u_email := u_email u; u_password := u_password u;
          u_name := u_name u; u_role := u_role u; u_telegram_chat_id := Some chat |}
  else u.

(** The schema's constraints on [users]: the primary key, and the unique
    index on the chat binding. *)
Definition accounts_of (d : Db) (chat : string) : list UserRow :=
  List.filter (has_chat chat) (users d).

Definition users_wf (d : Db) : Prop :=
  NoDup (map u_id (users d))
  /\ forall chat, length (accounts_of d chat) <= 1.

(** The foreign key of [telegram_sessions.user_id], at one chat id. *)
Definition session_fk (d : Db) (chat : string) : Prop :=
  forall row u, telegram_sessions d !! chat = Some row ->
                row_user_id row = Some u -> user_exists d u = true.

(** The row stored for a chat id at its first event. *)
Definition default_row : TelegramSessionRow :=
  {| row_user_id := None; row_state := awaiting_language; row_language := en;
     row_draft_json := Some (TextObject emptyDraft) |}.

(** The world a cancel leaves: the session idle with an empty draft, the
    other columns of the row as found, and the reply logged. *)
Definition cancelled_world (w : World) (chat : string) (pre : list Outbound) : World :=
  let s := session_found (db w) chat in
  {| db := with_sessions
             (<[chat := {| row_user_id := userId s; row_state := idle;
                           row_language := language s;
                           row_draft_json := Some (TextObject emptyDraft) |}]>
                (telegram_sessions (db w))) (db w);
     outbox := if isTelegramEnabled cfg
               then outbox w ++ pre ++ [SendMessage chat (Tr (language s) cancelled) None]
               else outbox w |}.

(** What the conversation lets into a stored draft: a description of at
    least 10 code units, and a location of at least 3 code units or one
    that came with coordinates. *)
Definition draft_valid (d : TelegramDraft) : Prop :=
  (forall x, description d = Some x -> 10 <= String.length x)
  /\ (forall l, location d = Some l ->
        3 <= String.length l \/ (is_Some (latitude d) /\ is_Some (longitude d))).

(** A draft from which a ticket may be written. *)
Definition draft_complete (d : TelegramDraft) : Prop :=
  is_Some (categoryId d)
  /\ (exists x, description d = Some x /\ 10 <= String.length x)
  /\ (exists l, location d = Some l
                /\ (3 <= String.length l \/ (is_Some (latitude d) /\ is_Some (longitude d)))).

Definition sessions_valid (d : Db) : Prop :=
  map_Forall (fun _ row => draft_valid (parseDraft (row_draft_json row)))
             (telegram_sessions d).

(** The states of the world that the handlers can leave: it starts
    with no stored session, the handlers run on updates, whichever they
    are, and other endpoints change other tables in between. *)
Inductive reachable : World -> Prop :=
| reach_init w : telegram_sessions (db w) = ∅ -> reachable w
| reach_dispatch env update w :
    reachable w -> reachable (final (dispatch cfg Number env update w))
| reach_other w w' :
    reachable w -> telegram_sessions (db w') = telegram_sessions (db w) -> reachable w'.

End Specs.

(** ** A sample run *)

(** [Number] on the payloads the bot's own keyboard emits: it agrees with
    JavaScript's [Number] on the empty string and on strings of decimal
    digits that denote a safe integer, and gives [None] elsewhere. *)
Definition digitValue (c : ascii) : option Z :=
  let n := JsString.code c in
  if ((48 <=? n) && (n <=? 57))%N then Some (Z.of_N (n - 48)) else None.

Fixpoint decimal_go (acc : Z) (s : string) : option Z :=
  match s with
  | EmptyString => Some acc
  | String c r =>
      match digitValue c with
      | Some v => decimal_go (acc * 10 + v) r
      | None => None
      end
  end.

Definition decimalNumber (s : string) : option Z := decimal_go 0 s.

Definition sample_cfg : Config :=
  {| TELEGRAM_BOT_TOKEN := "123456:token"; TELEGRAM_WEBHOOK_SECRET := "s3cret" |}.

Definition sample_env : Env := {| now := 1700000000000; tempPassword := "$2a$10$hash" |}.

(** The database as [seed] of [db.ts] leaves a new one. *)
Definition seeded_grievance (ticket : string) (category : Z) (title desc loc : string)
    (lat lon : Q) (priority status : string) : GrievanceRow :=
  {| g_ticket_number := ticket; g_citizen_id := 2; g_category_id := category;
     g_title := title; g_description := desc; g_location := loc;
     g_latitude := Some lat; g_longitude := Some lon;
     g_priority := priority; g_status := status;
     g_complaint_status := Some "pending";
     g_source_channel := None; g_source_user_id := None |}.

Definition seeded_db : Db :=
  {| users :=
       [ {| u_id := 1; u_email := "admin@nagarseva.gov"; u_password := "$2a$10$admin";
            u_name := "Municipal Officer"; u_role := "authority";
            u_telegram_chat_id := None |};
         {| u_id := 2; u_email := "citizen@nagarseva.com"; u_password := "$2a$10$citizen";
            u_name := "Harsh"; u_role := "citizen"; u_telegram_chat_id := None |} ];
     users_seq := 2;
     grievance_categories :=
       [ {| cat_id := 1; cat_name := "Roads & Potholes" |};
         {| cat_id := 2; cat_name := "Waste Management" |};
         {| cat_id := 3; cat_name := "Street Lights" |};
         {| cat_id := 4; cat_name := "Water Supply" |};
         {| cat_id := 5; cat_name := "Drainage" |};
         {| cat_id := 6; cat_name := "Public Safety" |} ];
     grievances :=
       [ seeded_grievance "GRV-PNE001" 1 "Deep pothole near FC Road signal"
           "Large pothole causing bike accidents during evening hours."
           "FC Road, Pune" (185204 # 10000) (738567 # 10000) "high" "in_progress";
         seeded_grievance "GRV-PNE002" 2 "Overflowing garbage bin"
           "Bin has not been collected for 4 days and is spilling on road."
           "Kothrud Depot, Pune" (185074 # 10000) (738077 # 10000) "medium" "submitted";
         seeded_grievance "GRV-PNE003" 3 "Street lights not working"
           "Entire lane remains dark after sunset and feels unsafe."
           "Baner Road, Pune" (18559 # 1000) (737868 # 10000) "urgent" "under_review" ];
     telegram_sessions := ∅;
     telegram_updates := [] |}.

Definition seeded_world : World := {| db := seeded_db; outbox := [] |}.

Definition text_message (chat : Z) (t : string) : TelegramMessage :=
  {| message_id := 1; chat_id := chat; text := Some t;
     msg_location := None; msg_from := None |}.

Definition text_update (id chat : Z) (t : string) : TelegramUpdate :=
  {| update_id := id; message := Some (text_message chat t); callback_query := None |}.

Definition button_query (chat : Z) (payload : string) : TelegramCallbackQuery :=
  {| cb_id := "cbq"; cb_from := {| tg_user_id := chat; first_name := Some "Asha";
                                   last_name := None |};
     data := Some payload; cb_message := Some (text_message chat "") |}.

Definition button_update (id chat : Z) (payload : string) : TelegramUpdate :=
  {| update_id := id; message := None; callback_query := Some (button_query chat payload) |}.

Definition request_of (u : TelegramUpdate) : Request :=
  {| secret_header := Some "s3cret";
     body := Some {| body_update_id := JsNumeric (update_id u);
                     body_message := message u;
                     body_callback_query := callback_query u |} |}.

(** The handlers on an update, as the [try] of the route has them. *)
Definition serve (u : TelegramUpdate) (w : World) : World :=
  final (dispatch sample_cfg decimalNumber sample_env u w).

(** Chat 555 up to the confirmation prompt. *)
Definition world_555_confirming : World :=
  serve (text_update 5 555 "Market Road")
    (serve (text_update 4 555 "Garbage overflowing near the market for five days")
       (serve (button_update 3 555 "cat:2")
          (serve (text_update 2 555 "en")
             (serve (text_update 1 555 "/start") seeded_world)))).

(** Chat 555 at the choice of the category, at the prompt for the
    description and at the prompt for the location. *)
Definition world_555_choosing : World :=
  serve (text_update 2 555 "en") (serve (text_update 1 555 "/start") seeded_world).

Definition world_555_describing : World :=
  serve (button_update 3 555 "cat:2") world_555_choosing.

Definition world_555_locating : World :=
  serve (text_update 4 555 "Garbage overflowing near the market for five days")
    world_555_describing.

(** Chats 555 and 777 both at the confirmation prompt. *)
Definition world_two_confirming : World :=
  serve (text_update 15 777 "Station Road")
    (serve (text_update 14 777 "Street light broken since last week")
       (serve (button_update 13 777 "cat:3")
          (serve (text_update 12 777 "hindi")
             (serve (text_update 11 777 "/new") world_555_confirming)))).

(** ** The dashboard page *)

Module Dashboard.

(** The fields of the client's [Grievance] that the page's status logic
    reads. *)
Record Grievance := {
  gr_id : Z;
  gr_ticket_number : string;
  gr_status : string;
  gr_complaint_status : option string;
  gr_category_name : option string
}.

Definition normalizeStatus (item : Grievance) : string :=
  Status.normalizeStatus (gr_status item) (gr_complaint_status item).

Definition statusLabel (status : string) : string :=
  if String.eqb status "in_progress" then "In Progress"
  else if String.eqb status "accepted" then "Accepted"
  else if String.eqb status "closed" then "Closed"
  else "Submitted".

Record Stats := {
  total : nat; open : nat; closed : nat; accepted : nat; inProgress : nat
}.

Definition count_stage (stage : string) (normalized : list string) : nat :=
  length (List.filter (fun status => String.eqb status stage) normalized).

(** The [stats] memo. *)
Definition stats (grievances : list Grievance) : Stats :=
  let normalized := map normalizeStatus grievances in
  let total := length normalized in
  let closed := count_stage "closed" normalized in
  {| total := total; open := total - closed; closed := closed;
     accepted := count_stage "accepted" normalized;
     inProgress := count_stage "in_progress" normalized |}.

(** [[...new Set(all)]]: the first occurrences, in order. *)
Fixpoint unique_go (seen : list string) (l : list string) : list string :=
  match l with
  | [] => []
  | x :: r => if JsString.includes seen x then unique_go seen r
              else x :: unique_go (x :: seen) r
  end.

(** The [categories] memo: the names that are present and not empty. *)
Definition categories (grievances : list Grievance) : list string :=
  unique_go []
    (omap (fun item => match gr_category_name item with
                       | Some c => if String.eqb c "" then None else Some c
                       | None => None
                       end) grievances).

(** The predicate of the [filteredGrievances] memo. *)
Definition keeps (statusFilter categoryFilter : string) (item : Grievance) : bool :=
  let normalizedStatus := normalizeStatus item in
  let statusOk := String.eqb statusFilter "all" || String.eqb normalizedStatus statusFilter in
  let categoryOk := String.eqb categoryFilter "all"
                    || opt_is (gr_category_name item) categoryFilter in
  statusOk && categoryOk.

Definition filteredGrievances (statusFilter categoryFilter : string)
    (grievances : list Grievance) : list Grievance :=
  List.filter (keeps statusFilter categoryFilter) grievances.

(** The refs of the polling effect. *)
Record Poll := {
  previousStatuses : gmap Z string;
  initialized : bool
}.

Definition nextStatuses (data : list Grievance) : gmap Z string :=
  fold_left (fun m item => <[gr_id item := normalizeStatus item]> m) data ∅.

(** [prev && prev !== curr] *)
Definition stage_changed (previous : gmap Z string) (item : Grievance) : bool :=
  match previous !! gr_id item with
  | Some prev => negb (String.eqb prev "") && negb (String.eqb prev (normalizeStatus item))
  | None => false
  end.

Definition alert_text (changed : Grievance) : string :=
  "Government authority has changed status of " +:+ gr_ticket_number changed
  +:+ " to " +:+ statusLabel (normalizeStatus changed) +:+ ".".

(** One run of [load] with the fetched [data]: the alert it raises, if
    any, and the refs it leaves. *)
Definition load (p : Poll) (data : list Grievance) : option string * Poll :=
  let next := nextStatuses data in
  let raised :=
    if initialized p
    then alert_text <$> find (stage_changed (previousStatuses p)) data
    else None in
  (raised, {| previousStatuses := next; initialized := true |}).

End Dashboard.

(** ** The authority's status update *)

(** The CHECK constraint on [grievances.status] in the schema of [db.ts]. *)
Definition schema_status_check (status : string) : bool :=
  JsString.includes ["submitted"; "under_review"; "in_progress"; "awaiting_confirmation";
                     "closed"; "escalated"; "reopened"] status.

Definition statusMap (status : string) : list string :=
  if String.eqb status "accepted" then ["under_review"; "assigned"]
  else if String.eqb status "in_progress" then ["in_progress"]
  else if String.eqb status "closed" then ["closed"; "resolved"]
  else [].

(** [authorityStatusSchema]: the field is one of the three stage names. *)
Definition authorityStatus (status : option string) : option string :=
  match status with
  | Some v => if JsString.includes ["accepted"; "in_progress"; "closed"] v
              then Some v else None
  | None => None
  end.

Definition set_status (status complaint_status : string) (g : GrievanceRow) : GrievanceRow :=
  {| g_ticket_number := g_ticket_number g; g_citizen_id := g_citizen_id g;
     g_category_id := g_category_id g; g_title := g_title g;
     g_description := g_description g; g_location := g_location g;
     g_latitude := g_latitude g; g_longitude := g_longitude g;
     g_priority := g_priority g; g_status := status;
     g_complaint_status := Some complaint_status;
     g_source_channel := g_source_channel g; g_source_user_id := g_source_user_id g |}.

(** [UPDATE grievances SET status = ?, complaint_status = ? WHERE id = ?]
    under a CHECK constraint [check] on [status].  The row the key selects
    is given by its place in the table ([None] when no row has the key);
    the result is [None] when the statement throws. *)
Definition update_status (check : string -> bool) (status complaint_status : string)
    (target : option nat) (gs : list GrievanceRow) : option (list GrievanceRow) :=
  match target ≫= (fun i => (fun g => (i, g)) <$> gs !! i) with
  | None => Some gs
  | Some (i, g) =>
      if check status then Some (<[i := set_status status complaint_status g]> gs)
      else None
  end.

(** The loop over the candidate status values: the first one that the
    table accepts. *)
Fixpoint try_candidates (check : string -> bool) (candidates : list string)
    (complaint_status : string) (target : option nat) (gs : list GrievanceRow)
  : option (list GrievanceRow) :=
  match candidates with
  | [] => None
  | nextStatus :: rest =>
      match update_status check nextStatus complaint_status target gs with
      | Some gs' => Some gs'
      | None => try_candidates check rest complaint_status target gs
      end
  end.

Inductive PatchResponse :=
| PatchError (code : nat) (error : string)
| PatchOk (ticket status : string) (complaint_status : option string).

(** [PATCH /api/authority/grievances/:id/status] for an authenticated
    user with role [role]. *)
Definition patchStatus (check : string -> bool) (role : string) (status : option string)
    (target : option nat) (d : Db) : PatchResponse * Db :=
  if negb (String.eqb role "authority") then (PatchError 403 "Forbidden", d)
  else
    match authorityStatus status with
    | None => (PatchError 400 "Invalid status payload", d)
    | Some requested =>
        match try_candidates check (statusMap requested) requested target (grievances d) with
        | None =>
            (PatchError 500 "Unable to update status for current database schema", d)
        | Some gs' =>
            match target ≫= (fun i => gs' !! i) with
            | None => (PatchError 404 "Complaint not found", with_grievances gs' d)
            | Some row =>
                (PatchOk (g_ticket_number row) (g_status row) (g_complaint_status row),
                 with_grievances gs' d)
            end
        end
    end.

(** ** More notions the theorems use *)

(** The canonical stages. *)
Definition stages : list string := ["submitted"; "accepted"; "in_progress"; "closed"].

(** The columns of a [users] row other than the chat binding. *)
Definition user_core (u : UserRow) : Z * string * string * string * string :=
  (u_id u, u_email u, u_password u, u_name u, u_role u).

(** Nothing stored in [w] is removed or rewritten in [w']: the ledger,
    the tickets, the accounts (their columns other than the chat
    binding) and the outbox are extended at the end, the categories are
    the same, and every chat id that had a session still has one. *)
Definition only_adds (w w' : World) : Prop :=
  telegram_updates (db w) `prefix_of` telegram_updates (db w')
  /\ grievances (db w) `prefix_of` grievances (db w')
  /\ map user_core (users (db w)) `prefix_of` map user_core (users (db w'))
  /\ grievance_categories (db w') = grievance_categories (db w)
  /\ (forall chat, is_Some (telegram_sessions (db w) !! chat) ->
                   is_Some (telegram_sessions (db w') !! chat))
  /\ outbox w `prefix_of` outbox w'.

(** The foreign key of [telegram_sessions.user_id], at every chat id. *)
Definition sessions_fk (d : Db) : Prop :=
  forall chat, session_fk d chat.

(** The trimmed text is one of the commands that the message handler
    serves before it looks at the state. *)
Definition is_command (text : string) : bool :=
  let lower := JsString.toLowerCase text in
  JsString.startsWith lower "/start" || JsString.startsWith lower "/new"
  || JsString.startsWith lower "/help" || JsString.startsWith lower "/cancel"
  || JsString.startsWith lower "/status".

(** The session with state and draft reset. *)
Definition reset_to (st : TelegramState) (s : TelegramSession) : TelegramSession :=
  set_draft emptyDraft (set_state st s).

(** The world as the session lookup for [chat] leaves it: a chat id seen
    for the first time gets the default row. *)
Definition opened (w : World) (chat : string) : World :=
  match telegram_sessions (db w) !! chat with
  | Some _ => w
  | None => {| db := with_sessions (<[chat := default_row]> (telegram_sessions (db w))) (db w);
               outbox := outbox w |}
  end.

(** The other constraints of the schema: UNIQUE on [users.email] and on
    [grievances.ticket_number], and the foreign keys of [grievances]. *)
Definition emails_unique (d : Db) : Prop := NoDup (map u_email (users d)).

Definition tickets_unique (d : Db) : Prop := NoDup (map g_ticket_number (grievances d)).

Definition grievances_fk (d : Db) : Prop :=
  Forall (fun g => user_exists d (g_citizen_id g) = true
                   /\ found (category_by_id d (g_category_id g)) = true)
         (grievances d).

Definition schema_ok (d : Db) : Prop :=
  users_wf d /\ emails_unique d /\ tickets_unique d /\ sessions_fk d /\ grievances_fk d.

(** A computation leaves [P] in force on the database, whether it
    returns or throws. *)
Definition preserves {A} (P : Db -> Prop) (c : M A) : Prop :=
  forall w, P (db w) -> P (db (final (c w))).

(** Reading a ticket number back: the value of a digit of an upper-case
    base-36 numeral, the value of the numeral, and the clock reading in
    a ticket number of the bot. *)
Definition value36 (c : ascii) : N :=
  let n := JsString.code c in
  if (n <? 58)%N then (n - 48)%N else (n - 55)%N.

Fixpoint parse36_go (acc : N) (s : string) : N :=
  match s with
  | EmptyString => acc
  | String c r => parse36_go (acc * 36 + value36 c) r
  end.

Definition clockOfTicket (ticket : string) : N :=
  parse36_go 0 (JsString.drop 4 ticket).

(** A draft with one step of the conversation filled in. *)
Definition with_category (c : CategoryRow) (d : TelegramDraft) : TelegramDraft :=
  {| categoryId := Some (cat_id c); categoryName := Some (cat_name c);
     description := description d; location := location d;
     latitude := latitude d; longitude := longitude d |}.

Definition with_description (text : string) (d : TelegramDraft) : TelegramDraft :=
  {| categoryId := categoryId d; categoryName := categoryName d;
     description := Some text; location := location d;
     latitude := latitude d; longitude := longitude d |}.

Definition with_place (text : string) (d : TelegramDraft) : TelegramDraft :=
  {| categoryId := categoryId d; categoryName := categoryName d;
     description := description d; location := Some text;
     latitude := None; longitude := None |}.

Definition with_coordinates (loc : TelegramLocation) (d : TelegramDraft) : TelegramDraft :=
  {| categoryId := categoryId d; categoryName := categoryName d;
     description := description d;
     location := Some (JsNumber.toFixed6 (loc_latitude loc) +:+ ", "
                       +:+ JsNumber.toFixed6 (loc_longitude loc));
     latitude := Some (loc_latitude loc); longitude := Some (loc_longitude loc) |}.

(** A button of the category keyboard: its label and its payload. *)
Definition category_button (c : CategoryRow) : string * string :=
  (cat_name c, "cat:" +:+ pretty (cat_id c)).

(** Row [k] of the keyboard holds the buttons of categories [2k] and
    [2k+1], the second one when there is such a category. *)
Definition row_at (cs : list CategoryRow) (k : nat) : option (list (string * string)) :=
  match cs !! (2 * k) with
  | None => None
  | Some a => Some (category_button a
                      :: match cs !! (2 * k + 1) with
                         | Some b => [category_button b]
                         | None => []
                         end)
  end.

(** The order of [ORDER BY name]. *)
Definition by_name (a b : CategoryRow) : Prop :=
  String.leb (cat_name a) (cat_name b) = true.

(** The row the ticket writer inserts for a session, and the checks of
    the schema on it: UNIQUE(ticket_number) and the two foreign keys. *)
Definition ticket_row (env : Env) (s : TelegramSession) (chat : string) : GrievanceRow :=
  {| g_ticket_number := ticketNumber env;
     g_citizen_id := default 0%Z (userId s);
     g_category_id := default 0%Z (categoryId (draft s));
     g_title := JsString.slice0 100 (default "" (description (draft s)));
     g_description := default "" (description (draft s));
     g_location := default "" (location (draft s));
     g_latitude := latitude (draft s);
     g_longitude := longitude (draft s);
     g_priority := "medium";
     g_status := "submitted";
     g_complaint_status := Some "pending";
     g_source_channel := Some "telegram";
     g_source_user_id := Some chat |}.

Definition row_rejected (d : Db) (g : GrievanceRow) : bool :=
  existsb (fun x => String.eqb (g_ticket_number x) (g_ticket_number g)) (grievances d)
  || negb (user_exists d (g_citizen_id g))
  || negb (found (category_by_id d (g_category_id g))).

(** The world with one more ticket. *)
Definition filed_world (w : World) (g : GrievanceRow) : World :=
  {| db := with_grievances (grievances (db w) ++ [g]) (db w); outbox := outbox w |}.

Section Specs2.
Variable cfg : Config.

(** The world after the replies [out] were sent. *)
Definition reply_world (w : World) (out : list Outbound) : World :=
  {| db := db w;
     outbox := if isTelegramEnabled cfg then outbox w ++ out else outbox w |}.

(** The world after the session [s] was stored and the replies [out]
    were sent. *)
Definition saved_world (w : World) (s : TelegramSession) (out : list Outbound) : World :=
  {| db := with_sessions (<[chatId s := row_of s]> (telegram_sessions (db w))) (db w);
     outbox := if isTelegramEnabled cfg then outbox w ++ out else outbox w |}.

(** The reply to a message that the state of the session does not
    accept, if it does not accept it. *)
Definition reprompt (s : TelegramSession) (text : string) (loc : option TelegramLocation)
  : option Outbound :=
  match state s with
  | awaiting_language =>
      if found (parseTelegramLanguage (Some text)) then None
      else Some (SendMessage (chatId s) (Tr (language s) chooseLanguage)
                             (Some languageKeyboard))
  | awaiting_description =>
      if (String.length text <? 10)%nat
      then Some (SendMessage (chatId s) (Tr (language s) invalidDescription) None)
      else None
  | awaiting_location =>
      if found loc || (3 <=? String.length text)%nat then None
      else Some (SendMessage (chatId s) (Tr (language s) invalidLocation) None)
  | _ => Some (SendMessage (chatId s) (Tr (language s) unknown) None)
  end.

End Specs2.

(** ** A conversation *)

(** The update is a text message of chat [z] with text [t] and no shared
    location; the update is a press, in chat [z], of a button with the
    payload [p]. *)
Definition says (z : Z) (t : string) (u : TelegramUpdate) : Prop :=
  callback_query u = None
  /\ exists m, message u = Some m /\ chat_id m = z /\ text m = Some t
               /\ msg_location m = None.

Definition presses (z : Z) (p : string) (u : TelegramUpdate) : Prop :=
  exists cb m, callback_query u = Some cb /\ cb_message cb = Some m
               /\ chat_id m = z /\ data cb = Some p.

Section Conversation.
Variable cfg : Config.
Variable Number : string -> option Z.

(** The updates handled one after the other, each at its own clock
    reading. *)
Definition converse (steps : list (Env * TelegramUpdate)) (w : World) : World :=
  fold_left (fun w step => final (dispatch cfg Number (fst step) (snd step) w)) steps w.

End Conversation.

(** Where a conversation that started in [w0] stands: the session
    stored for the chat, the accounts, and the tickets and categories as
    they were in [w0]. *)
Definition at_step (w0 : World) (us : list UserRow) (seq : Z) (chat : string)
    (s : TelegramSession) (w : World) : Prop :=
  session_found (db w) chat = s
  /\ is_Some (telegram_sessions (db w) !! chat)
  /\ users (db w) = us /\ users_seq (db w) = seq
  /\ grievances (db w) = grievances (db w0)
  /\ grievance_categories (db w) = grievance_categories (db w0).

(** ** Bearer tokens *)

(** [SessionUser] *)
Record SessionUser := {
  su_id : Z; su_email : string; su_name : string; su_role : string
}.

(** The [sessions] map of the process and the [user_sessions] table. *)
Record Tokens := {
  token_cache : gmap string SessionUser;
  user_sessions : gmap string Z
}.

Definition sessionUser_of (u : UserRow) : SessionUser :=
  {| su_id := u_id u; su_email := u_email u; su_name := u_name u; su_role := u_role u |}.

(** [req.headers.authorization?.replace("Bearer ", "")] *)
Definition bearer (authorization : option string) : option string :=
  JsString.replace "Bearer " "" <$> authorization.

(** The SELECT of [auth]: [user_sessions] joined with [users]. *)
Definition session_row (d : Db) (t : Tokens) (token : string) : option SessionUser :=
  user_sessions t !! token
    ≫= fun uid => sessionUser_of <$> find (fun u => Z.eqb (u_id u) uid) (users d).

(** [auth]: the user put on the request, [None] for the 401 response,
    and the stores as the call leaves them. *)
Definition auth (d : Db) (authorization : option string) (t : Tokens)
  : option SessionUser * Tokens :=
  match bearer authorization with
  | None => (None, t)
  | Some token =>
      if String.eqb token "" then (None, t)
      else
        match token_cache t !! token with
        | Some sessionUser => (Some sessionUser, t)
        | None =>
            match session_row d t token with
            | Some row =>
                (Some row, {| token_cache := <[token := row]> (token_cache t);
                              user_sessions := user_sessions t |})
            | None => (None, t)
            end
        end
  end.

(** [POST /api/auth/logout]: the status of the response and the stores. *)
Definition logout (d : Db) (authorization : option string) (t : Tokens) : nat * Tokens :=
  match auth d authorization t with
  | (None, t') => (401, t')
  | (Some _, t') =>
      match bearer authorization with
      | Some token =>
          if String.eqb token "" then (200, t')
          else (200, {| token_cache := delete token (token_cache t');
                        user_sessions := delete token (user_sessions t') |})
      | None => (200, t')
      end
  end.

(** The fields of the login body.  An e-mail address or a password that
    is absent or not a string is [None]; the role is [None] when it is
    absent or null, and a role that is not a string is not represented. *)
Record Credentials := {
  cred_email : option string;
  cred_password : option string;
  cred_role : option string
}.

Inductive LoginResponse :=
| LoginError (code : nat) (error : string)
| LoginOk (token : string) (user : SessionUser).

Section Login.

(** [z.string().email()] and [bcrypt.compareSync]. *)
Variable isEmail : string -> bool.
Variable compareSync : string -> string -> bool.

(** [authSchema.safeParse(req.body)] *)
Definition authSchema (body : Credentials) : option (string * string) :=
  match cred_email body, cred_password body with
  | Some email, Some password =>
      if isEmail email && (6 <=? String.length password)%nat
      then Some (email, password) else None
  | _, _ => None
  end.

(** [POST /api/auth/login], with [token] the value [uuid()] returns. *)
Definition login (d : Db) (token : string) (body : Credentials) (t : Tokens)
  : LoginResponse * Tokens :=
  match authSchema body with
  | None => (LoginError 400 "Invalid payload", t)
  | Some (email, password) =>
      let role := default "citizen" (cred_role body) in
      match find (fun u => String.eqb (u_email u) email && String.eqb (u_role u) role)
                 (users d) with
      | None => (LoginError 401 "Invalid credentials", t)
      | Some user =>
          if compareSync password (u_password user)
          then (LoginOk token (sessionUser_of user),
                {| token_cache := <[token := sessionUser_of user]> (token_cache t);
                   user_sessions := <[token := u_id user]> (user_sessions t) |})
          else (LoginError 401 "Invalid credentials", t)
      end
  end.

End Login.

(** * Theorems *)

(** ** Running a handler on a symbolic world *)

Ltac unfold_ops :=
  unfold dispatch, try_catch, handleTelegramCallback, handleTelegramMessage,
    submitTelegramComplaint, submit_refused, ensureTelegramCitizen, sendTelegramMessage,
    answerTelegramCallback, callTelegramApi, getTelegramSession, saveTelegramSession,
    insert_grievance, insert_user, update_user_chat,
    bind, ret, throw, getDb, setDb, emit, final in *.

(** Case analysis on the innermost scrutinee of the goal. *)
Ltac destr x :=
  lazymatch x with
  | context [match ?y with _ => _ end] => destr y
  | _ => destruct x eqn:?
  end.

Ltac step :=
  match goal with
  | |- context [match ?x with _ => _ end] => destr x
  end.

(** The same, stopping at a call of the identity resolver. *)
Ltac destr_upto x :=
  lazymatch x with
  | context [match ?y with _ => _ end] => destr_upto y
  | ensureTelegramCitizen _ _ _ _ => fail
  | _ => destruct x eqn:?
  end.

Ltac step_upto :=
  match goal with
  | |- context [match ?x with _ => _ end] => destr_upto x
  end.

(** Runs the handlers of the goal branch by branch. *)
Ltac run :=
  unfold_ops; cbn -[Nat.leb Nat.ltb];
  repeat (step; cbn -[Nat.leb Nat.ltb]; try done).

(** ** The string and number primitives on sample inputs *)

Example trim_sample : JsString.trim "  /Status   GRV-1  " = "/Status   GRV-1".
Proof. reflexivity. Qed.

Example split_sample :
  JsString.split_ws "/status   TGM-AB12 extra" = ["/status"; "TGM-AB12"; "extra"]
  /\ JsString.split_ws "/status" = ["/status"]
  /\ JsString.split_ws " a b " = [""; "a"; "b"; ""].
Proof. repeat split. Qed.

Example replace_sample :
  JsString.replace "lang:" "" "lang:hi" = "hi"
  /\ JsString.replace "cat:" "" "cat:12" = "12".
Proof. split; reflexivity. Qed.

Example toString36_sample :
  JsNumber.toString36 0 = "0" /\ JsNumber.toString36 35 = "z"
  /\ JsNumber.toString36 36 = "10" /\ JsNumber.toString36 1700000000000 = "loyw3v28".
Proof. repeat split; vm_compute; reflexivity. Qed.

Example toFixed6_sample :
  JsNumber.toFixed6 (185204 # 10000) = "18.520400"
  /\ JsNumber.toFixed6 (-(738567 # 10000)) = "-73.856700"
  /\ JsNumber.toFixed6 0 = "0.000000".
Proof. repeat split; vm_compute; reflexivity. Qed.

Example parseTelegramLanguage_sample :
  parseTelegramLanguage (Some " English ") = Some en
  /\ parseTelegramLanguage (Some "HIN") = Some hi
  /\ parseTelegramLanguage (Some "mr") = Some mr
  /\ parseTelegramLanguage (Some "/start") = None
  /\ parseTelegramLanguage None = None.
Proof. repeat split. Qed.

Example fallbackEmail_sample :
  fallbackEmail "555" = "tg_555@telegram.local"
  /\ fallbackEmail "-1001.5" = "tg_-1001_5@telegram.local".
Proof. split; reflexivity. Qed.

(** ** Status normalisation *)

Section StatusFacts.
Import Status.

Ltac split_on s :=
  destruct (String.eqb_spec s "resolved") as [-> | ?];
  [ | destruct (String.eqb_spec s "closed") as [-> | ?];
  [ | destruct (String.eqb_spec s "under_review") as [-> | ?];
  [ | destruct (String.eqb_spec s "assigned") as [-> | ?];
  [ | destruct (String.eqb_spec s "escalated") as [-> | ?];
  [ | destruct (String.eqb_spec s "reopened") as [-> | ?];
  [ | destruct (String.eqb_spec s "in_progress") as [-> | ?];
  [ | destruct (String.eqb_spec s "awaiting_confirmation") as [-> | ?];
  [ | destruct (String.eqb_spec s "accepted") as [-> | ?] ]]]]]]]].

Ltac split_coarse c :=
  destruct c as [c|]; cbn;
  [ destruct (String.eqb_spec c "accepted") as [-> | ?];
    [ | destruct (String.eqb_spec c "in_progress") as [-> | ?];
    [ | destruct (String.eqb_spec c "closed") as [-> | ?] ]] | ].

Lemma normalizeStatus_eq status c :
  normalizeStatus status c = default (legacyTable status) (coarseStage c).
Proof.
  unfold normalizeStatus, legacyTable, coarseStage, isStage, coarse_is, JsString.includes.
  cbn [existsb]. split_coarse c; cbn; try reflexivity; split_on status; reflexivity.
Qed.

Lemma trackStage_eq status c :
  trackStage status c = later (legacyTable status) (default "submitted" (coarseStage c)).
Proof.
  unfold trackStage, later, legacyTable, coarseStage, isStage, JsString.includes.
  cbn [existsb default]. split_coarse c; cbn; split_on status; reflexivity.
Qed.

Lemma agree_eqb status c :
  String.eqb (trackStage status c) (normalizeStatus status c) = agree status c.
Proof.
  rewrite trackStage_eq, normalizeStatus_eq. unfold agree, later.
  unfold legacyTable, coarseStage, isStage, JsString.includes. cbn [existsb default].
  split_coarse c; cbn; split_on status; reflexivity.
Qed.

(** C2, as amended.  [normalizeStatus] of the dashboard returns the
    coarse value when that is one of the non-default values of the field
    (accepted, in_progress, closed), and the entry of the fixed legacy
    table when the coarse value is absent or the default pending.  The
    stage computation of the tracking endpoint returns the later of the
    entry of the legacy table and the coarse value's stage: it returns a
    non-default coarse value exactly when the legacy value's stage is not
    later than it, and the entry of the legacy table when the coarse
    value is absent or pending.  The three sample values hold on both. *)
Theorem stage_precedence :
  (forall status c, normalizeStatus status c = default (legacyTable status) (coarseStage c))
  /\ (forall status c, In c complaintStatusValues -> c <> "pending" ->
        normalizeStatus status (Some c) = c)
  /\ (forall status c, c = None \/ c = Some "pending" ->
        normalizeStatus status c = legacyTable status)
  /\ (forall status, legacyTable status =
        if String.eqb status "resolved" || String.eqb status "closed" then "closed"
        else if String.eqb status "under_review" || String.eqb status "assigned"
                || String.eqb status "escalated" || String.eqb status "reopened"
             then "accepted"
        else if String.eqb status "in_progress" || String.eqb status "awaiting_confirmation"
             then "in_progress"
        else "submitted")
  /\ (forall status c,
        trackStage status c = later (legacyTable status) (default "submitted" (coarseStage c)))
  /\ (forall status c, In c complaintStatusValues -> c <> "pending" ->
        (trackStage status (Some c) = c <-> rank (legacyTable status) <= rank c))
  /\ (forall status c, c = None \/ c = Some "pending" ->
        trackStage status c = legacyTable status)
  /\ normalizeStatus "resolved" None = "closed"
  /\ normalizeStatus "in_progress" (Some "pending") = "in_progress"
  /\ normalizeStatus "submitted" (Some "accepted") = "accepted"
  /\ trackStage "resolved" None = "closed"
  /\ trackStage "in_progress" (Some "pending") = "in_progress"
  /\ trackStage "submitted" (Some "accepted") = "accepted".
Proof.
  split; [exact normalizeStatus_eq|].
  split.
  { intros status c Hin Hne. rewrite normalizeStatus_eq.
    cbn in Hin. destruct Hin as [<- | [<- | [<- | [<- | []]]]]; [done | reflexivity ..]. }
  split.
  { intros status c [-> | ->]; rewrite normalizeStatus_eq; reflexivity. }
  split.
  { intros status. unfold legacyTable, JsString.includes. cbn [existsb].
    split_on status; reflexivity. }
  split; [exact trackStage_eq|].
  split.
  { intros status c Hin Hne. rewrite trackStage_eq.
    unfold later, legacyTable, JsString.includes. cbn [existsb].
    cbn in Hin. destruct Hin as [<- | [<- | [<- | [<- | []]]]]; [done | ..];
      split_on status; cbn; split; intros H; first [reflexivity | lia | discriminate H]. }
  split.
  { intros status c [-> | ->]; rewrite trackStage_eq; unfold later;
      unfold legacyTable, JsString.includes; cbn [existsb];
      split_on status; reflexivity. }
  repeat split.
Qed.

(** The tracking endpoint returns the same three sample values. *)
Lemma trackStage_samples :
  trackStage "resolved" None = "closed"
  /\ trackStage "in_progress" (Some "pending") = "in_progress"
  /\ trackStage "submitted" (Some "accepted") = "accepted".
Proof. repeat split. Qed.

(** C3, as amended.  The tracking endpoint returns the later of the
    legacy value's stage and the coarse value's stage; the dashboard
    returns the coarse value's stage when there is one.  The two agree
    exactly when the coarse value carries no stage or the legacy value's
    stage is not later than it, which covers every pair the server's own
    statements write. *)
Theorem stage_paths_agree_iff :
  forall status c,
    trackStage status c = later (legacyTable status) (default "submitted" (coarseStage c))
    /\ normalizeStatus status c = default (legacyTable status) (coarseStage c)
    /\ (trackStage status c = normalizeStatus status c <->
        match coarseStage c with
        | None => True
        | Some k => rank (legacyTable status) <= rank k
        end)
    /\ Forall (fun p => trackStage (fst p) (snd p) = normalizeStatus (fst p) (snd p))
              written_pairs.
Proof.
  intros status c. split; [apply trackStage_eq|]. split; [apply normalizeStatus_eq|].
  split.
  - rewrite <- String.eqb_eq, agree_eqb. unfold agree.
    destruct (coarseStage c) as [k|]; [|done].
    rewrite Nat.leb_le. done.
  - unfold written_pairs. repeat (constructor; [reflexivity|]). constructor.
Qed.

End StatusFacts.

(** C3, as stated: a record whose coarse value is accepted and whose legacy
    value is in_progress is shown as accepted by the dashboard and as
    in_progress by the tracking endpoint. *)
Lemma stage_paths_differ :
  Status.trackStage "in_progress" (Some "accepted") = "in_progress"
  /\ Status.normalizeStatus "in_progress" (Some "accepted") = "accepted"
  /\ ~ (forall status c, Status.trackStage status c = Status.normalizeStatus status c).
Proof.
  split; [reflexivity|]. split; [reflexivity|].
  intros H. specialize (H "in_progress" (Some "accepted")). discriminate H.
Qed.

(** C2, as stated: on a record whose coarse value is accepted and whose
    legacy value is in_progress the stage computation of the tracking
    endpoint returns in_progress, not the coarse value. *)
Lemma tracking_stage_not_coarse :
  In "accepted" Status.complaintStatusValues
  /\ "accepted" <> "pending"
  /\ Status.trackStage "in_progress" (Some "accepted") = "in_progress"
  /\ Status.trackStage "in_progress" (Some "accepted") <> "accepted"
  /\ ~ (forall status c, In c Status.complaintStatusValues -> c <> "pending" ->
                         Status.trackStage status (Some c) = c).
Proof.
  assert (Hin : In "accepted" Status.complaintStatusValues) by (cbn; tauto).
  split; [exact Hin|]. split; [discriminate|]. split; [reflexivity|].
  split; [discriminate|].
  intros H. specialize (H "in_progress" "accepted" Hin). discriminate H. discriminate.
Qed.

(** C2 at a record whose coarse value is closed, on both paths, and at a
    record whose legacy value is later than its coarse value. *)
Lemma stage_precedence_witness :
  In "closed" Status.complaintStatusValues /\ "closed" <> "pending"
  /\ Status.normalizeStatus "under_review" (Some "closed") = "closed"
  /\ Status.trackStage "under_review" (Some "closed") = "closed"
  /\ (Status.trackStage "resolved" (Some "accepted") = "accepted"
      <-> Status.rank (Status.legacyTable "resolved") <= Status.rank "accepted").
Proof.
  assert (Hin : In "closed" Status.complaintStatusValues) by (cbn; tauto).
  assert (Hne : "closed" <> "pending") by discriminate.
  assert (Hin' : In "accepted" Status.complaintStatusValues) by (cbn; tauto).
  assert (Hne' : "accepted" <> "pending") by discriminate.
  destruct stage_precedence as (_ & Hdash & _ & _ & _ & Htrack & _).
  split; [exact Hin|]. split; [exact Hne|].
  split; [exact (Hdash "under_review" "closed" Hin Hne)|].
  split; [|exact (Htrack "resolved" "accepted" Hin' Hne')].
  apply (Htrack "under_review" "closed" Hin Hne). cbn. lia.
Defined.

(** ** The webhook route *)

Section WebhookFacts.
Variable cfg : Config.
Variable Number : string -> option Z.

Lemma dispatch_updates env u w :
  telegram_updates (db (final (dispatch cfg Number env u w))) = telegram_updates (db w).
Proof. run. Qed.

Lemma dispatch_grievances env u w :
  length (grievances (db (final (dispatch cfg Number env u w))))
  <= S (length (grievances (db w))).
Proof. run; rewrite ?length_app; cbn; lia. Qed.

Lemma gate_open req :
  secret_passes cfg req = true ->
  negb (String.eqb (TELEGRAM_WEBHOOK_SECRET cfg) "")
  && negb (String.eqb (default "" (secret_header req)) (TELEGRAM_WEBHOOK_SECRET cfg)) = false.
Proof.
  unfold secret_passes.
  destruct (String.eqb (TELEGRAM_WEBHOOK_SECRET cfg) ""),
    (String.eqb (default "" (secret_header req)) (TELEGRAM_WEBHOOK_SECRET cfg)); done.
Qed.

Lemma selectUpdate_throws id w : selectUpdate id w = Thrown w.
Proof. reflexivity. Qed.

Lemma webhook_past_checks env req b w :
  isTelegramEnabled cfg = true ->
  secret_passes cfg req = true ->
  body req = Some b ->
  is_number (body_update_id b) = true ->
  webhook cfg Number env req w = Thrown w.
Proof.
  intros Hen Hsec Hbody Hnum. unfold webhook.
  rewrite Hen, (gate_open req Hsec), Hbody, Hnum. cbn [negb].
  unfold bind. rewrite selectUpdate_throws. reflexivity.
Qed.

Lemma webhook_invalid_payload env req w :
  isTelegramEnabled cfg = true ->
  secret_passes cfg req = true ->
  match body req with
  | None => True
  | Some b => is_number (body_update_id b) = false
  end ->
  webhook cfg Number env req w =
    Returned {| status_code := 400; json := ErrorBody "Invalid update payload" |} w.
Proof.
  intros Hen Hsec Hbody. unfold webhook.
  rewrite Hen, (gate_open req Hsec). cbn [negb].
  destruct (body req) as [b|]; [rewrite Hbody|]; reflexivity.
Qed.

Lemma webhook_final env req w : final (webhook cfg Number env req w) = w.
Proof.
  unfold webhook.
  repeat (case_match; try reflexivity).
Qed.

Lemma insertUpdate_cases id w :
  final (insertUpdate id w) = w
  \/ exists z, id = JsNumeric z
               /\ final (insertUpdate id w)
                  = {| db := with_updates (telegram_updates (db w) ++ [z]) (db w);
                       outbox := outbox w |}.
Proof.
  unfold insertUpdate, prepare, bind, getDb, setDb, ret, throw. cbn.
  destruct id; try (left; reflexivity).
  destruct (existsb (Z.eqb z) (telegram_updates (db w))); [left; reflexivity|].
  right. exists z. split; reflexivity.
Qed.

Lemma record_then_dispatch env id u w :
  final ((insertUpdate id ;;; dispatch cfg Number env u) w)
  = final (insertUpdate id w)
  \/ final ((insertUpdate id ;;; dispatch cfg Number env u) w)
     = final (dispatch cfg Number env u (final (insertUpdate id w))).
Proof.
  unfold bind. destruct (insertUpdate id w) as [[] w1 | w1]; [right | left]; reflexivity.
Qed.

(** C1, on the code.  The ledger lookup of the route is the statement
    [SELECT 1 as exists FROM telegram_updates ...]; [exists] is a
    reserved word, so preparing the statement throws, and the statement
    stands before the [try] of the route.  A request that passes the
    token, secret and payload checks is therefore never acknowledged:
    whether or not its identifier is in the ledger, the handler throws
    with the database and the outbox as they were, so no response says
    duplicate, no identifier is recorded and no update is dispatched.
    Two deliveries of an update leave the ledger as it was, with no row
    for a new identifier where one is expected. *)
Theorem duplicate_update_not_acknowledged :
  forall env env' req b w,
    isTelegramEnabled cfg = true ->
    secret_passes cfg req = true ->
    body req = Some b ->
    is_number (body_update_id b) = true ->
    prepare ["exists"] w = Thrown w
    /\ webhook cfg Number env req w = Thrown w
    /\ result (webhook cfg Number env req w)
       <> Some {| status_code := 200; json := OkBody true |}
    /\ (let w2 := final (webhook cfg Number env' req (final (webhook cfg Number env req w))) in
        w2 = w
        /\ forall id, count_occ Z.eq_dec (telegram_updates (db w2)) id
                      = count_occ Z.eq_dec (telegram_updates (db w)) id).
Proof.
  intros env env' req b w Hen Hsec Hbody Hnum.
  assert (Hrun : forall e v, webhook cfg Number e req v = Thrown v).
  { intros e v. unfold webhook.
    rewrite Hen, (gate_open req Hsec), Hbody, Hnum. cbn [negb].
    unfold bind at 1. unfold selectUpdate, bind at 1.
    change (prepare ["exists"] v) with (@Thrown unit v). reflexivity. }
  split; [reflexivity|]. split; [apply Hrun|]. split.
  - rewrite Hrun. discriminate.
  - cbv zeta. rewrite !Hrun. cbn [final]. split; [reflexivity|]. reflexivity.
Qed.

(** C8.  With a secret configured and a header that differs from it (or
    no header), the request is refused, with 401 (with 503 when the bot
    token is not configured), and the database and the outbox are left
    as they were. *)
Theorem bad_secret_rejected :
  forall env req w,
    TELEGRAM_WEBHOOK_SECRET cfg <> "" ->
    default "" (secret_header req) <> TELEGRAM_WEBHOOK_SECRET cfg ->
    final (webhook cfg Number env req w) = w
    /\ result (webhook cfg Number env req w) =
         Some (if isTelegramEnabled cfg
               then {| status_code := 401; json := ErrorBody "Invalid webhook secret" |}
               else {| status_code := 503;
                       json := ErrorBody "Telegram integration is disabled" |}).
Proof.
  intros env req w Hs Hh. unfold webhook.
  apply String.eqb_neq in Hs, Hh. rewrite Hs, Hh.
  destruct (isTelegramEnabled cfg); cbn; split; reflexivity.
Qed.

(** C10.  With the bot token configured and the secret check passed, a
    request whose body is missing, or whose [update_id] is not a number,
    is answered with 400 and leaves the database and the outbox as they
    were. *)
Theorem invalid_payload_rejected :
  forall env req w,
    isTelegramEnabled cfg = true ->
    secret_passes cfg req = true ->
    match body req with
    | None => True
    | Some b => is_number (body_update_id b) = false
    end ->
    webhook cfg Number env req w =
      Returned {| status_code := 400; json := ErrorBody "Invalid update payload" |} w.
Proof.
  intros env req w Hen Hsec Hbody. unfold webhook.
  rewrite Hen, (gate_open req Hsec). cbn [negb].
  destruct (body req) as [b|]; [|reflexivity].
  rewrite Hbody. reflexivity.
Qed.

End WebhookFacts.

(** ** Identity resolution *)

Section IdentityFacts.

Lemma find_none_existsb {A} (f : A -> bool) l :
  find f l = None -> existsb f l = false.
Proof.
  induction l as [|x l IH]; cbn; [done|].
  destruct (f x); [done | exact IH].
Qed.

Lemma find_app_none {A} (f : A -> bool) l x :
  find f l = None -> f x = true -> find f (l ++ [x]) = Some x.
Proof.
  induction l as [|y l IH]; cbn; intros Hn Hx.
  - rewrite Hx. reflexivity.
  - destruct (f y); [done | auto].
Qed.

Lemma bind_chat_id id chat u : u_id (bind_chat id chat u) = u_id u.
Proof. unfold bind_chat. destruct (Z.eqb (u_id u) id); reflexivity. Qed.

Lemma has_chat_refl chat u :
  u_telegram_chat_id u = Some chat -> has_chat chat u = true.
Proof. unfold has_chat. intros ->. cbn. apply String.eqb_refl. Qed.

Lemma bind_chat_hit id chat u :
  Z.eqb (u_id u) id = true -> has_chat chat (bind_chat id chat u) = true.
Proof.
  intros H. unfold bind_chat. rewrite H. apply has_chat_refl. reflexivity.
Qed.

Lemma bind_chat_miss id chat u :
  Z.eqb (u_id u) id = false -> bind_chat id chat u = u.
Proof. intros H. unfold bind_chat. rewrite H. reflexivity. Qed.

Lemma find_after_bind id chat l b :
  find (has_chat chat) l = None ->
  find (fun u => String.eqb (u_email u) (u_email b)) l = Some b ->
  u_id b = id ->
  exists r, find (has_chat chat) (map (bind_chat id chat) l) = Some r /\ u_id r = id.
Proof.
  induction l as [|x l IH]; cbn; [done|].
  intros Hn He Hid.
  destruct (has_chat chat x) eqn:Hx; [done|].
  destruct (Z.eqb (u_id x) id) eqn:Hxid.
  - rewrite (bind_chat_hit _ _ _ Hxid).
    eexists; split; [reflexivity|]. rewrite bind_chat_id. apply Z.eqb_eq. exact Hxid.
  - rewrite (bind_chat_miss _ _ _ Hxid), Hx.
    destruct (String.eqb (u_email x) (u_email b)) eqn:Hxe.
    + injection He as ->. rewrite Hid, Z.eqb_refl in Hxid. done.
    + apply IH; assumption.
Qed.

Lemma existsb_other_chat id chat l :
  find (has_chat chat) l = None ->
  existsb (fun u => opt_is (u_telegram_chat_id u) chat && negb (Z.eqb (u_id u) id)) l = false.
Proof.
  induction l as [|x l IH]; cbn; [done|].
  fold (has_chat chat x). destruct (has_chat chat x); [done|]. exact IH.
Qed.

Lemma fold_max_ge (l : list Z) (z0 x : Z) :
  In x l -> (x <= fold_right Z.max z0 l)%Z.
Proof.
  induction l as [|y l IH]; cbn; [done|].
  intros [-> | Hin]; [lia|]. specialize (IH Hin). lia.
Qed.

Lemma next_user_id_fresh d : ~ In (next_user_id d) (map u_id (users d)).
Proof.
  unfold next_user_id. intros Hin.
  apply (fold_max_ge _ (users_seq d)) in Hin. lia.
Qed.

Lemma filter_none_nil {A} (f : A -> bool) l :
  find f l = None -> List.filter f l = [].
Proof.
  induction l as [|x l IH]; cbn; [done|].
  destruct (f x); [done | exact IH].
Qed.

Lemma count_by_id id l :
  NoDup (map u_id l) ->
  length (List.filter (fun u => Z.eqb (u_id u) id) l) <= 1.
Proof.
  induction l as [|x l IH]; cbn; [lia|].
  intros Hnd. inversion Hnd as [|? ? Hnotin Hnd']; subst.
  destruct (Z.eqb (u_id x) id) eqn:Hx; [|auto].
  cbn. apply Z.eqb_eq in Hx.
  assert (List.filter (fun u => Z.eqb (u_id u) id) l = []) as ->; [|cbn; lia].
  clear IH Hnd Hnd'. induction l as [|y l IH]; cbn; [done|].
  destruct (Z.eqb (u_id y) id) eqn:Hy.
  - apply Z.eqb_eq in Hy. exfalso. apply Hnotin. cbn.
    apply elem_of_cons. left. congruence.
  - apply IH. intros Hin. apply Hnotin. cbn.
    apply elem_of_cons. right. exact Hin.
Qed.

Lemma filter_after_bind id chat c l :
  find (has_chat chat) l = None ->
  length (List.filter (has_chat c) (map (bind_chat id chat) l))
  <= if String.eqb chat c
     then length (List.filter (fun u => Z.eqb (u_id u) id) l)
     else length (List.filter (has_chat c) l).
Proof.
  induction l as [|x l IH]; cbn.
  - destruct (String.eqb chat c); cbn; lia.
  - intros Hn. destruct (has_chat chat x) eqn:Hx; [done|].
    specialize (IH Hn).
    destruct (Z.eqb (u_id x) id) eqn:Hxid.
    + destruct (String.eqb chat c) eqn:Hc.
      * apply String.eqb_eq in Hc. subst c.
        rewrite (bind_chat_hit _ _ _ Hxid). cbn. lia.
      * assert (has_chat c (bind_chat id chat x) = false) as ->.
        { unfold bind_chat. rewrite Hxid. unfold has_chat. cbn. exact Hc. }
        destruct (has_chat c x); cbn; lia.
    + rewrite (bind_chat_miss _ _ _ Hxid).
      destruct (String.eqb chat c) eqn:Hc.
      * apply String.eqb_eq in Hc. subst c. rewrite Hx. exact IH.
      * destruct (has_chat c x); cbn; lia.
Qed.

(** The resolver never throws. *)
Lemma ensure_returns env chat user w :
  exists id w1, ensureTelegramCitizen env chat user w = Returned id w1.
Proof.
  unfold ensureTelegramCitizen, bind, getDb.
  destruct (user_by_chat (db w) chat) as [existing|] eqn:Hchat; [unfold ret; eauto|].
  unfold user_by_chat in Hchat. fold (has_chat chat) in Hchat.
  destruct (user_by_email (db w) (fallbackEmail chat)) as [byEmail|] eqn:Hemail.
  - unfold update_user_chat, bind, getDb, setDb, ret.
    rewrite (existsb_other_chat (u_id byEmail) chat _ Hchat). cbn [andb]. eauto.
  - unfold insert_user, bind, getDb, setDb, ret.
    unfold user_by_email in Hemail. rewrite (find_none_existsb _ _ Hemail).
    fold (has_chat chat). rewrite (find_none_existsb _ _ Hchat). cbn [orb]. eauto.
Qed.

(** C9.  Resolving a chat id returns an account id; resolving it again
    returns the same id and changes nothing; the two calls together add
    at most one row to [users]; and the primary key and the uniqueness
    of the chat binding (each chat id bound to at most one account) are
    kept. *)
Theorem ensureTelegramCitizen_idempotent :
  forall env env' chat user user' w,
  exists id w1,
    ensureTelegramCitizen env chat user w = Returned id w1
    /\ ensureTelegramCitizen env' chat user' w1 = Returned id w1
    /\ length (users (db w1)) <= S (length (users (db w)))
    /\ (users_wf (db w) -> users_wf (db w1) /\ length (accounts_of (db w1) chat) = 1).
Proof.
  intros env env' chat user user' w.
  unfold ensureTelegramCitizen at 1. unfold bind at 1, getDb at 1.
  destruct (user_by_chat (db w) chat) as [existing|] eqn:Hchat.
  - exists (u_id existing), w. cbn.
    split; [reflexivity|]. split.
    { unfold ensureTelegramCitizen, bind, getDb. rewrite Hchat. reflexivity. }
    split; [lia|]. intros Hwf. split; [exact Hwf|].
    destruct Hwf as [_ Hu]. specialize (Hu chat). unfold accounts_of in *.
    unfold user_by_chat in Hchat. fold (has_chat chat) in Hchat.
    destruct (List.filter (has_chat chat) (users (db w))) eqn:Hf.
    + apply find_some in Hchat as [Hin Hc].
      assert (In existing (List.filter (has_chat chat) (users (db w)))) as Hin'
        by (apply filter_In; split; assumption).
      rewrite Hf in Hin'. destruct Hin'.
    + cbn in *. lia.
  - pose proof Hchat as Hnone. unfold user_by_chat in Hnone. fold (has_chat chat) in Hnone.
    destruct (user_by_email (db w) (fallbackEmail chat)) as [byEmail|] eqn:Hemail.
    + unfold bind, update_user_chat, bind, getDb, setDb, ret.
      rewrite (existsb_other_chat (u_id byEmail) chat _ Hnone). cbn [andb].
      fold (bind_chat (u_id byEmail) chat).
      eexists _, _. split; [reflexivity|].
      unfold user_by_email in Hemail.
      assert (Hb : String.eqb (u_email byEmail) (fallbackEmail chat) = true)
        by (apply find_some in Hemail as [_ H]; exact H).
      apply String.eqb_eq in Hb.
      destruct (find_after_bind (u_id byEmail) chat (users (db w)) byEmail Hnone)
        as (r & Hr & Hrid); [rewrite Hb; exact Hemail | reflexivity |].
      split.
      { unfold ensureTelegramCitizen, bind, getDb, user_by_chat. cbn.
        fold (has_chat chat). rewrite Hr. rewrite Hrid. reflexivity. }
      split; [cbn; rewrite length_map; lia|].
      intros [Hnd Hu]. cbn. unfold users_wf, accounts_of. cbn.
      assert (Hids : map u_id (map (bind_chat (u_id byEmail) chat) (users (db w)))
                     = map u_id (users (db w))).
      { rewrite map_map. apply map_ext. intros u. apply bind_chat_id. }
      assert (Hle : forall c,
                 length (List.filter (has_chat c)
                           (map (bind_chat (u_id byEmail) chat) (users (db w)))) <= 1).
      { intros c.
        pose proof (filter_after_bind (u_id byEmail) chat c _ Hnone) as Hle.
        destruct (String.eqb chat c).
        - pose proof (count_by_id (u_id byEmail) _ Hnd). lia.
        - specialize (Hu c). unfold accounts_of in Hu. lia. }
      split; [split; [rewrite Hids; exact Hnd | exact Hle]|].
      specialize (Hle chat).
      destruct (List.filter (has_chat chat)
                  (map (bind_chat (u_id byEmail) chat) (users (db w)))) eqn:Hf.
      * apply find_some in Hr as [Hin Hc].
        assert (In r (List.filter (has_chat chat)
                        (map (bind_chat (u_id byEmail) chat) (users (db w))))) as Hin'
          by (apply filter_In; split; assumption).
        rewrite Hf in Hin'. destruct Hin'.
      * cbn in *. lia.
    + unfold insert_user, bind, getDb, setDb, ret.
      unfold user_by_email in Hemail.
      rewrite (find_none_existsb _ _ Hemail).
      fold (has_chat chat). rewrite (find_none_existsb _ _ Hnone). cbn [orb].
      eexists _, _. split; [reflexivity|].
      set (new := {| u_id := next_user_id (db w); u_email := fallbackEmail chat;
                     u_password := tempPassword env; u_name := fullName chat user;
                     u_role := "citizen"; u_telegram_chat_id := Some chat |}).
      assert (Hnew : has_chat chat new = true) by (apply has_chat_refl; reflexivity).
      split.
      { unfold ensureTelegramCitizen, bind, getDb, user_by_chat. cbn.
        fold (has_chat chat). fold new.
        rewrite (find_app_none _ _ new Hnone Hnew). reflexivity. }
      split; [cbn; rewrite length_app; cbn; lia|].
      intros [Hnd Hu]. unfold users_wf, accounts_of. cbn. fold new.
      split; [split|].
      * rewrite map_app. cbn. apply NoDup_app. split; [exact Hnd|].
        split; [|apply NoDup_singleton].
        intros x Hx Hin. apply list_elem_of_In in Hx, Hin. cbn in Hin.
        destruct Hin as [<- | []]. exact (next_user_id_fresh (db w) Hx).
      * intros c. rewrite List.filter_app, length_app. cbn.
        destruct (String.eqb chat c) eqn:Hc; cbn.
        -- apply String.eqb_eq in Hc. subst c.
           rewrite (filter_none_nil _ _ Hnone). cbn. lia.
        -- specialize (Hu c). unfold accounts_of in Hu. lia.
      * rewrite List.filter_app, length_app, (filter_none_nil _ _ Hnone).
        cbn [List.filter]. rewrite Hnew. reflexivity.
Qed.

(** The resolver returns the key of a row of [users], and touches no
    other table and not the outbox. *)
Lemma ensure_result env chat user w :
  exists id w1,
    ensureTelegramCitizen env chat user w = Returned id w1
    /\ user_exists (db w1) id = true
    /\ telegram_sessions (db w1) = telegram_sessions (db w)
    /\ grievances (db w1) = grievances (db w)
    /\ grievance_categories (db w1) = grievance_categories (db w)
    /\ telegram_updates (db w1) = telegram_updates (db w)
    /\ outbox w1 = outbox w.
Proof.
  destruct (ensure_returns env chat user w) as (id & w1 & H1).
  exists id, w1. split; [exact H1|].
  revert H1. unfold ensureTelegramCitizen, update_user_chat, insert_user,
    user_by_chat, user_by_email, user_exists, bind, getDb, setDb, throw, ret.
  repeat (step; cbn; try (let X := fresh in intros X; discriminate X));
    intros X; injection X as <- <-; cbn; (split; [|done]).
  - match goal with H : find _ _ = Some ?e |- _ =>
      apply find_some in H as [Hin _]; apply existsb_exists; exists e;
      split; [exact Hin | apply Z.eqb_refl] end.
  - match goal with H : find _ _ = Some ?b |- _ =>
      apply find_some in H as [Hin _]; apply existsb_exists;
      exists (bind_chat (u_id b) chat b);
      split; [exact (in_map (bind_chat (u_id b) chat) _ _ Hin)
             | rewrite bind_chat_id; apply Z.eqb_refl] end.
  - rewrite existsb_app. cbn. rewrite Z.eqb_refl.
    apply orb_true_iff. right. reflexivity.
Qed.

End IdentityFacts.

(** ** Cancelling *)

Section CancelFacts.
Variable cfg : Config.
Variable Number : string -> option Z.

Lemma prefix_String a p b s :
  String.prefix (String a p) (String b s)
  = if ascii_dec a b then String.prefix p s else false.
Proof. reflexivity. Qed.

Lemma prefix_cancel s :
  JsString.startsWith s "/cancel" = true ->
  JsString.startsWith s "/start" = false /\ JsString.startsWith s "/new" = false
  /\ JsString.startsWith s "/help" = false.
Proof.
  unfold JsString.startsWith. destruct s as [|a [|b s]].
  - intros H. discriminate H.
  - rewrite prefix_String. destruct (ascii_dec "/" a); intros H; discriminate H.
  - rewrite !prefix_String.
    destruct (ascii_dec "/" a) as [<-|]; [|intros H; discriminate H].
    destruct (ascii_dec "c" b) as [<-|]; [|intros H; discriminate H].
    intros _. repeat split.
Qed.

Lemma cancel_message env update m w :
  message update = Some m ->
  JsString.startsWith (JsString.toLowerCase (JsString.trim (default "" (text m)))) "/cancel"
    = true ->
  session_fk (db w) (pretty (chat_id m)) ->
  handleTelegramMessage cfg env update w
  = Returned tt (cancelled_world cfg w (pretty (chat_id m)) []).
Proof.
  intros Hm Hc Hfk. unfold handleTelegramMessage. rewrite Hm.
  destruct (prefix_cancel _ Hc) as (H1 & H2 & H3).
  unfold cancelled_world, session_found, session_fk in *.
  unfold bind at 1, getTelegramSession, bind, getDb.
  destruct (telegram_sessions (db w) !! pretty (chat_id m)) as [row|] eqn:Hrow.
  - unfold ret at 1. rewrite H1, H2, H3, Hc. cbn [orb].
    unfold saveTelegramSession, sendTelegramMessage, callTelegramApi, bind, getDb, setDb, emit.
    cbn. destruct (row_user_id row) as [u|] eqn:Hu; cbn.
    + rewrite (Hfk row u eq_refl Hu). cbn. destruct (isTelegramEnabled cfg); reflexivity.
    + destruct (isTelegramEnabled cfg); reflexivity.
  - unfold setDb at 1, ret. cbn. rewrite H1, H2, H3, Hc. cbn [orb].
    unfold saveTelegramSession, sendTelegramMessage, callTelegramApi, bind, getDb, setDb, emit.
    cbn. rewrite insert_insert_eq.
    destruct (isTelegramEnabled cfg); reflexivity.
Qed.

Lemma cancel_callback env update cb m w :
  callback_query update = Some cb ->
  cb_message cb = Some m ->
  data cb = Some "confirm:cancel" ->
  session_fk (db w) (pretty (chat_id m)) ->
  handleTelegramCallback cfg Number env update w
  = Returned tt (cancelled_world cfg w (pretty (chat_id m)) [AnswerCallbackQuery (cb_id cb)]).
Proof.
  intros Hcb Hm Hd Hfk. unfold handleTelegramCallback. rewrite Hcb, Hm, Hd.
  unfold cancelled_world, session_found, session_fk in *.
  unfold bind at 1, getTelegramSession, bind, getDb.
  destruct (telegram_sessions (db w) !! pretty (chat_id m)) as [row|] eqn:Hrow.
  - unfold ret at 1. cbn.
    unfold saveTelegramSession, sendTelegramMessage, answerTelegramCallback,
      callTelegramApi, bind, getDb, setDb, emit.
    cbn. destruct (row_user_id row) as [u|] eqn:Hu; cbn.
    + destruct (isTelegramEnabled cfg); cbn; rewrite (Hfk row u eq_refl Hu); cbn;
        rewrite <- ?app_assoc; reflexivity.
    + destruct (isTelegramEnabled cfg); cbn; rewrite <- ?app_assoc; reflexivity.
  - unfold setDb at 1, ret. cbn.
    unfold saveTelegramSession, sendTelegramMessage, answerTelegramCallback,
      callTelegramApi, bind, getDb, setDb, emit.
    cbn. destruct (isTelegramEnabled cfg); cbn; rewrite insert_insert_eq;
      rewrite <- ?app_assoc; reflexivity.
Qed.

(** C7.  A cancel input, the /cancel command or the confirm:cancel
    callback, in any session state: the stored session becomes idle with
    an empty draft, its user id and language are those it had (those of
    the default session when none was stored), the sessions of other
    chats and the tickets are as they were. *)
Theorem cancel_resets_session :
  forall env update w chat,
    (exists m, callback_query update = None /\ message update = Some m
               /\ chat = pretty (chat_id m)
               /\ JsString.startsWith
                    (JsString.toLowerCase (JsString.trim (default "" (text m)))) "/cancel"
                  = true)
    \/ (exists cb m, callback_query update = Some cb /\ cb_message cb = Some m
                     /\ chat = pretty (chat_id m)
                     /\ data cb = Some "confirm:cancel") ->
    session_fk (db w) chat ->
    let w' := final (dispatch cfg Number env update w) in
    (exists row, telegram_sessions (db w') !! chat = Some row
                 /\ row_state row = idle
                 /\ parseDraft (row_draft_json row) = emptyDraft
                 /\ row_user_id row = userId (session_found (db w) chat)
                 /\ row_language row = language (session_found (db w) chat))
    /\ (forall other, other <> chat ->
          telegram_sessions (db w') !! other = telegram_sessions (db w) !! other)
    /\ grievances (db w') = grievances (db w)
    /\ users (db w') = users (db w).
Proof.
  intros env update w chat Hin Hfk.
  assert (Hrun : final (dispatch cfg Number env update w)
                 = cancelled_world cfg w chat
                     (match callback_query update with
                      | Some cb => [AnswerCallbackQuery (cb_id cb)]
                      | None => []
                      end)).
  { unfold dispatch, try_catch.
    destruct Hin as [(m & Hnc & Hm & -> & Hc) | (cb & m & Hcb & Hm & -> & Hd)].
    - rewrite Hnc, Hm. rewrite (cancel_message env update m w Hm Hc Hfk). reflexivity.
    - rewrite Hcb. rewrite (cancel_callback env update cb m w Hcb Hm Hd Hfk). reflexivity. }
  cbv zeta. rewrite Hrun. unfold cancelled_world. cbn.
  split.
  - eexists. split; [apply lookup_insert_eq|]. cbn. done.
  - split; [|done]. intros other Hne. apply lookup_insert_ne. congruence.
Qed.

End CancelFacts.

(** ** The ticket writer *)

Section TicketFacts.
Variable cfg : Config.
Variable Number : string -> option Z.

Lemma draft_valid_empty : draft_valid emptyDraft.
Proof. split; intros x H; discriminate H. Qed.

Lemma falsy_num_false o : falsy_num o = false -> is_Some o.
Proof. destruct o; [eauto | discriminate]. Qed.

Lemma falsy_str_false o : falsy_str o = false -> exists x, o = Some x.
Proof. destruct o; [eauto | discriminate]. Qed.

Lemma submit_refused_false s :
  submit_refused s = false ->
  is_Some (userId s) /\ is_Some (categoryId (draft s))
  /\ (exists x, description (draft s) = Some x)
  /\ (exists l, location (draft s) = Some l).
Proof.
  unfold submit_refused. intros H.
  apply orb_false_iff in H as [H H4]. apply orb_false_iff in H as [H H3].
  apply orb_false_iff in H as [H1 H2].
  auto using falsy_num_false, falsy_str_false.
Qed.

Lemma complete_of_valid s :
  draft_valid (draft s) -> submit_refused s = false ->
  is_Some (userId s) /\ draft_complete (draft s).
Proof.
  intros [Hd Hl] H. apply submit_refused_false in H as (Hu & Hc & [x Hx] & [l Hl']).
  split; [exact Hu|]. split; [exact Hc|]. split; eauto.
Qed.

Ltac known_sessions Hv :=
  repeat match goal with
         | H : telegram_sessions _ !! _ = Some _ |- _ =>
             lazymatch type of H with
             | telegram_sessions ?d !! ?k = Some ?r =>
                 let Hd := fresh "Hdraft" in
                 pose proof (Hv k r H) as Hd; cbn beta in Hd; revert H
             end
         end; intros.

Ltac valid_draft :=
  lazymatch goal with
  | |- draft_valid emptyDraft => exact draft_valid_empty
  | |- draft_valid _ =>
      repeat match goal with H : draft_valid _ |- _ => destruct H as [? ?] end;
      split; cbn; intros ? Heq;
      first [ discriminate Heq
            | injection Heq as <-;
              first [ solve [left; apply Nat.leb_le; assumption]
                    | solve [right; split; eauto]
                    | solve [apply Nat.ltb_ge; assumption] ]
            | solve [eauto] ]
  end.

Lemma dispatch_sessions_valid env u w :
  sessions_valid (db w) -> sessions_valid (db (final (dispatch cfg Number env u w))).
Proof.
  unfold sessions_valid. intros Hv. run; try exact Hv; known_sessions Hv;
    repeat (apply map_Forall_insert_2; [valid_draft|]); try exact Hv.
Qed.

Lemma reachable_sessions_valid w : reachable cfg Number w -> sessions_valid (db w).
Proof.
  induction 1 as [w H | env update w _ IH | w w' _ IH H].
  - unfold sessions_valid. rewrite H. apply map_Forall_empty.
  - apply dispatch_sessions_valid, IH.
  - unfold sessions_valid in *. rewrite H. exact IH.
Qed.

Lemma dispatch_writes_from_stored env u w :
  grievances (db (final (dispatch cfg Number env u w))) <> grievances (db w) ->
  exists chat row,
    telegram_sessions (db w) !! chat = Some row
    /\ submit_refused (session_found (db w) chat) = false.
Proof.
  run; intros Hne; try (by destruct Hne);
    match goal with
    | H : telegram_sessions (db w) !! ?k = Some ?r |- _ =>
        exists k, r; split; [exact H|];
        unfold session_found, submit_refused; rewrite H; cbn;
        repeat match goal with Hx : row_user_id _ = _ |- _ => rewrite Hx; clear Hx end;
        assumption
    end.
Qed.

Lemma submit_refused_noop env s chat w :
  submit_refused s = true -> submitTelegramComplaint env s chat w = Returned (None, s) w.
Proof. intros H. unfold submitTelegramComplaint. rewrite H. reflexivity. Qed.

Lemma refused_if_incomplete s :
  draft_valid (draft s) ->
  ~ (is_Some (userId s) /\ draft_complete (draft s)) ->
  submit_refused s = true.
Proof.
  intros Hv Hinc. destruct (submit_refused s) eqn:Href; [reflexivity|].
  destruct Hinc. exact (complete_of_valid s Hv Href).
Qed.

Lemma session_found_valid d chat :
  sessions_valid d -> draft_valid (draft (session_found d chat)).
Proof.
  intros Hv. unfold session_found.
  destruct (telegram_sessions d !! chat) as [row|] eqn:Hrow; cbn.
  - exact (Hv chat row Hrow).
  - exact draft_valid_empty.
Qed.

(** C6.  The ticket writer returns null and leaves the world as it is
    when its guard refuses the session, and writes only past the guard.
    In every reachable state the stored drafts hold only descriptions of
    at least 10 code units and locations of at least 3 code units or
    with coordinates, so an update whose handling adds a ticket found a
    stored session with a resolved account, a category, such a
    description and such a location.  In a reachable state where the
    session of the chat lacks one of these, the confirm:submit handler
    writes no ticket, leaves the database as the session lookup left it
    (unchanged when the session was stored), and replies with the
    [unknown] text, not with [submitted]. *)
Theorem ticket_requires_complete_draft :
  (forall env s chat w,
      submit_refused s = true ->
      submitTelegramComplaint env s chat w = Returned (None, s) w)
  /\ (forall env s chat w,
        grievances (db (final (submitTelegramComplaint env s chat w))) <> grievances (db w) ->
        submit_refused s = false)
  /\ (forall env update w,
        reachable cfg Number w ->
        grievances (db (final (dispatch cfg Number env update w))) <> grievances (db w) ->
        exists chat row,
          telegram_sessions (db w) !! chat = Some row
          /\ is_Some (row_user_id row)
          /\ draft_complete (parseDraft (row_draft_json row)))
  /\ (forall env update cb m w,
        reachable cfg Number w ->
        callback_query update = Some cb ->
        cb_message cb = Some m ->
        data cb = Some "confirm:submit" ->
        let chat := pretty (chat_id m) in
        let s := session_found (db w) chat in
        ~ (is_Some (userId s) /\ draft_complete (draft s)) ->
        let w' := final (handleTelegramCallback cfg Number env update w) in
        submitTelegramComplaint env s chat (final (getTelegramSession chat w))
        = Returned (None, s) (final (getTelegramSession chat w))
        /\ db w' = db (final (getTelegramSession chat w))
        /\ (forall row, telegram_sessions (db w) !! chat = Some row -> db w' = db w)
        /\ grievances (db w') = grievances (db w)
        /\ outbox w' = outbox w ++
             if isTelegramEnabled cfg
             then [AnswerCallbackQuery (cb_id cb);
                   SendMessage chat (Tr (language s) unknown) None]
             else []).
Proof.
  split; [exact submit_refused_noop|].
  split.
  { intros env s chat w. unfold submitTelegramComplaint.
    destruct (submit_refused s); [|done]. cbn. intros H. by destruct H. }
  split.
  { intros env update w Hreach Hne.
    apply dispatch_writes_from_stored in Hne as (chat & row & Hrow & Href).
    pose proof (reachable_sessions_valid w Hreach chat row Hrow) as Hvalid.
    cbn beta in Hvalid.
    exists chat, row. split; [exact Hrow|].
    unfold session_found in Href. rewrite Hrow in Href.
    exact (complete_of_valid
             {| chatId := chat; userId := row_user_id row; state := row_state row;
                language := row_language row;
                draft := parseDraft (row_draft_json row) |} Hvalid Href). }
  intros env update cb m w Hreach Hcb Hm Hd. cbv zeta. intros Hinc.
  assert (Href : submit_refused (session_found (db w) (pretty (chat_id m))) = true).
  { apply refused_if_incomplete; [|exact Hinc].
    apply session_found_valid, reachable_sessions_valid, Hreach. }
  split; [apply submit_refused_noop, Href|].
  unfold handleTelegramCallback. rewrite Hcb, Hm, Hd.
  unfold session_found in *.
  unfold submitTelegramComplaint, answerTelegramCallback, sendTelegramMessage,
    callTelegramApi, getTelegramSession, bind, getDb, setDb, emit, ret, final.
  cbn -[submit_refused].
  destruct (telegram_sessions (db w) !! pretty (chat_id m)) as [row|] eqn:Hrow;
    destruct (isTelegramEnabled cfg); cbn -[submit_refused];
    rewrite Href; cbn; rewrite <- ?app_assoc, ?app_nil_r;
    repeat split; done.
Qed.

(** C4, on the code.  The ticket number is the clock reading alone, so
    once a ticket has been written at a clock reading, a second
    submission at the same reading, by whichever session, runs into
    UNIQUE(ticket_number): the writer throws and nothing is written. *)
Theorem same_clock_second_ticket_rejected :
  forall env env' s1 s2 c1 c2 t s1' w w1,
    submitTelegramComplaint env s1 c1 w = Returned (Some t, s1') w1 ->
    now env' = now env ->
    submit_refused s2 = false ->
    t = ticketNumber env /\ ticketNumber env' = t
    /\ submitTelegramComplaint env' s2 c2 w1 = Thrown w1.
Proof.
  intros env env' s1 s2 c1 c2 t s1' w w1 H1 Hnow H2.
  assert (Ht : ticketNumber env' = ticketNumber env)
    by (unfold ticketNumber; rewrite Hnow; reflexivity).
  assert (Hw1 : t = ticketNumber env
                /\ existsb (fun x => String.eqb (g_ticket_number x) (ticketNumber env))
                     (grievances (db w1)) = true).
  { revert H1. unfold submitTelegramComplaint.
    destruct (submit_refused s1); [intros H; discriminate H|].
    unfold bind, insert_grievance, bind, getDb, setDb, throw, saveTelegramSession,
      bind, getDb, setDb, throw, ret.
    cbn. repeat (step; cbn; try (let X := fresh in intros X; discriminate X)).
    all: intros Hret; injection Hret as <- <- <-; cbn; split; [reflexivity|];
      rewrite existsb_app; cbn; rewrite String.eqb_refl;
      apply orb_true_iff; right; reflexivity. }
  destruct Hw1 as [-> Hex]. split; [reflexivity|]. split; [exact Ht|].
  unfold submitTelegramComplaint. rewrite H2.
  unfold bind, insert_grievance, bind, getDb. cbn [g_ticket_number].
  rewrite Ht, Hex. reflexivity.
Qed.

End TicketFacts.

(** ** The first event of a chat *)

Section FirstEventFacts.
Variable cfg : Config.
Variable Number : string -> option Z.

Lemma getTelegramSession_new chat w :
  telegram_sessions (db w) !! chat = None ->
  getTelegramSession chat w
  = Returned {| chatId := chat; userId := None; state := awaiting_language;
                language := en; draft := emptyDraft |}
             {| db := with_sessions (<[chat := default_row]> (telegram_sessions (db w))) (db w);
                outbox := outbox w |}.
Proof.
  intros H. unfold getTelegramSession, bind, getDb, setDb, ret. rewrite H. reflexivity.
Qed.

Ltac with_ensure :=
  match goal with
  | |- context [ensureTelegramCitizen ?e ?c ?u ?w0] =>
      let Hex := fresh "Hex" in
      let Hs := fresh "Hs" in
      destruct (ensure_result e c u w0) as (? & ? & -> & Hex & Hs & _);
      cbn in Hs; cbn -[ensureTelegramCitizen]; rewrite Hex;
      cbn -[ensureTelegramCitizen]; rewrite ?Hs
  end.

Ltac stored_row :=
  eexists; (split; [apply lookup_insert_eq | cbn; done]).

Ltac first_event :=
  cbn -[ensureTelegramCitizen];
  repeat (step_upto; cbn -[ensureTelegramCitizen]);
  try stored_row;
  with_ensure;
  repeat (step_upto; cbn -[ensureTelegramCitizen]);
  stored_row.

Lemma first_message env update m w :
  message update = Some m ->
  telegram_sessions (db w) !! pretty (chat_id m) = None ->
  exists row,
    telegram_sessions (db (final (handleTelegramMessage cfg env update w)))
      !! pretty (chat_id m) = Some row
    /\ row_state row = first_message_state (JsString.trim (default "" (text m)))
    /\ parseDraft (row_draft_json row) = emptyDraft.
Proof.
  intros Hm Hnone. unfold handleTelegramMessage. rewrite Hm.
  set (chat := pretty (chat_id m)) in *. clearbody chat.
  unfold bind at 1. rewrite (getTelegramSession_new _ _ Hnone).
  unfold first_message_state.
  set (txt := JsString.trim (default "" (text m))). clearbody txt.
  unfold saveTelegramSession, sendTelegramMessage, callTelegramApi,
    bind, getDb, setDb, emit, ret, throw.
  first_event.
Qed.

Lemma first_callback env update cb m w :
  callback_query update = Some cb ->
  cb_message cb = Some m ->
  telegram_sessions (db w) !! pretty (chat_id m) = None ->
  exists row,
    telegram_sessions (db (final (handleTelegramCallback cfg Number env update w)))
      !! pretty (chat_id m) = Some row
    /\ row_state row = first_callback_state Number (db w) (default "" (data cb))
    /\ parseDraft (row_draft_json row)
       = first_callback_draft Number (db w) (default "" (data cb)).
Proof.
  intros Hcb Hm Hnone. unfold handleTelegramCallback. rewrite Hcb, Hm.
  set (chat := pretty (chat_id m)) in *. clearbody chat.
  unfold bind at 1. rewrite (getTelegramSession_new _ _ Hnone).
  unfold first_callback_state, first_callback_draft, selected_category.
  set (dat := default "" (data cb)). clearbody dat.
  unfold submitTelegramComplaint, submit_refused, saveTelegramSession, sendTelegramMessage,
    answerTelegramCallback, callTelegramApi, category_by_id,
    bind, getDb, setDb, emit, ret, throw.
  cbn -[ensureTelegramCitizen];
  repeat (step_upto; cbn -[ensureTelegramCitizen]);
  try stored_row;
  try with_ensure;
  repeat (step_upto; cbn -[ensureTelegramCitizen]);
  stored_row.
Qed.

(** C5, as amended.  For a chat id with no stored session, the session
    lookup creates and stores a session in [awaiting_language] with an
    empty draft, and the event is then applied to it.  After a message
    the stored state is [first_message_state] of the trimmed text: idle
    after /cancel, [awaiting_category] after a language selection, and
    [awaiting_language] otherwise, with an empty draft.  After a button
    press it is [first_callback_state] of the payload:
    [awaiting_category] after a language selection,
    [awaiting_description] with the category in the draft after the
    selection of a known category, idle after confirm:cancel, and
    [awaiting_language] with an empty draft otherwise. *)
Theorem first_event_session :
  (forall chat w,
      telegram_sessions (db w) !! chat = None ->
      getTelegramSession chat w
      = Returned {| chatId := chat; userId := None; state := awaiting_language;
                    language := en; draft := emptyDraft |}
                 {| db := with_sessions
                            (<[chat := default_row]> (telegram_sessions (db w))) (db w);
                    outbox := outbox w |})
  /\ (forall env update m w,
        callback_query update = None ->
        message update = Some m ->
        telegram_sessions (db w) !! pretty (chat_id m) = None ->
        exists row,
          telegram_sessions (db (final (dispatch cfg Number env update w)))
            !! pretty (chat_id m) = Some row
          /\ row_state row = first_message_state (JsString.trim (default "" (text m)))
          /\ parseDraft (row_draft_json row) = emptyDraft)
  /\ (forall env update cb m w,
        callback_query update = Some cb ->
        cb_message cb = Some m ->
        telegram_sessions (db w) !! pretty (chat_id m) = None ->
        exists row,
          telegram_sessions (db (final (dispatch cfg Number env update w)))
            !! pretty (chat_id m) = Some row
          /\ row_state row = first_callback_state Number (db w) (default "" (data cb))
          /\ parseDraft (row_draft_json row)
             = first_callback_draft Number (db w) (default "" (data cb))).
Proof.
  split; [exact getTelegramSession_new|]. split.
  - intros env update m w Hnc Hm Hnone.
    destruct (first_message env update m w Hm Hnone) as (row & Hrow & Hst & Hdr).
    exists row. split; [|done].
    unfold dispatch, try_catch. rewrite Hnc, Hm.
    destruct (handleTelegramMessage cfg env update w); exact Hrow.
  - intros env update cb m w Hcb Hm Hnone.
    destruct (first_callback env update cb m w Hcb Hm Hnone)
      as (row & Hrow & Hst & Hdr).
    exists row. split; [|done].
    unfold dispatch, try_catch. rewrite Hcb.
    destruct (handleTelegramCallback cfg Number env update w); exact Hrow.
Qed.

End FirstEventFacts.

(** ** The theorems on the sample run *)

(** C5, as stated: chat 555 has no stored session and its first message is
    the language [en]; the session that the message handler leaves is in
    [awaiting_category]. *)
Lemma first_event_not_awaiting_language :
  let u := text_update 1 555 "en" in
  telegram_sessions (db seeded_world) !! "555" = None
  /\ row_state <$> (telegram_sessions
                      (db (final (handleTelegramMessage sample_cfg sample_env u seeded_world)))
                      !! "555")
     = Some awaiting_category
  /\ final (dispatch sample_cfg decimalNumber sample_env u seeded_world)
     = final (handleTelegramMessage sample_cfg sample_env u seeded_world).
Proof. cbv zeta. split; [|split]; vm_compute; reflexivity. Qed.

(** C1 on the sample run: the submit button of chat 555, delivered twice
    to a ledger that holds its identifier and to one that does not. *)
Lemma duplicate_update_not_acknowledged_witness :
  let req := request_of (button_update 6 555 "confirm:submit") in
  let w := world_555_confirming in
  let recorded := {| db := with_updates [6%Z] (db w); outbox := outbox w |} in
  isTelegramEnabled sample_cfg = true
  /\ secret_passes sample_cfg req = true
  /\ In 6%Z (telegram_updates (db recorded))
  /\ webhook sample_cfg decimalNumber sample_env req recorded = Thrown recorded
  /\ webhook sample_cfg decimalNumber sample_env req w = Thrown w
  /\ count_occ Z.eq_dec
       (telegram_updates
          (db (final (webhook sample_cfg decimalNumber sample_env req
                        (final (webhook sample_cfg decimalNumber sample_env req w))))))
       6%Z = 0.
Proof.
  intros req w recorded.
  assert (Hen : isTelegramEnabled sample_cfg = true) by reflexivity.
  assert (Hsec : secret_passes sample_cfg req = true) by reflexivity.
  destruct (duplicate_update_not_acknowledged sample_cfg decimalNumber sample_env sample_env
              req _ recorded Hen Hsec eq_refl eq_refl) as (_ & Hrec & _).
  destruct (duplicate_update_not_acknowledged sample_cfg decimalNumber sample_env sample_env
              req _ w Hen Hsec eq_refl eq_refl) as (_ & Hrun & _ & Htwice & _).
  split; [exact Hen|]. split; [exact Hsec|]. split; [left; reflexivity|].
  split; [exact Hrec|]. split; [exact Hrun|].
  cbv zeta in Htwice. rewrite Htwice. vm_compute. reflexivity.
Defined.

(** C8 on the sample configuration: a request with a wrong secret. *)
Lemma bad_secret_rejected_witness :
  let req := {| secret_header := Some "guess";
                body := body (request_of (text_update 1 555 "en")) |} in
  TELEGRAM_WEBHOOK_SECRET sample_cfg <> ""
  /\ default "" (secret_header req) <> TELEGRAM_WEBHOOK_SECRET sample_cfg
  /\ final (webhook sample_cfg decimalNumber sample_env req seeded_world) = seeded_world
  /\ status_code <$> result (webhook sample_cfg decimalNumber sample_env req seeded_world)
     = Some 401.
Proof.
  intros req.
  assert (H1 : TELEGRAM_WEBHOOK_SECRET sample_cfg <> "") by (vm_compute; discriminate).
  assert (H2 : default "" (secret_header req) <> TELEGRAM_WEBHOOK_SECRET sample_cfg)
    by (vm_compute; discriminate).
  destruct (bad_secret_rejected sample_cfg decimalNumber sample_env req seeded_world H1 H2)
    as [Hw Hr].
  split; [exact H1|]. split; [exact H2|]. split; [exact Hw|].
  rewrite Hr. reflexivity.
Defined.

(** C10 on the sample configuration: a body whose [update_id] is a string. *)
Lemma invalid_payload_rejected_witness :
  let req := {| secret_header := Some "s3cret";
                body := Some {| body_update_id := JsText "7"; body_message := None;
                                body_callback_query := None |} |} in
  isTelegramEnabled sample_cfg = true
  /\ secret_passes sample_cfg req = true
  /\ webhook sample_cfg decimalNumber sample_env req seeded_world
     = Returned {| status_code := 400; json := ErrorBody "Invalid update payload" |}
                seeded_world.
Proof.
  intros req.
  assert (Hen : isTelegramEnabled sample_cfg = true) by reflexivity.
  assert (Hsec : secret_passes sample_cfg req = true) by reflexivity.
  split; [exact Hen|]. split; [exact Hsec|].
  apply (invalid_payload_rejected sample_cfg decimalNumber sample_env req seeded_world Hen Hsec).
  reflexivity.
Defined.

(** C9 on the seeded database: chat 555 resolved twice. *)
Lemma ensureTelegramCitizen_idempotent_witness :
  users_wf seeded_db
  /\ exists id w1,
       ensureTelegramCitizen sample_env "555" None seeded_world = Returned id w1
       /\ ensureTelegramCitizen sample_env "555" None w1 = Returned id w1
       /\ length (users (db w1)) <= 3
       /\ users_wf (db w1)
       /\ length (accounts_of (db w1) "555") = 1.
Proof.
  assert (Hwf : users_wf seeded_db).
  { split.
    - cbn. repeat constructor; rewrite ?elem_of_cons; rewrite ?elem_of_nil; intuition discriminate.
    - intros chat. cbn. lia. }
  split; [exact Hwf|].
  destruct (ensureTelegramCitizen_idempotent sample_env sample_env "555" None None seeded_world)
    as (id & w1 & H1 & H2 & Hlen & Hkeep).
  destruct (Hkeep Hwf) as [Hwf1 Hone].
  exists id, w1.
  exact (conj H1 (conj H2 (conj Hlen (conj Hwf1 Hone)))).
Defined.

(** C7 on the sample run: chat 555 cancels at the confirmation prompt. *)
Lemma cancel_resets_session_witness :
  let u := text_update 20 555 "/cancel" in
  let w := world_555_confirming in
  session_fk (db w) "555"
  /\ (row_state <$> telegram_sessions (db w) !! "555") = Some awaiting_confirmation
  /\ (exists row,
         telegram_sessions (db (final (dispatch sample_cfg decimalNumber sample_env u w)))
           !! "555" = Some row
         /\ row_state row = idle
         /\ parseDraft (row_draft_json row) = emptyDraft
         /\ row_user_id row = userId (session_found (db w) "555")
         /\ row_language row = language (session_found (db w) "555"))
  /\ grievances (db (final (dispatch sample_cfg decimalNumber sample_env u w)))
     = grievances (db w).
Proof.
  intros u w.
  assert (Hfk : session_fk (db w) "555").
  { intros row x Hrow Hx. vm_compute in Hrow. injection Hrow as <-.
    injection Hx as <-. vm_compute. reflexivity. }
  assert (Hin : (exists m, callback_query u = None /\ message u = Some m
                           /\ "555" = pretty (chat_id m)
                           /\ JsString.startsWith
                                (JsString.toLowerCase (JsString.trim (default "" (text m))))
                                "/cancel" = true)
                \/ (exists cb m, callback_query u = Some cb /\ cb_message cb = Some m
                                 /\ "555" = pretty (chat_id m)
                                 /\ data cb = Some "confirm:cancel")).
  { left. exists (text_message 555 "/cancel").
    split; [reflexivity|]. split; [reflexivity|]. split; vm_compute; reflexivity. }
  destruct (cancel_resets_session sample_cfg decimalNumber sample_env u w "555" Hin Hfk)
    as (Hrow & _ & Hg & _).
  split; [exact Hfk|]. split; [vm_compute; reflexivity|]. split; [exact Hrow | exact Hg].
Defined.

(** C5 as amended, on the seeded database: the first message of chat 555
    is the language [en]. *)
Lemma first_event_session_witness :
  let u := text_update 1 555 "en" in
  telegram_sessions (db seeded_world) !! pretty 555%Z = None
  /\ exists row,
       telegram_sessions (db (final (dispatch sample_cfg decimalNumber sample_env u seeded_world)))
         !! pretty 555%Z = Some row
       /\ row_state row = awaiting_category
       /\ parseDraft (row_draft_json row) = emptyDraft.
Proof.
  intros u.
  assert (Hnone : telegram_sessions (db seeded_world) !! pretty 555%Z = None)
    by (vm_compute; reflexivity).
  split; [exact Hnone|].
  exact (proj1 (proj2 (first_event_session sample_cfg decimalNumber))
           sample_env u (text_message 555 "en") seeded_world eq_refl eq_refl Hnone).
Defined.

(** C6 on the sample run: the update that writes the ticket of chat 555. *)
Lemma ticket_requires_complete_draft_witness :
  let u := button_update 6 555 "confirm:submit" in
  let w := world_555_confirming in
  reachable sample_cfg decimalNumber w
  /\ grievances (db (final (dispatch sample_cfg decimalNumber sample_env u w)))
     <> grievances (db w)
  /\ exists chat row,
       telegram_sessions (db w) !! chat = Some row
       /\ is_Some (row_user_id row)
       /\ draft_complete (parseDraft (row_draft_json row)).
Proof.
  intros u w.
  assert (Hreach : reachable sample_cfg decimalNumber w).
  { unfold w, world_555_confirming, serve.
    repeat apply reach_dispatch. apply reach_init. reflexivity. }
  assert (Hne : grievances (db (final (dispatch sample_cfg decimalNumber sample_env u w)))
                <> grievances (db w)).
  { intros H. apply (f_equal length) in H. vm_compute in H. discriminate H. }
  split; [exact Hreach|]. split; [exact Hne|].
  exact (proj1 (proj2 (proj2 (ticket_requires_complete_draft sample_cfg decimalNumber)))
           sample_env u w Hreach Hne).
Defined.

(** C4 on the sample run: chats 555 and 777 press submit at one clock
    reading. *)
Lemma same_clock_second_ticket_rejected_witness :
  let w := world_two_confirming in
  let s1 := session_found (db w) "555" in
  let s2 := session_found (db w) "777" in
  let first := submitTelegramComplaint sample_env s1 "555" w in
  result first = Some (Some "TGM-LOYW3V28", set_draft emptyDraft (set_state idle s1))
  /\ submit_refused s2 = false
  /\ ticketNumber sample_env = "TGM-LOYW3V28"
  /\ submitTelegramComplaint sample_env s2 "777" (final first) = Thrown (final first).
Proof.
  intros w s1 s2 first.
  assert (H1 : submitTelegramComplaint sample_env s1 "555" w
               = Returned (Some "TGM-LOYW3V28", set_draft emptyDraft (set_state idle s1))
                          (final first)) by (vm_compute; reflexivity).
  assert (H2 : submit_refused s2 = false) by (vm_compute; reflexivity).
  destruct (same_clock_second_ticket_rejected sample_env sample_env s1 s2 "555" "777"
              _ _ w (final first) H1 eq_refl H2) as (_ & Ht & Hthrow).
  split; [unfold first; rewrite H1; reflexivity|].
  split; [exact H2|]. split; [exact Ht | exact Hthrow].
Defined.

(** C4 on two submissions handled in turn: only the first leaves a
    ticket; chat 777 stays at the confirmation prompt and is sent no reply
    beyond the acknowledgement of its button press. *)
Lemma same_millisecond_submissions :
  let w := world_two_confirming in
  let w1 := serve (button_update 16 555 "confirm:submit") w in
  let w2 := serve (button_update 17 777 "confirm:submit") w1 in
  map g_ticket_number (grievances (db w2))
  = map g_ticket_number (grievances (db w)) ++ ["TGM-LOYW3V28"]
  /\ (row_state <$> telegram_sessions (db w2) !! "555") = Some idle
  /\ (row_state <$> telegram_sessions (db w2) !! "777") = Some awaiting_confirmation
  /\ outbox w2 = outbox w1 ++ [AnswerCallbackQuery "cbq"].
Proof.
  cbv zeta.
  split; [vm_compute; reflexivity|]. split; [vm_compute; reflexivity|].
  split; vm_compute; reflexivity.
Qed.


(** * Further properties of the code *)

(** ** The canonical stages on the dashboard *)

Section DashboardFacts.
Import Status.

Lemma legacyTable_stage status : In (legacyTable status) stages.
Proof.
  unfold legacyTable, JsString.includes. cbn [existsb].
  repeat match goal with
         | |- context [String.eqb status ?l] => destruct (String.eqb status l)
         end; cbn; tauto.
Qed.

Lemma coarseStage_stage c k : coarseStage c = Some k -> In k stages.
Proof.
  destruct c as [c|]; [|discriminate]. cbn.
  unfold isStage, JsString.includes. cbn [existsb].
  destruct (String.eqb_spec c "accepted") as [-> | ?];
    [intros H; injection H as <-; cbn; tauto|].
  destruct (String.eqb_spec c "in_progress") as [-> | ?];
    [intros H; injection H as <-; cbn; tauto|].
  destruct (String.eqb_spec c "closed") as [-> | ?];
    [intros H; injection H as <-; cbn; tauto|].
  discriminate.
Qed.

Lemma later_stage a b : In a stages -> In b stages -> In (later a b) stages.
Proof. unfold later. destruct (rank a <? rank b)%nat; auto. Qed.

(** X1.  Both status paths return one of the four canonical stages, whatever
    the two stored values are. *)
Theorem stage_is_canonical :
  forall status c,
    In (normalizeStatus status c) stages /\ In (trackStage status c) stages.
Proof.
  intros status c. split.
  - rewrite normalizeStatus_eq. destruct (coarseStage c) as [k|] eqn:Hk; cbn.
    + exact (coarseStage_stage c k Hk).
    + apply legacyTable_stage.
  - rewrite trackStage_eq. apply later_stage; [apply legacyTable_stage|].
    destruct (coarseStage c) as [k|] eqn:Hk; cbn; [exact (coarseStage_stage c k Hk)|tauto].
Qed.

Lemma normalized_stage status c : In (normalizeStatus status c) stages.
Proof.
  rewrite normalizeStatus_eq. destruct (coarseStage c) as [k|] eqn:Hk; cbn;
    [exact (coarseStage_stage c k Hk) | apply legacyTable_stage].
Qed.

Import Dashboard.

Lemma item_stage item :
  normalizeStatus item = "submitted" \/ normalizeStatus item = "accepted"
  \/ normalizeStatus item = "in_progress" \/ normalizeStatus item = "closed".
Proof.
  pose proof (normalized_stage (gr_status item) (gr_complaint_status item)) as H.
  unfold normalizeStatus. unfold stages in H. cbn [In] in H.
  destruct H as [H | [H | [H | [H | []]]]]; rewrite <- H; tauto.
Qed.

(** X2.  Two complaints carry the same label on the dashboard exactly when
    they are in the same stage. *)
Theorem label_distinguishes_stages :
  forall a b,
    statusLabel (normalizeStatus a) = statusLabel (normalizeStatus b)
    <-> normalizeStatus a = normalizeStatus b.
Proof.
  intros a b. split; [|intros ->; reflexivity].
  destruct (item_stage a) as [-> | [-> | [-> | ->]]];
    destruct (item_stage b) as [-> | [-> | [-> | ->]]];
    cbn; intros H; first [reflexivity | discriminate H].
Qed.

Lemma keeps_stage stage g :
  stage <> "all" -> keeps stage "all" g = String.eqb (normalizeStatus g) stage.
Proof.
  intros Hne. apply String.eqb_neq in Hne. unfold keeps. rewrite Hne. cbn.
  apply andb_true_r.
Qed.

Lemma count_stage_filter stage gs :
  stage <> "all" ->
  count_stage stage (map normalizeStatus gs)
  = length (filteredGrievances stage "all" gs).
Proof.
  intros Hne. unfold count_stage, filteredGrievances.
  induction gs as [|g gs IH]; cbn [map List.filter length]; [reflexivity|].
  rewrite (keeps_stage stage g Hne).
  destruct (String.eqb (normalizeStatus g) stage); cbn [length]; rewrite IH; reflexivity.
Qed.

(** X3.  With no category filter, the filter [all] keeps every complaint,
    the four stage filters split the list (each complaint is kept by exactly
    one of them, so their sizes add up to the size of the list), and the
    stat cards show the sizes of these same lists. *)
Theorem stage_filters_partition :
  forall gs,
    let shown stage := filteredGrievances stage "all" gs in
    shown "all" = gs
    /\ (forall g, In g gs ->
          exists stage, In stage stages /\ In g (shown stage)
                        /\ forall other, In g (shown other) -> other = "all" \/ other = stage)
    /\ length (shown "submitted") + length (shown "accepted")
        + length (shown "in_progress") + length (shown "closed") = length gs
    /\ total (stats gs) = length gs
    /\ closed (stats gs) = length (shown "closed")
    /\ accepted (stats gs) = length (shown "accepted")
    /\ inProgress (stats gs) = length (shown "in_progress")
    /\ open (stats gs) = length gs - length (shown "closed").
Proof.
  intros gs shown. unfold shown. clear shown.
  split.
  { unfold filteredGrievances. induction gs as [|g gs IH]; cbn [List.filter]; [reflexivity|].
    assert (keeps "all" "all" g = true) as -> by reflexivity.
    rewrite IH. reflexivity. }
  split.
  { intros g Hin. exists (normalizeStatus g). split.
    - destruct (item_stage g) as [-> | [-> | [-> | ->]]]; cbn; tauto.
    - split.
      + unfold filteredGrievances. apply filter_In. split; [exact Hin|].
        unfold keeps. rewrite String.eqb_refl, orb_true_r. reflexivity.
      + intros other Hother. unfold filteredGrievances in Hother.
        apply filter_In in Hother as [_ Hk]. unfold keeps in Hk.
        rewrite andb_true_r in Hk. apply orb_true_iff in Hk as [Hk | Hk].
        * left. apply String.eqb_eq. exact Hk.
        * right. symmetry. apply String.eqb_eq. exact Hk. }
  split.
  { unfold filteredGrievances. induction gs as [|g gs IH]; cbn [List.filter length]; [reflexivity|].
    rewrite !keeps_stage by discriminate.
    set (A := List.filter (keeps "submitted" "all") gs) in *.
    set (B := List.filter (keeps "accepted" "all") gs) in *.
    set (C := List.filter (keeps "in_progress" "all") gs) in *.
    set (D := List.filter (keeps "closed" "all") gs) in *.
    clearbody A B C D.
    destruct (item_stage g) as [-> | [-> | [-> | ->]]]; cbn; lia. }
  unfold stats. cbn.
  rewrite !count_stage_filter by discriminate. rewrite length_map.
  repeat split; reflexivity.
Qed.

Lemma unique_go_spec seen l :
  NoDup (unique_go seen l)
  /\ (forall c, In c (unique_go seen l) <-> In c l /\ ~ In c seen).
Proof.
  revert seen. induction l as [|x l IH]; intros seen; cbn.
  - split; [constructor|]. intros c. tauto.
  - destruct (JsString.includes seen x) eqn:Hx.
    + destruct (IH seen) as [Hnd Hin]. split; [exact Hnd|].
      intros c. rewrite Hin. split; [tauto|].
      intros [[<- | Hc] Hn]; [|tauto].
      exfalso. apply Hn. unfold JsString.includes in Hx.
      apply existsb_exists in Hx as (y & Hy & Hxy). apply String.eqb_eq in Hxy.
      subst y. exact Hy.
    + destruct (IH (x :: seen)) as [Hnd Hin]. split.
      * apply NoDup_cons. split; [|exact Hnd].
        rewrite list_elem_of_In, Hin. cbn. tauto.
      * intros c. cbn. rewrite Hin. cbn. split.
        -- intros [<- | [Hc Hn]]; [|tauto]. split; [tauto|].
           intros Hs. unfold JsString.includes in Hx.
           assert (existsb (String.eqb x) seen = true) as E; [|congruence].
           apply existsb_exists. exists x. split; [exact Hs | apply String.eqb_refl].
        -- intros [[<- | Hc] Hn]; [tauto|].
           destruct (String.eqb_spec x c) as [-> | Hne]; [tauto|]. right. tauto.
Qed.

(** X4.  The category drop-down lists every non-empty category name that
    occurs among the complaints, each once, and no other; choosing one of
    them (with no status filter) shows at least one complaint. *)
Theorem category_options :
  forall gs,
    NoDup (categories gs)
    /\ (forall c, In c (categories gs)
                  <-> c <> "" /\ exists g, In g gs /\ gr_category_name g = Some c)
    /\ (forall c, In c (categories gs) -> filteredGrievances "all" c gs <> []).
Proof.
  intros gs.
  assert (Hiff : forall c, In c (categories gs)
                  <-> c <> "" /\ exists g, In g gs /\ gr_category_name g = Some c).
  { intros c. unfold categories.
    rewrite (proj2 (unique_go_spec [] _)). cbn.
    rewrite <- list_elem_of_In, list_elem_of_omap. split.
    - intros [(g & Hg & Hc) _]. apply list_elem_of_In in Hg.
      destruct (gr_category_name g) as [n|] eqn:Hn; [|discriminate].
      destruct (String.eqb_spec n "") as [-> | Hne]; [discriminate|].
      injection Hc as <-. eauto.
    - intros [Hne (g & Hg & Hc)]. split; [|tauto].
      exists g. split; [apply list_elem_of_In; exact Hg|]. rewrite Hc.
      apply String.eqb_neq in Hne. rewrite Hne. reflexivity. }
  split; [apply unique_go_spec|]. split; [exact Hiff|].
  intros c Hc. apply Hiff in Hc as [Hne (g & Hg & Hn)].
  assert (In g (filteredGrievances "all" c gs)) as Hin.
  { unfold filteredGrievances. apply filter_In. split; [exact Hg|].
    unfold keeps. cbn. rewrite Hn. cbn. rewrite String.eqb_refl, orb_true_r. reflexivity. }
  intros Hnil. rewrite Hnil in Hin. destruct Hin.
Qed.

End DashboardFacts.

(** ** The polling alert of the dashboard *)

Section PollFacts.
Import Dashboard.

Lemma fold_statuses_other (data : list Grievance) (m : gmap Z string) id :
  ~ In id (map gr_id data) ->
  fold_left (fun m item => <[gr_id item := normalizeStatus item]> m) data m !! id = m !! id.
Proof.
  revert m. induction data as [|x l IH]; intros m Hn; cbn; [reflexivity|].
  rewrite IH by (intros H; apply Hn; cbn; tauto).
  apply lookup_insert_ne. intros H. apply Hn. cbn. tauto.
Qed.

Lemma nextStatuses_lookup data item :
  NoDup (map gr_id data) -> In item data ->
  nextStatuses data !! gr_id item = Some (normalizeStatus item).
Proof.
  unfold nextStatuses. generalize (∅ : gmap Z string) as m.
  induction data as [|x l IH]; intros m Hnd Hin; [destruct Hin|].
  cbn in Hnd. apply NoDup_cons in Hnd as [Hx Hnd]. cbn.
  destruct Hin as [-> | Hin].
  - rewrite fold_statuses_other by (rewrite <- list_elem_of_In; exact Hx).
    apply lookup_insert_eq.
  - apply IH; assumption.
Qed.

Lemma nextStatuses_known data id stage :
  nextStatuses data !! id = Some stage ->
  exists old, In old data /\ gr_id old = id /\ normalizeStatus old = stage.
Proof.
  unfold nextStatuses.
  assert (forall (m : gmap Z string),
             fold_left (fun m item => <[gr_id item := normalizeStatus item]> m) data m !! id
             = Some stage ->
             m !! id = Some stage
             \/ exists old, In old data /\ gr_id old = id /\ normalizeStatus old = stage) as H.
  { induction data as [|x l IH]; intros m Hm; cbn in Hm; [tauto|].
    destruct (IH _ Hm) as [Hx | (old & Hin & Hid & Hst)].
    - destruct (decide (gr_id x = id)) as [<- | Hne].
      + rewrite lookup_insert_eq in Hx. injection Hx as <-.
        right. exists x. cbn. tauto.
      + rewrite lookup_insert_ne in Hx by exact Hne. tauto.
    - right. exists old. cbn. tauto. }
  intros Hm. destruct (H ∅ Hm) as [He | Hold]; [|exact Hold].
  rewrite lookup_empty in He. discriminate He.
Qed.

(** X5.  The first poll raises no alert.  An alert names a complaint whose
    stage differs from the one the previous poll recorded for it, so a
    complaint that is new to the page raises none; and a poll raises one
    whenever such a complaint is among the data.  After a poll of complaints
    with distinct ids, a poll in which every complaint known from it shows
    the stage it had raises no alert. *)
Theorem poll_alerts :
  forall p data,
    (initialized p = false -> fst (load p data) = None)
    /\ (forall msg, fst (load p data) = Some msg ->
          exists item prev,
            In item data /\ previousStatuses p !! gr_id item = Some prev
            /\ prev <> normalizeStatus item /\ msg = alert_text item)
    /\ (initialized p = true ->
        (exists item prev,
            In item data /\ previousStatuses p !! gr_id item = Some prev
            /\ prev <> "" /\ prev <> normalizeStatus item) ->
        is_Some (fst (load p data)))
    /\ (NoDup (map gr_id data) ->
        forall data',
          (forall item old, In item data' -> In old data -> gr_id old = gr_id item ->
                            normalizeStatus old = normalizeStatus item) ->
          fst (load (snd (load p data)) data') = None).
Proof.
  intros p data. unfold load. cbn [fst snd initialized previousStatuses].
  split; [intros ->; reflexivity|]. split.
  { intros msg. destruct (initialized p); [|discriminate].
    destruct (find (stage_changed (previousStatuses p)) data) as [item|] eqn:Hf;
      [|discriminate].
    cbn. intros H. injection H as <-.
    apply find_some in Hf as [Hin Hch]. unfold stage_changed in Hch.
    destruct (previousStatuses p !! gr_id item) as [prev|] eqn:Hp; [|discriminate].
    apply andb_true_iff in Hch as [_ Hne]. apply negb_true_iff, String.eqb_neq in Hne.
    exists item, prev. auto. }
  split.
  { intros -> (item & prev & Hin & Hp & Hne & Hdiff).
    destruct (find (stage_changed (previousStatuses p)) data) as [x|] eqn:Hf; [cbn; eauto|].
    pose proof (find_none _ _ Hf item Hin) as Hno. unfold stage_changed in Hno.
    rewrite Hp in Hno. apply String.eqb_neq in Hne, Hdiff.
    rewrite Hne, Hdiff in Hno. discriminate Hno. }
  intros Hnd data' Hsame.
  destruct (find (stage_changed (nextStatuses data)) data') as [item|] eqn:Hf; [|reflexivity].
  apply find_some in Hf as [Hin Hch]. unfold stage_changed in Hch.
  destruct (nextStatuses data !! gr_id item) as [prev|] eqn:Hp; [|discriminate].
  apply nextStatuses_known in Hp as (old & Hold & Hid & Hst).
  rewrite <- Hst, (Hsame item old Hin Hold Hid), String.eqb_refl in Hch.
  rewrite andb_false_r in Hch. discriminate Hch.
Qed.

End PollFacts.

(** ** The authority's status update *)

Section PatchFacts.
Variable check : string -> bool.

Lemma update_status_some st cs target gs gs' :
  update_status check st cs target gs = Some gs' ->
  gs' = gs /\ (target ≫= (fun i => gs !! i)) = None
  \/ exists i old, target = Some i /\ gs !! i = Some old /\ check st = true
                   /\ gs' = <[i := set_status st cs old]> gs.
Proof.
  unfold update_status. destruct target as [i|]; cbn.
  - destruct (gs !! i) as [old|] eqn:Hold; cbn.
    + destruct (check st) eqn:Hc; [|discriminate].
      intros H. injection H as <-. right. exists i, old. auto.
    + intros H. injection H as <-. left. auto.
  - intros H. injection H as <-. left. auto.
Qed.

Lemma try_candidates_some cands cs target gs gs' :
  try_candidates check cands cs target gs = Some gs' ->
  gs' = gs /\ (target ≫= (fun i => gs !! i)) = None
  \/ exists st i old pre post,
       cands = pre ++ st :: post /\ Forall (fun c => check c = false) pre
       /\ target = Some i /\ gs !! i = Some old
       /\ check st = true /\ gs' = <[i := set_status st cs old]> gs.
Proof.
  induction cands as [|c r IH]; cbn; [discriminate|].
  destruct (update_status check c cs target gs) as [g1|] eqn:Hu.
  - intros H. injection H as <-.
    apply update_status_some in Hu as [Hsame | (i & old & Ht & Ho & Hc & Hg)]; [tauto|].
    right. exists c, i, old, [], r. repeat split; auto.
  - intros H. destruct (IH H) as [Hsame | (st & i & old & pre & post & -> & Hpre & Hrest)];
      [tauto|].
    right. exists st, i, old, (c :: pre), post.
    split; [reflexivity|]. split; [|exact Hrest].
    constructor; [|exact Hpre].
    destruct Hrest as (-> & Hold & _). unfold update_status in Hu. cbn in Hu.
    rewrite Hold in Hu. cbn in Hu. destruct (check c); [discriminate Hu | reflexivity].
Qed.

Lemma candidate_stage requested st :
  authorityStatus (Some requested) = Some requested ->
  In st (statusMap requested) ->
  Status.normalizeStatus st (Some requested) = requested
  /\ Status.trackStage st (Some requested) = requested.
Proof.
  unfold authorityStatus, JsString.includes, statusMap. cbn [existsb].
  destruct (String.eqb_spec requested "accepted") as [-> | ?];
    [intros _ [<- | [<- | []]]; split; reflexivity|].
  destruct (String.eqb_spec requested "in_progress") as [-> | ?];
    [intros _ [<- | []]; split; reflexivity|].
  destruct (String.eqb_spec requested "closed") as [-> | ?];
    [intros _ [<- | [<- | []]]; split; reflexivity|].
  discriminate.
Qed.

Lemma authorityStatus_some status requested :
  authorityStatus status = Some requested ->
  status = Some requested /\ authorityStatus (Some requested) = Some requested.
Proof.
  destruct status as [v|]; [|discriminate]. unfold authorityStatus.
  destruct (JsString.includes ["accepted"; "in_progress"; "closed"] v) eqn:Hv; [|discriminate].
  intros H. injection H as <-. rewrite Hv. auto.
Qed.

Lemma with_same_grievances d : with_grievances (grievances d) d = d.
Proof. destruct d. reflexivity. Qed.

(** X6.  When the authority's update answers with the row, the request came
    from an authority and named one of the three stages; the row the key
    selects got the first of the legacy values of that stage, in the order
    of the status map, that the table accepts, and the stage as its coarse
    value; from then on the dashboard and the tracking endpoint both show
    the requested stage for it.  The row's other columns and the other
    rows are as before. *)
Theorem patch_sets_stage :
  forall role status target d ticket st cs d',
    patchStatus check role status target d = (PatchOk ticket st cs, d') ->
    role = "authority"
    /\ exists requested i old,
         status = Some requested /\ target = Some i
         /\ grievances d !! i = Some old
         /\ In st (statusMap requested)
         /\ (exists pre post, statusMap requested = pre ++ st :: post
                              /\ Forall (fun c => check c = false) pre)
         /\ check st = true /\ cs = Some requested
         /\ ticket = g_ticket_number old
         /\ d' = with_grievances (<[i := set_status st requested old]> (grievances d)) d
         /\ Status.normalizeStatus st cs = requested
         /\ Status.trackStage st cs = requested.
Proof.
  intros role status target d ticket st cs d'. unfold patchStatus.
  destruct (String.eqb_spec role "authority") as [-> | Hrole]; cbn [negb];
    [|intros H; discriminate H].
  destruct (authorityStatus status) as [requested|] eqn:Hreq; [|intros H; discriminate H].
  apply authorityStatus_some in Hreq as [-> Hreq].
  destruct (try_candidates check (statusMap requested) requested target (grievances d))
    as [gs'|] eqn:Htry; [|intros H; discriminate H].
  apply try_candidates_some in Htry
    as [[-> Hnone] | (c & i & old & pre & post & Hsplit & Hpre & -> & Hold & Hc & ->)].
  - rewrite Hnone. intros H. discriminate H.
  - cbn. rewrite list_lookup_insert_eq by (eapply lookup_lt_Some; exact Hold).
    cbn. intros H. injection H as <- <- <- <-.
    assert (Hin : In c (statusMap requested)).
    { rewrite Hsplit. apply in_or_app. right. left. reflexivity. }
    split; [reflexivity|]. exists requested, i, old.
    destruct (candidate_stage requested c Hreq Hin) as [Hn Ht].
    split; [reflexivity|]. split; [reflexivity|]. split; [exact Hold|].
    split; [exact Hin|]. split; [exists pre, post; auto|].
    repeat split; auto.
Qed.

Lemma statusMap_first requested :
  authorityStatus (Some requested) = Some requested ->
  exists c r, statusMap requested = c :: r /\ schema_status_check c = true.
Proof.
  unfold authorityStatus, JsString.includes, statusMap. cbn [existsb].
  destruct (String.eqb_spec requested "accepted") as [-> | ?]; [intros _; eauto|].
  destruct (String.eqb_spec requested "in_progress") as [-> | ?]; [intros _; eauto|].
  destruct (String.eqb_spec requested "closed") as [-> | ?]; [intros _; eauto|].
  discriminate.
Qed.

Lemma try_candidates_no_row c r cs target gs :
  (target ≫= (fun i => gs !! i)) = None ->
  try_candidates check (c :: r) cs target gs = Some gs.
Proof.
  intros Hnone. cbn. unfold update_status.
  destruct target as [i|]; cbn in *; [|reflexivity].
  rewrite Hnone. reflexivity.
Qed.

Lemma patch_error_unchanged (chk : string -> bool) role status target d code error :
  fst (patchStatus chk role status target d) = PatchError code error ->
  snd (patchStatus chk role status target d) = d.
Proof.
  unfold patchStatus.
  destruct (negb (String.eqb role "authority")); [reflexivity|].
  destruct (authorityStatus status) as [requested|]; [|reflexivity].
  destruct (try_candidates chk (statusMap requested) requested target (grievances d))
    as [gs'|] eqn:Htry; [|reflexivity].
  destruct (target ≫= (fun i => gs' !! i)) as [row|] eqn:Hrow; [discriminate|].
  intros _. cbn.
  assert (gs' = grievances d) as ->; [|apply with_same_grievances].
  clear -Htry Hrow. revert Htry. generalize (statusMap requested) as cands.
  induction cands as [|c r IH]; cbn; [discriminate|].
  unfold update_status at 1.
  destruct target as [i|]; cbn in *.
  - destruct (grievances d !! i) as [old|] eqn:Hold; cbn.
    + destruct (chk c); [|exact IH].
      intros H. injection H as <-.
      rewrite list_lookup_insert_eq in Hrow by (eapply lookup_lt_Some; exact Hold).
      discriminate Hrow.
    + intros H. injection H as <-. reflexivity.
  - intros H. injection H as <-. reflexivity.
Qed.

(** X7.  Any other answer leaves the database as it was.  A user who is not
    an authority gets 403; a status that is not one of the three stage names
    gets 400; a key that selects no row gets 404.  Under the CHECK
    constraint of the shipped schema the answer 500 (no legacy value of the
    stage accepted by the table) does not arise. *)
Theorem patch_refusals :
  forall role status target d,
    (forall code error,
        fst (patchStatus check role status target d) = PatchError code error ->
        snd (patchStatus check role status target d) = d)
    /\ (role <> "authority" ->
        patchStatus check role status target d = (PatchError 403 "Forbidden", d))
    /\ (role = "authority" -> authorityStatus status = None ->
        patchStatus check role status target d
        = (PatchError 400 "Invalid status payload", d))
    /\ (role = "authority" -> is_Some (authorityStatus status) ->
        (target ≫= (fun i => grievances d !! i)) = None ->
        patchStatus check role status target d
        = (PatchError 404 "Complaint not found", d))
    /\ (forall code error,
          fst (patchStatus schema_status_check role status target d)
          = PatchError code error ->
          code <> 500).
Proof.
  intros role status target d.
  split; [intros code error; apply patch_error_unchanged|].
  split.
  { intros Hrole. unfold patchStatus. apply String.eqb_neq in Hrole.
    rewrite Hrole. reflexivity. }
  split.
  { intros -> Hnone. unfold patchStatus. rewrite Hnone. reflexivity. }
  split.
  { intros -> [requested Hreq] Hnone. unfold patchStatus. rewrite Hreq. cbn [String.eqb negb].
    destruct (authorityStatus_some _ _ Hreq) as [_ Hvalid].
    destruct (statusMap_first requested Hvalid) as (c & r & -> & _).
    rewrite (try_candidates_no_row c r requested target _ Hnone).
    replace (String.eqb "authority" "authority") with true by reflexivity. cbn [negb].
    rewrite Hnone, with_same_grievances. reflexivity. }
  intros code error. unfold patchStatus.
  destruct (negb (String.eqb role "authority")); [intros H; injection H as <- _; lia|].
  destruct (authorityStatus status) as [requested|] eqn:Hreq;
    [|intros H; injection H as <- _; lia].
  destruct (authorityStatus_some _ _ Hreq) as [_ Hvalid].
  destruct (statusMap_first requested Hvalid) as (c & r & -> & Hc).
  cbn [try_candidates]. unfold update_status. rewrite Hc.
  destruct (target ≫= (fun i => (fun g => (i, g)) <$> grievances d !! i)) as [[i g]|];
    cbn.
  - destruct (target ≫= (fun i0 => <[i := set_status c requested g]> (grievances d) !! i0));
      cbn; intros H; [discriminate H | injection H as <- _; lia].
  - destruct (target ≫= (fun i => grievances d !! i));
      cbn; intros H; [discriminate H | injection H as <- _; lia].
Qed.

End PatchFacts.

(** ** What the route and the handlers leave behind *)

Section RequestFacts.
Variable cfg : Config.
Variable Number : string -> option Z.

(** X8.  The route never acknowledges a request.  Whatever the request,
    the database and the outbox are left as they were.  A response, when
    one is sent, is a refusal: 503 without a bot token, 401 on a wrong
    secret, 400 on a body without a numeric [update_id].  A request that
    passes these three checks gets no response from the handler, which
    throws at the ledger lookup; and these are the only requests on which
    it throws. *)
Theorem webhook_never_acknowledges :
  forall env req w,
    final (webhook cfg Number env req w) = w
    /\ (forall r, result (webhook cfg Number env req w) = Some r ->
                  r = {| status_code := 503;
                         json := ErrorBody "Telegram integration is disabled" |}
                  \/ r = {| status_code := 401; json := ErrorBody "Invalid webhook secret" |}
                  \/ r = {| status_code := 400; json := ErrorBody "Invalid update payload" |})
    /\ (result (webhook cfg Number env req w) = None
        <-> isTelegramEnabled cfg = true
            /\ secret_passes cfg req = true
            /\ exists b, body req = Some b /\ is_number (body_update_id b) = true).
Proof.
  intros env req w. split; [apply webhook_final|].
  destruct (isTelegramEnabled cfg) eqn:Hen.
  - destruct (secret_passes cfg req) eqn:Hsec.
    + destruct (body req) as [b|] eqn:Hbody.
      * destruct (is_number (body_update_id b)) eqn:Hnum.
        -- rewrite (webhook_past_checks cfg Number env req b w Hen Hsec Hbody Hnum).
           cbn. split; [discriminate|]. split; [eauto|reflexivity].
        -- rewrite (webhook_invalid_payload cfg Number env req w Hen Hsec);
             [|rewrite Hbody; exact Hnum].
           cbn. split.
           ++ intros r H. injection H as <-. auto.
           ++ split; [discriminate|].
              intros (_ & _ & b' & Hb' & Hn). congruence.
      * rewrite (webhook_invalid_payload cfg Number env req w Hen Hsec);
          [|rewrite Hbody; exact I].
        cbn. split.
        -- intros r H. injection H as <-. auto.
        -- split; [discriminate|]. intros (_ & _ & b' & Hb' & _). discriminate.
    + unfold webhook. rewrite Hen. cbn [negb].
      assert (Hgate : negb (String.eqb (TELEGRAM_WEBHOOK_SECRET cfg) "")
                      && negb (String.eqb (default "" (secret_header req))
                                          (TELEGRAM_WEBHOOK_SECRET cfg)) = true).
      { unfold secret_passes in Hsec.
        destruct (String.eqb (TELEGRAM_WEBHOOK_SECRET cfg) ""),
          (String.eqb (default "" (secret_header req)) (TELEGRAM_WEBHOOK_SECRET cfg));
          done. }
      rewrite Hgate. cbn. split.
      * intros r H. injection H as <-. auto.
      * split; [discriminate|]. intros (_ & H & _). discriminate.
  - unfold webhook. rewrite Hen. cbn. split.
    + intros r H. injection H as <-. auto.
    + split; [discriminate|]. intros (H & _). discriminate.
Qed.

Lemma map_core_bound id chat us :
  map user_core
      (map (fun u => if Z.eqb (u_id u) id
                     then {| u_id := u_id u; u_email := u_email u;
                             u_password := u_password u; u_name := u_name u;
                             u_role := u_role u; u_telegram_chat_id := Some chat |}
                     else u) us)
  = map user_core us.
Proof.
  rewrite map_map. apply map_ext. intros u.
  destruct (Z.eqb (u_id u) id); reflexivity.
Qed.

Ltac grows :=
  first [ reflexivity
        | by apply prefix_app_r
        | rewrite map_core_bound; reflexivity
        | rewrite map_app; by apply prefix_app_r
        | rewrite <- ?app_assoc; by apply prefix_app_r ].

Lemma dispatch_grievances_prefix env u w :
  grievances (db w) `prefix_of` grievances (db (final (dispatch cfg Number env u w))).
Proof. run; grows. Qed.

Lemma dispatch_users_prefix env u w :
  map user_core (users (db w))
  `prefix_of` map user_core (users (db (final (dispatch cfg Number env u w)))).
Proof. run; grows. Qed.

Lemma dispatch_outbox_prefix env u w :
  outbox w `prefix_of` outbox (final (dispatch cfg Number env u w)).
Proof. run; grows. Qed.

Lemma dispatch_categories env u w :
  grievance_categories (db (final (dispatch cfg Number env u w)))
  = grievance_categories (db w).
Proof. run. Qed.

Lemma dispatch_sessions_kept env u w chat :
  is_Some (telegram_sessions (db w) !! chat) ->
  is_Some (telegram_sessions (db (final (dispatch cfg Number env u w))) !! chat).
Proof.
  intros Hs. run; rewrite ?lookup_insert_is_Some'; auto.
Qed.

Lemma only_adds_refl w : only_adds w w.
Proof. repeat split; auto. Qed.

Lemma only_adds_trans w1 w2 w3 : only_adds w1 w2 -> only_adds w2 w3 -> only_adds w1 w3.
Proof.
  intros (A1 & A2 & A3 & A4 & A5 & A6) (B1 & B2 & B3 & B4 & B5 & B6).
  repeat split; try (etrans; eassumption).
  intros chat H. apply B5, A5, H.
Qed.

Lemma dispatch_only_adds env u w : only_adds w (final (dispatch cfg Number env u w)).
Proof.
  split; [rewrite dispatch_updates; reflexivity|].
  split; [apply dispatch_grievances_prefix|].
  split; [apply dispatch_users_prefix|].
  split; [apply dispatch_categories|].
  split; [intros chat; apply dispatch_sessions_kept|].
  apply dispatch_outbox_prefix.
Qed.

Lemma insertUpdate_only_adds id w : only_adds w (final (insertUpdate id w)).
Proof.
  destruct (insertUpdate_cases id w) as [-> | (z & _ & ->)]; [apply only_adds_refl|].
  repeat split; cbn; auto. by apply prefix_app_r.
Qed.

(** X9.  Nothing is ever removed: across the route, across the handling
    of an update, and across the recording of an identifier followed by
    the handling of the update, the ledger, the tickets, the accounts
    (their columns other than the chat binding) and the outbox are
    extended at the end, the categories are untouched, and every chat id
    that had a session still has one. *)
Theorem webhook_only_adds :
  forall env req id u w,
    only_adds w (final (webhook cfg Number env req w))
    /\ only_adds w (final (dispatch cfg Number env u w))
    /\ only_adds w (final ((insertUpdate id ;;; dispatch cfg Number env u) w)).
Proof.
  intros env req id u w.
  split; [rewrite webhook_final; apply only_adds_refl|].
  split; [apply dispatch_only_adds|].
  destruct (record_then_dispatch cfg Number env id u w) as [-> | ->].
  - apply insertUpdate_only_adds.
  - eapply only_adds_trans; [apply insertUpdate_only_adds | apply dispatch_only_adds].
Qed.

End RequestFacts.

(** ** The constraints of the schema across an update *)

Section SchemaFacts.
Variable cfg : Config.
Variable Number : string -> option Z.

Lemma ensure_cases env chat user w :
  (exists e, user_by_chat (db w) chat = Some e
             /\ ensureTelegramCitizen env chat user w = Returned (u_id e) w)
  \/ (exists b, find (has_chat chat) (users (db w)) = None
                /\ user_by_email (db w) (fallbackEmail chat) = Some b
                /\ ensureTelegramCitizen env chat user w
                   = Returned (u_id b)
                       {| db := with_users (map (bind_chat (u_id b) chat) (users (db w)))
                                           (users_seq (db w)) (db w);
                          outbox := outbox w |})
  \/ (find (has_chat chat) (users (db w)) = None
      /\ user_by_email (db w) (fallbackEmail chat) = None
      /\ ensureTelegramCitizen env chat user w
         = Returned (next_user_id (db w))
             {| db := with_users
                        (users (db w) ++
                         [{| u_id := next_user_id (db w); u_email := fallbackEmail chat;
                             u_password := tempPassword env; u_name := fullName chat user;
                             u_role := "citizen"; u_telegram_chat_id := Some chat |}])
                        (next_user_id (db w)) (db w);
                outbox := outbox w |}).
Proof.
  unfold ensureTelegramCitizen, bind, getDb.
  destruct (user_by_chat (db w) chat) as [e|] eqn:Hchat; [left; eauto|].
  right. unfold user_by_chat in Hchat. fold (has_chat chat) in Hchat.
  destruct (user_by_email (db w) (fallbackEmail chat)) as [b|] eqn:Hemail.
  - left. exists b. split; [exact Hchat|]. split; [reflexivity|].
    unfold update_user_chat, bind, getDb, setDb, ret.
    rewrite (existsb_other_chat (u_id b) chat _ Hchat). reflexivity.
  - right. split; [exact Hchat|]. split; [reflexivity|].
    unfold insert_user, bind, getDb, setDb, ret.
    unfold user_by_email in Hemail. rewrite (find_none_existsb _ _ Hemail).
    fold (has_chat chat). rewrite (find_none_existsb _ _ Hchat). reflexivity.
Qed.

Lemma accounts_one d chat e :
  users_wf d -> user_by_chat d chat = Some e -> accounts_of d chat = [e].
Proof.
  intros [_ Hu] He. specialize (Hu chat). unfold accounts_of, user_by_chat in *.
  fold (has_chat chat) in He. revert Hu He.
  induction (users d) as [|x l IH]; cbn; [discriminate|].
  destruct (has_chat chat x) eqn:Hx.
  - intros Hlen H. injection H as <-. cbn in Hlen.
    destruct (List.filter (has_chat chat) l); [reflexivity | cbn in Hlen; lia].
  - exact IH.
Qed.

Lemma ensure_keeps_wf env chat user w id w1 :
  users_wf (db w) ->
  ensureTelegramCitizen env chat user w = Returned id w1 ->
  users_wf (db w1).
Proof.
  intros [Hnd Hu].
  destruct (ensure_cases env chat user w)
    as [(e & _ & ->) | [(b & Hnone & Hb & ->) | (Hnone & Hemail & ->)]];
    intros H; injection H as <- <-; [split; assumption | |].
  - unfold users_wf, accounts_of. cbn. split.
    + rewrite map_map. erewrite map_ext; [exact Hnd|]. intros u. apply bind_chat_id.
    + intros c. pose proof (filter_after_bind (u_id b) chat c _ Hnone) as Hle.
      destruct (String.eqb chat c).
      * pose proof (count_by_id (u_id b) _ Hnd). lia.
      * specialize (Hu c). unfold accounts_of in Hu. lia.
  - unfold users_wf, accounts_of. cbn. split.
    + rewrite map_app. cbn. apply NoDup_app. split; [exact Hnd|].
      split; [|apply NoDup_singleton].
      intros x Hx Hin. apply list_elem_of_In in Hx, Hin. cbn in Hin.
      destruct Hin as [<- | []]. exact (next_user_id_fresh (db w) Hx).
    + intros c. rewrite List.filter_app, length_app. cbn.
      destruct (String.eqb chat c) eqn:Hc; cbn.
      * apply String.eqb_eq in Hc. subst c.
        rewrite (filter_none_nil _ _ Hnone). cbn. lia.
      * specialize (Hu c). unfold accounts_of in Hu. lia.
Qed.

Lemma ensure_monotone env chat user w id w1 u :
  ensureTelegramCitizen env chat user w = Returned id w1 ->
  user_exists (db w) u = true -> user_exists (db w1) u = true.
Proof.
  destruct (ensure_cases env chat user w)
    as [(e & _ & ->) | [(b & Hnone & Hb & ->) | (Hnone & Hemail & ->)]];
    intros H; injection H as <- <-; [auto | |]; unfold user_exists; cbn; intros Hu.
  - apply existsb_exists in Hu as (x & Hx & Hid). apply existsb_exists.
    exists (bind_chat (u_id b) chat x). split; [apply in_map; exact Hx|].
    rewrite bind_chat_id. exact Hid.
  - rewrite existsb_app, Hu. reflexivity.
Qed.

Lemma ensure_binds env chat user w id w1 :
  ensureTelegramCitizen env chat user w = Returned id w1 ->
  exists u, user_by_chat (db w1) chat = Some u /\ u_id u = id.
Proof.
  destruct (ensure_cases env chat user w)
    as [(e & He & ->) | [(b & Hnone & Hb & ->) | (Hnone & Hemail & ->)]];
    intros H; injection H as <- <-; [eauto | |]; unfold user_by_chat; cbn;
    fold (has_chat chat).
  - unfold user_by_email in Hb.
    assert (Hmail : String.eqb (u_email b) (fallbackEmail chat) = true)
      by (apply find_some in Hb as [_ H]; exact H).
    apply String.eqb_eq in Hmail.
    apply (find_after_bind (u_id b) chat (users (db w)) b Hnone); [|reflexivity].
    rewrite Hmail. exact Hb.
  - eexists. split; [apply find_app_none; [exact Hnone | apply has_chat_refl; reflexivity]|].
    reflexivity.
Qed.

Lemma preserves_ret {A} (P : Db -> Prop) (a : A) : preserves P (ret a).
Proof. intros w H. exact H. Qed.

Lemma preserves_throw {A} (P : Db -> Prop) : preserves P (throw (A := A)).
Proof. intros w H. exact H. Qed.

Lemma preserves_getDb (P : Db -> Prop) : preserves P getDb.
Proof. intros w H. exact H. Qed.

Lemma preserves_bind {A B} (P : Db -> Prop) (c : M A) (k : A -> M B) :
  preserves P c -> (forall a, preserves P (k a)) -> preserves P (bind c k).
Proof.
  intros Hc Hk w Hw. specialize (Hc w Hw). unfold bind.
  destruct (c w) as [a w1|w1]; cbn in *; [exact (Hk a w1 Hc) | exact Hc].
Qed.

Lemma preserves_try_catch (P : Db -> Prop) c : preserves P c -> preserves P (try_catch c).
Proof.
  intros Hc w Hw. specialize (Hc w Hw). unfold try_catch. destruct (c w); exact Hc.
Qed.

Lemma preserves_send (P : Db -> Prop) chat body markup :
  preserves P (sendTelegramMessage cfg chat body markup).
Proof.
  intros w Hw. unfold sendTelegramMessage, callTelegramApi, emit, ret.
  destruct (isTelegramEnabled cfg); exact Hw.
Qed.

Lemma preserves_answer (P : Db -> Prop) id : preserves P (answerTelegramCallback cfg id).
Proof.
  intros w Hw. unfold answerTelegramCallback, callTelegramApi, emit, ret.
  destruct (isTelegramEnabled cfg); exact Hw.
Qed.

Lemma schema_insert_session d chat row :
  schema_ok d ->
  (forall u, row_user_id row = Some u -> user_exists d u = true) ->
  schema_ok (with_sessions (<[chat := row]> (telegram_sessions d)) d).
Proof.
  intros (H1 & H2 & H3 & H4 & H5) Hrow.
  split; [exact H1|]. split; [exact H2|]. split; [exact H3|]. split; [|exact H5].
  intros c r u Hl Hu. cbn in Hl.
  destruct (decide (chat = c)) as [->|Hne].
  - rewrite lookup_insert_eq in Hl. injection Hl as <-. exact (Hrow u Hu).
  - rewrite lookup_insert_ne in Hl by exact Hne. exact (H4 c r u Hl Hu).
Qed.

Lemma schema_getTelegramSession chat : preserves schema_ok (getTelegramSession chat).
Proof.
  intros w Hw. unfold getTelegramSession, bind, getDb, setDb, ret.
  destruct (telegram_sessions (db w) !! chat); cbn; [exact Hw|].
  apply schema_insert_session; [exact Hw|]. intros u Hu. discriminate Hu.
Qed.

Lemma schema_save s : preserves schema_ok (saveTelegramSession s).
Proof.
  intros w Hw. unfold saveTelegramSession, bind, getDb, setDb, throw.
  destruct (userId s) as [u|] eqn:Hu; [destruct (user_exists (db w) u) eqn:Hex|]; cbn;
    try exact Hw; (apply schema_insert_session; [exact Hw|]); cbn; intros x Hx; congruence.
Qed.

Lemma find_email_none email l :
  find (fun u => String.eqb (u_email u) email) l = None -> email ∉ map u_email l.
Proof.
  induction l as [|x l IH]; cbn; intros H Hin.
  - by apply elem_of_nil in Hin.
  - destruct (String.eqb (u_email x) email) eqn:Hx; [discriminate H|].
    apply elem_of_cons in Hin as [->|Hin]; [|exact (IH H Hin)].
    rewrite String.eqb_refl in Hx. discriminate Hx.
Qed.

Lemma ensure_keeps_emails env chat user w id w1 :
  emails_unique (db w) ->
  ensureTelegramCitizen env chat user w = Returned id w1 ->
  emails_unique (db w1).
Proof.
  unfold emails_unique. intros Hnd.
  destruct (ensure_cases env chat user w)
    as [(e & _ & ->) | [(b & Hnone & Hb & ->) | (Hnone & Hemail & ->)]];
    intros H; injection H as <- <-; [exact Hnd | |]; cbn.
  - rewrite map_map. erewrite map_ext; [exact Hnd|].
    intros u. unfold bind_chat. destruct (Z.eqb (u_id u) (u_id b)); reflexivity.
  - rewrite map_app. cbn. apply NoDup_app. split; [exact Hnd|].
    split; [|apply NoDup_singleton].
    intros x Hx Hin. apply list_elem_of_singleton in Hin. subst x.
    exact (find_email_none _ _ Hemail Hx).
Qed.

Lemma schema_ensure env chat user :
  preserves schema_ok (ensureTelegramCitizen env chat user).
Proof.
  intros w (H1 & H2 & H3 & H4 & H5).
  destruct (ensure_result env chat user w) as (id & w1 & He & _ & Hs & Hg & Hc & _).
  rewrite He. cbn.
  split; [exact (ensure_keeps_wf _ _ _ _ _ _ H1 He)|].
  split; [exact (ensure_keeps_emails _ _ _ _ _ _ H2 He)|].
  split; [unfold tickets_unique; rewrite Hg; exact H3|].
  split.
  - intros c r u Hl Hu. rewrite Hs in Hl.
    exact (ensure_monotone _ _ _ _ _ _ _ He (H4 c r u Hl Hu)).
  - unfold grievances_fk, category_by_id in *. rewrite Hg, Hc.
    eapply Forall_impl; [exact H5|]. cbn. intros g [Hu Hcat].
    split; [exact (ensure_monotone _ _ _ _ _ _ _ He Hu) | exact Hcat].
Qed.

Lemma ticket_absent t l :
  existsb (fun x => String.eqb (g_ticket_number x) t) l = false ->
  t ∉ map g_ticket_number l.
Proof.
  induction l as [|x l IH]; cbn; intros H Hin.
  - by apply elem_of_nil in Hin.
  - apply orb_false_iff in H as [Hx H].
    apply elem_of_cons in Hin as [->|Hin]; [|exact (IH H Hin)].
    rewrite String.eqb_refl in Hx. discriminate Hx.
Qed.

Lemma schema_insert_grievance g : preserves schema_ok (insert_grievance g).
Proof.
  intros w (H1 & H2 & H3 & H4 & H5).
  unfold insert_grievance, bind, getDb, setDb, throw.
  destruct (existsb (fun x => String.eqb (g_ticket_number x) (g_ticket_number g))
                    (grievances (db w))
            || negb (user_exists (db w) (g_citizen_id g))
            || negb (found (category_by_id (db w) (g_category_id g)))) eqn:Hc;
    cbn; [done|].
  apply orb_false_iff in Hc as [Hc Hcat]. apply orb_false_iff in Hc as [Ht Hu].
  apply negb_false_iff in Hcat, Hu.
  split; [exact H1|]. split; [exact H2|]. split; [|split; [exact H4|]].
  - unfold tickets_unique. cbn. rewrite map_app. cbn. apply NoDup_app.
    split; [exact H3|]. split; [|apply NoDup_singleton].
    intros x Hx Hin. apply list_elem_of_singleton in Hin. subst x.
    exact (ticket_absent _ _ Ht Hx).
  - unfold grievances_fk. cbn. apply Forall_app. split; [exact H5|].
    constructor; [|constructor]. split; [exact Hu | exact Hcat].
Qed.

(** Goes through a handler statement by statement. *)
Ltac preserve :=
  repeat first
    [ apply preserves_ret | apply preserves_throw | apply preserves_getDb
    | apply preserves_send | apply preserves_answer
    | apply schema_getTelegramSession | apply schema_save | apply schema_ensure
    | apply schema_insert_grievance
    | apply preserves_bind; [|intros ?]
    | match goal with
      | |- preserves _ (match ?x with _ => _ end) => destruct x
      end
    | progress cbv zeta ].

Lemma schema_submit env s chat :
  preserves schema_ok (submitTelegramComplaint env s chat).
Proof. unfold submitTelegramComplaint. preserve. Qed.

Lemma schema_message env u : preserves schema_ok (handleTelegramMessage cfg env u).
Proof. unfold handleTelegramMessage. preserve. Qed.

Lemma schema_callback env u : preserves schema_ok (handleTelegramCallback cfg Number env u).
Proof. unfold handleTelegramCallback. preserve; apply schema_submit. Qed.

Lemma schema_dispatch env u : preserves schema_ok (dispatch cfg Number env u).
Proof.
  unfold dispatch. apply preserves_try_catch.
  repeat case_match; auto using schema_message, schema_callback, preserves_ret.
Qed.

Lemma schema_insertUpdate id : preserves schema_ok (insertUpdate id).
Proof.
  intros w Hw.
  destruct (insertUpdate_cases id w) as [-> | (z & _ & ->)]; exact Hw.
Qed.

(** X10.  The constraints of the schema stay in force: the primary key of
    the accounts and the unique indexes on their e-mail address and chat
    binding, the unique ticket numbers, and the foreign keys of the
    sessions and of the tickets hold after the route, after the handling
    of an update, and after the recording of an identifier followed by
    the handling of the update, when they held before. *)
Theorem webhook_keeps_schema :
  forall env req id u w,
    schema_ok (db w) ->
    schema_ok (db (final (webhook cfg Number env req w)))
    /\ schema_ok (db (final (dispatch cfg Number env u w)))
    /\ schema_ok (db (final ((insertUpdate id ;;; dispatch cfg Number env u) w))).
Proof.
  intros env req id u w Hw.
  split; [rewrite webhook_final; exact Hw|].
  split; [exact (schema_dispatch env u w Hw)|].
  destruct (record_then_dispatch cfg Number env id u w) as [-> | ->].
  - exact (schema_insertUpdate id w Hw).
  - exact (schema_dispatch env u _ (schema_insertUpdate id w Hw)).
Qed.

End SchemaFacts.

(** ** The steps of the conversation *)

Section ConversationFacts.
Variable cfg : Config.
Variable Number : string -> option Z.

Lemma open_session chat w :
  getTelegramSession chat w = Returned (session_found (db w) chat) (opened w chat).
Proof.
  unfold getTelegramSession, session_found, opened, bind, getDb, setDb, ret.
  destruct (telegram_sessions (db w) !! chat); reflexivity.
Qed.

Lemma found_chat d chat : chatId (session_found d chat) = chat.
Proof. unfold session_found. destruct (telegram_sessions d !! chat); reflexivity. Qed.

Lemma opened_users w chat : users (db (opened w chat)) = users (db w).
Proof. unfold opened. destruct (telegram_sessions (db w) !! chat); reflexivity. Qed.

Lemma opened_grievances w chat : grievances (db (opened w chat)) = grievances (db w).
Proof. unfold opened. destruct (telegram_sessions (db w) !! chat); reflexivity. Qed.

Lemma opened_categories w chat :
  grievance_categories (db (opened w chat)) = grievance_categories (db w).
Proof. unfold opened. destruct (telegram_sessions (db w) !! chat); reflexivity. Qed.

Lemma opened_cases w chat :
  (is_Some (telegram_sessions (db w) !! chat) -> opened w chat = w)
  /\ (telegram_sessions (db w) !! chat = None ->
      opened w chat
      = {| db := with_sessions (<[chat := default_row]> (telegram_sessions (db w))) (db w);
           outbox := outbox w |}).
Proof.
  unfold opened. split.
  - intros [row ->]. reflexivity.
  - intros ->. reflexivity.
Qed.

Lemma accepted_session_stored d chat :
  submit_refused (session_found d chat) = false -> is_Some (telegram_sessions d !! chat).
Proof.
  unfold session_found. destruct (telegram_sessions d !! chat) as [row|]; [eauto|].
  intros H. discriminate H.
Qed.

Lemma found_fk w chat :
  session_fk (db w) chat ->
  forall u, userId (session_found (db w) chat) = Some u ->
            user_exists (db (opened w chat)) u = true.
Proof.
  unfold session_fk, session_found, opened. intros Hfk u.
  destruct (telegram_sessions (db w) !! chat) as [row|] eqn:Hrow; cbn; [|discriminate].
  intros Hu. exact (Hfk row u eq_refl Hu).
Qed.

Lemma saved_opened w chat s out :
  chatId s = chat -> saved_world cfg (opened w chat) s out = saved_world cfg w s out.
Proof.
  intros <-. unfold saved_world, opened.
  destruct (telegram_sessions (db w) !! chatId s); [reflexivity|].
  cbn. rewrite insert_insert_eq. reflexivity.
Qed.

Lemma send_only chat body markup w :
  sendTelegramMessage cfg chat body markup w
  = Returned tt (reply_world cfg w [SendMessage chat body markup]).
Proof.
  unfold sendTelegramMessage, callTelegramApi, reply_world, emit, ret.
  destruct (isTelegramEnabled cfg); [reflexivity|]. destruct w; reflexivity.
Qed.

Lemma save_run s w :
  (forall u, userId s = Some u -> user_exists (db w) u = true) ->
  saveTelegramSession s w = Returned tt (saved_world cfg w s []).
Proof.
  intros Hfk. unfold saveTelegramSession, saved_world, bind, getDb, setDb.
  rewrite app_nil_r.
  destruct (userId s) as [u|] eqn:Hu; [rewrite (Hfk u eq_refl)|];
    destruct (isTelegramEnabled cfg); reflexivity.
Qed.

Lemma save_then_send s chat body markup w :
  (forall u, userId s = Some u -> user_exists (db w) u = true) ->
  (saveTelegramSession s ;;; sendTelegramMessage cfg chat body markup) w
  = Returned tt (saved_world cfg w s [SendMessage chat body markup]).
Proof.
  intros Hfk. unfold bind. rewrite (save_run s w Hfk), send_only.
  unfold saved_world, reply_world. cbn.
  destruct (isTelegramEnabled cfg); rewrite ?app_nil_r; reflexivity.
Qed.

Lemma starts_slash s p :
  JsString.startsWith s (String "/" p) = true ->
  exists r, s = String "/" r /\ JsString.startsWith r p = true.
Proof.
  unfold JsString.startsWith. destruct s as [|a s]; [discriminate|].
  rewrite prefix_String. destruct (ascii_dec "/" a) as [<-|]; [eauto | discriminate].
Qed.

Lemma prefix_help s :
  JsString.startsWith s "/help" = true ->
  JsString.startsWith s "/start" = false /\ JsString.startsWith s "/new" = false.
Proof.
  intros H. apply starts_slash in H as (r & -> & H). revert H.
  unfold JsString.startsWith. destruct r as [|b r]; [discriminate|].
  rewrite !prefix_String. destruct (ascii_dec "h" b) as [<-|]; [|discriminate].
  intros _. split; reflexivity.
Qed.

Lemma prefix_status s :
  JsString.startsWith s "/status" = true ->
  JsString.startsWith s "/start" = false /\ JsString.startsWith s "/new" = false
  /\ JsString.startsWith s "/help" = false /\ JsString.startsWith s "/cancel" = false.
Proof.
  intros H. apply starts_slash in H as (r & -> & H). revert H.
  unfold JsString.startsWith.
  destruct r as [|b r]; [discriminate|]. rewrite prefix_String.
  destruct (ascii_dec "s" b) as [<-|]; [|discriminate].
  destruct r as [|c r]; [discriminate|]. rewrite prefix_String.
  destruct (ascii_dec "t" c) as [<-|]; [|discriminate].
  destruct r as [|d r]; [discriminate|]. rewrite prefix_String.
  destruct (ascii_dec "a" d) as [<-|]; [|discriminate].
  destruct r as [|e r]; [discriminate|]. rewrite prefix_String.
  destruct (ascii_dec "t" e) as [<-|]; [|discriminate].
  intros _. repeat split; reflexivity.
Qed.

Lemma not_command text :
  is_command text = false ->
  let lower := JsString.toLowerCase text in
  JsString.startsWith lower "/start" || JsString.startsWith lower "/new" = false
  /\ JsString.startsWith lower "/help" = false
  /\ JsString.startsWith lower "/cancel" = false
  /\ JsString.startsWith lower "/status" = false.
Proof.
  unfold is_command. cbv zeta. intros H.
  apply orb_false_iff in H as [H H4]. apply orb_false_iff in H as [H H3].
  apply orb_false_iff in H as [H H2]. auto.
Qed.

Ltac open_message Hm :=
  unfold handleTelegramMessage; rewrite Hm; cbv zeta;
  unfold bind at 1; rewrite open_session.

(** X11.  /start and /new, in any state: the session goes back to the choice
    of the language with an empty draft, keeping its account and its
    language, and the welcome text is sent with the language keyboard;
    nothing else is written. *)
Theorem restart_command :
  forall env update m w,
    message update = Some m ->
    let chat := pretty (chat_id m) in
    let s := session_found (db w) chat in
    let lower := JsString.toLowerCase (JsString.trim (default "" (text m))) in
    JsString.startsWith lower "/start" || JsString.startsWith lower "/new" = true ->
    session_fk (db w) chat ->
    handleTelegramMessage cfg env update w
    = Returned tt
        (saved_world cfg w (reset_to awaiting_language s)
           [SendMessage chat
              (TwoLines (Tr (language s) welcome) (Tr (language s) chooseLanguage))
              (Some languageKeyboard)]).
Proof.
  intros env update m w Hm chat s lower Hc Hfk. subst lower.
  open_message Hm. rewrite Hc. fold chat s.
  rewrite <- (saved_opened w chat) by apply found_chat.
  apply save_then_send. exact (found_fk w chat Hfk).
Qed.

Lemma telegram_grievance_some d t chat g :
  telegram_grievance d t chat = Some g ->
  In g (grievances d) /\ g_ticket_number g = t
  /\ g_source_channel g = Some "telegram" /\ g_source_user_id g = Some chat.
Proof.
  unfold telegram_grievance. intros H. apply find_some in H as [Hin H].
  apply andb_true_iff in H as [H H3]. apply andb_true_iff in H as [H1 H2].
  apply String.eqb_eq in H1. unfold opt_is in *.
  destruct (g_source_channel g) as [c|]; [|discriminate].
  destruct (g_source_user_id g) as [u|]; [|discriminate].
  apply String.eqb_eq in H2, H3. subst. auto.
Qed.

Lemma telegram_grievance_none d t chat g :
  telegram_grievance d t chat = None ->
  In g (grievances d) -> g_ticket_number g = t ->
  g_source_channel g = Some "telegram" -> g_source_user_id g = Some chat -> False.
Proof.
  unfold telegram_grievance. intros H Hin H1 H2 H3.
  pose proof (find_none _ _ H g Hin) as Hf. cbn beta in Hf.
  rewrite H1, H2, H3 in Hf. cbn in Hf. rewrite !String.eqb_refl in Hf. discriminate Hf.
Qed.

(** X12.  /help and /status send one message and write nothing of their
    own: the world they leave is the one the session lookup at the start
    of the handler left, with the message sent.  That lookup changes
    nothing for a chat that has a stored session, and stores the default
    session row for a chat that has none.  /status takes the second word
    of the text as the ticket number and looks it up among the tickets
    that came from Telegram and from this chat: it reports the status of
    such a ticket, and answers not found for a ticket of another chat or
    of the web forms. *)
Theorem read_only_commands :
  forall env update m w,
    message update = Some m ->
    let chat := pretty (chat_id m) in
    let s := session_found (db w) chat in
    let text := JsString.trim (default "" (text m)) in
    let lower := JsString.toLowerCase text in
    let ticket := JsString.trim <$> nth_error (JsString.split_ws text) 1 in
    (JsString.startsWith lower "/help" = true ->
     handleTelegramMessage cfg env update w
     = Returned tt (reply_world cfg (opened w chat)
                      [SendMessage chat (Tr (language s) help) None]))
    /\ (JsString.startsWith lower "/status" = true ->
        exists body,
          handleTelegramMessage cfg env update w
          = Returned tt (reply_world cfg (opened w chat) [SendMessage chat body None])
          /\ ((falsy_str ticket = true /\ body = Tr (language s) statusMissing)
              \/ (exists t,
                     ticket = Some t
                     /\ (forall g, In g (grievances (db w)) -> g_ticket_number g = t ->
                                   g_source_channel g = Some "telegram" ->
                                   g_source_user_id g = Some chat -> False)
                     /\ body = Tr (language s) statusNotFound)
              \/ (exists t g,
                     ticket = Some t /\ In g (grievances (db w))
                     /\ g_ticket_number g = t
                     /\ g_source_channel g = Some "telegram"
                     /\ g_source_user_id g = Some chat
                     /\ body = TrWith (language s) statusResult
                                 [("ticket", t); ("status", g_status g)])))
    /\ (is_Some (telegram_sessions (db w) !! chat) -> opened w chat = w)
    /\ (telegram_sessions (db w) !! chat = None ->
        opened w chat
        = {| db := with_sessions (<[chat := default_row]> (telegram_sessions (db w))) (db w);
             outbox := outbox w |}).
Proof.
  intros env update m w Hm chat s text lower ticket.
  split; [|split; [|exact (opened_cases w chat)]].
  - intros Hc. destruct (prefix_help _ Hc) as (H1 & H2).
    open_message Hm. fold chat s text lower. rewrite H1, H2, Hc. cbn [orb].
    apply send_only.
  - intros Hc. destruct (prefix_status _ Hc) as (H1 & H2 & H3 & H4).
    open_message Hm. fold chat s text lower. rewrite H1, H2, H3, H4, Hc. cbn [orb].
    fold ticket. destruct (falsy_str ticket) eqn:Hf.
    + eexists. split; [apply send_only|]. left. auto.
    + destruct ticket as [t|] eqn:Ht; [|discriminate Hf].
      unfold bind, getDb. change (default "" (Some t)) with t.
      unfold telegram_grievance.
      rewrite opened_grievances. fold (telegram_grievance (db w) t chat).
      destruct (telegram_grievance (db w) t chat) as [g|] eqn:Hg.
      * eexists. split; [apply send_only|]. right. right.
        apply telegram_grievance_some in Hg as (Hin & <- & Hch & Hsrc).
        exists (g_ticket_number g), g. auto 10.
      * eexists. split; [apply send_only|]. right. left.
        exists t. split; [reflexivity|]. split; [|reflexivity].
        intros g. exact (telegram_grievance_none _ _ _ g Hg).
Qed.

(** X13.  A message that is no command and that the state of the session
    does not accept is answered with the prompt of that state, or with the
    [unknown] text in the states that take no text (idle, the choice of the
    category and the confirmation).  The handler writes nothing of its
    own: the world it leaves is the one the session lookup left, with the
    answer sent.  That lookup changes nothing for a chat that has a
    stored session, and stores the default session row for a chat that
    has none. *)
Theorem rejected_message :
  forall env update m w o,
    message update = Some m ->
    let chat := pretty (chat_id m) in
    let s := session_found (db w) chat in
    let text := JsString.trim (default "" (text m)) in
    is_command text = false ->
    reprompt s text (msg_location m) = Some o ->
    handleTelegramMessage cfg env update w
    = Returned tt (reply_world cfg (opened w chat) [o])
    /\ (is_Some (telegram_sessions (db w) !! chat) -> opened w chat = w)
    /\ (telegram_sessions (db w) !! chat = None ->
        opened w chat
        = {| db := with_sessions (<[chat := default_row]> (telegram_sessions (db w))) (db w);
             outbox := outbox w |}).
Proof.
  intros env update m w o Hm chat s text Hc Ho.
  split; [|exact (opened_cases w chat)].
  destruct (not_command _ Hc) as (H1 & H2 & H3 & H4).
  open_message Hm. fold chat s text. rewrite H1, H2, H3, H4.
  revert Ho. unfold reprompt. rewrite (found_chat (db w) chat : chatId s = chat).
  destruct (state s).
  - intros Ho. injection Ho as <-. apply send_only.
  - destruct (parseTelegramLanguage (Some text)); cbn [found]; intros Ho;
      [discriminate Ho|]. injection Ho as <-. apply send_only.
  - intros Ho. injection Ho as <-. apply send_only.
  - destruct (String.length text <? 10)%nat; intros Ho; [|discriminate Ho].
    injection Ho as <-. apply send_only.
  - destruct (msg_location m); cbn [found orb]; [intros Ho; discriminate Ho|].
    destruct (3 <=? String.length text)%nat; intros Ho; [discriminate Ho|].
    injection Ho as <-. apply send_only.
  - intros Ho. injection Ho as <-. apply send_only.
Qed.

(** X14.  In [awaiting_description] a text of at least 10 code units that is
    no command becomes the description of the draft; the other fields of the
    draft, the account and the language are kept, the state becomes
    [awaiting_location], and the prompt for the location is sent. *)
Theorem description_accepted :
  forall env update m w,
    message update = Some m ->
    let chat := pretty (chat_id m) in
    let s := session_found (db w) chat in
    let text := JsString.trim (default "" (text m)) in
    is_command text = false ->
    state s = awaiting_description ->
    10 <= String.length text ->
    session_fk (db w) chat ->
    handleTelegramMessage cfg env update w
    = Returned tt
        (saved_world cfg w
           (set_state awaiting_location (set_draft (with_description text (draft s)) s))
           [SendMessage chat (Tr (language s) enterLocation) None]).
Proof.
  intros env update m w Hm chat s text Hc Hst Hlen Hfk.
  destruct (not_command _ Hc) as (H1 & H2 & H3 & H4).
  open_message Hm. fold chat s text. rewrite H1, H2, H3, H4, Hst.
  apply Nat.ltb_ge in Hlen. rewrite Hlen.
  rewrite <- (saved_opened w chat) by apply found_chat.
  apply save_then_send. exact (found_fk w chat Hfk).
Qed.

(** X15.  In [awaiting_location] a shared location wins over the text: the
    draft takes the coordinates and their six-decimal rendering as the
    location.  Without a shared location, a text of at least 3 code units
    becomes the location and the coordinates of the draft are removed.
    Either way the state becomes [awaiting_confirmation] and the summary of
    the updated draft is sent with the confirmation keyboard. *)
Theorem location_accepted :
  forall env update m w d',
    message update = Some m ->
    let chat := pretty (chat_id m) in
    let s := session_found (db w) chat in
    let text := JsString.trim (default "" (text m)) in
    is_command text = false ->
    state s = awaiting_location ->
    (exists loc, msg_location m = Some loc /\ d' = with_coordinates loc (draft s))
    \/ (msg_location m = None /\ 3 <= String.length text /\ d' = with_place text (draft s)) ->
    session_fk (db w) chat ->
    handleTelegramMessage cfg env update w
    = Returned tt
        (saved_world cfg w
           (set_state awaiting_confirmation (set_draft d' s))
           [SendMessage chat (ComplaintSummary (language s) d')
              (Some (ConfirmationKeyboard (language s)))]).
Proof.
  intros env update m w d' Hm chat s text Hc Hst Hloc Hfk.
  destruct (not_command _ Hc) as (H1 & H2 & H3 & H4).
  open_message Hm. fold chat s text. rewrite H1, H2, H3, H4, Hst.
  rewrite <- (saved_opened w chat) by apply found_chat.
  destruct Hloc as [(loc & -> & ->) | (-> & Hlen & ->)].
  - apply save_then_send. exact (found_fk w chat Hfk).
  - apply Nat.leb_le in Hlen. rewrite Hlen.
    apply save_then_send. exact (found_fk w chat Hfk).
Qed.

Lemma answer_only id w :
  answerTelegramCallback cfg id w
  = Returned tt (reply_world cfg w [AnswerCallbackQuery id]).
Proof.
  unfold answerTelegramCallback, callTelegramApi, reply_world, emit, ret.
  destruct (isTelegramEnabled cfg); [reflexivity|]. destruct w; reflexivity.
Qed.

Lemma saved_reply w out1 s out2 :
  saved_world cfg (reply_world cfg w out1) s out2 = saved_world cfg w s (out1 ++ out2).
Proof.
  unfold saved_world, reply_world. cbn.
  destruct (isTelegramEnabled cfg); rewrite ?app_assoc; reflexivity.
Qed.

Lemma reply_users w out : users (db (reply_world cfg w out)) = users (db w).
Proof. reflexivity. Qed.

Lemma select_language env chat user s l w0 :
  exists uid w1,
    ensureTelegramCitizen env chat user w0 = Returned uid w1
    /\ (exists u, user_by_chat (db w1) chat = Some u /\ u_id u = uid)
    /\ (uid <- ensureTelegramCitizen env chat user ;;
        saveTelegramSession
          (set_userId (Some uid) (set_state awaiting_category (set_language l s))) ;;;
        d <- getDb ;;
        sendTelegramMessage cfg chat
          (TwoLines (Tr l languageSet) (Tr l chooseCategory))
          (Some (categoryKeyboard d))) w0
       = Returned tt
           (saved_world cfg w1
              (set_userId (Some uid) (set_state awaiting_category (set_language l s)))
              [SendMessage chat (TwoLines (Tr l languageSet) (Tr l chooseCategory))
                 (Some (categoryKeyboard (db w0)))]).
Proof.
  destruct (ensure_result env chat user w0) as (uid & w1 & He & Hex & _ & _ & Hc & _).
  exists uid, w1. split; [exact He|]. split; [exact (ensure_binds _ _ _ _ _ _ He)|].
  unfold bind at 1. rewrite He. unfold bind at 1.
  rewrite save_run by (cbn; intros u Hu; injection Hu as <-; exact Hex).
  unfold bind, getDb. rewrite send_only.
  unfold saved_world, reply_world, categoryKeyboard, getTelegramCategories. cbn.
  rewrite Hc. destruct (isTelegramEnabled cfg); rewrite ?app_nil_r; reflexivity.
Qed.

Ltac open_callback Hcb Hm :=
  unfold handleTelegramCallback; rewrite Hcb, Hm; cbv zeta;
  unfold bind at 1; rewrite open_session;
  unfold bind at 1; rewrite answer_only.

(** X16.  A language is selected by a text in [awaiting_language] or by a
    lang: button in any state.  The account of the chat is resolved, the
    session takes that account and the language and goes to the choice of
    the category, and the category keyboard is sent in the new language.
    The draft is kept as it was, and the account is resolved before the
    session is stored, so the stored account exists. *)
Theorem language_selected :
  forall env update m w l,
    let chat := pretty (chat_id m) in
    let s := session_found (db w) chat in
    let s' uid := set_userId (Some uid) (set_state awaiting_category (set_language l s)) in
    let reply := SendMessage chat (TwoLines (Tr l languageSet) (Tr l chooseCategory))
                   (Some (categoryKeyboard (db w))) in
    (message update = Some m ->
     is_command (JsString.trim (default "" (text m))) = false ->
     state s = awaiting_language ->
     parseTelegramLanguage (Some (JsString.trim (default "" (text m)))) = Some l ->
     exists uid w1,
       ensureTelegramCitizen env chat (msg_from m) (opened w chat) = Returned uid w1
       /\ (exists u, user_by_chat (db w1) chat = Some u /\ u_id u = uid)
       /\ handleTelegramMessage cfg env update w
          = Returned tt (saved_world cfg w1 (s' uid) [reply]))
    /\ (forall cb,
          callback_query update = Some cb ->
          cb_message cb = Some m ->
          JsString.startsWith (default "" (data cb)) "lang:" = true ->
          parseTelegramLanguage (Some (JsString.replace "lang:" "" (default "" (data cb))))
          = Some l ->
          exists uid w1,
            ensureTelegramCitizen env chat (Some (cb_from cb))
              (reply_world cfg (opened w chat) [AnswerCallbackQuery (cb_id cb)])
            = Returned uid w1
            /\ (exists u, user_by_chat (db w1) chat = Some u /\ u_id u = uid)
            /\ handleTelegramCallback cfg Number env update w
               = Returned tt (saved_world cfg w1 (s' uid) [reply])).
Proof.
  intros env update m w l chat s s' reply. split.
  - intros Hm Hc Hst Hl.
    destruct (not_command _ Hc) as (H1 & H2 & H3 & H4).
    open_message Hm. fold chat s. rewrite H1, H2, H3, H4, Hst, Hl.
    destruct (select_language env chat (msg_from m) s l (opened w chat))
      as (uid & w1 & He & Hb & Hrun).
    exists uid, w1. split; [exact He|]. split; [exact Hb|].
    subst reply. unfold categoryKeyboard, getTelegramCategories in *.
    rewrite <- (opened_categories w chat). exact Hrun.
  - intros cb Hcb Hm Hd Hl.
    open_callback Hcb Hm. fold chat s. rewrite Hd, Hl.
    destruct (select_language env chat (Some (cb_from cb)) s l
                (reply_world cfg (opened w chat) [AnswerCallbackQuery (cb_id cb)]))
      as (uid & w1 & He & Hb & Hrun).
    exists uid, w1. split; [exact He|]. split; [exact Hb|].
    subst reply. unfold categoryKeyboard, getTelegramCategories in *.
    rewrite <- (opened_categories w chat). exact Hrun.
Qed.

Lemma prefix_cat s :
  JsString.startsWith s "cat:" = true -> JsString.startsWith s "lang:" = false.
Proof.
  unfold JsString.startsWith. destruct s as [|a s]; [discriminate|].
  rewrite !prefix_String. destruct (ascii_dec "c" a) as [<-|]; [|discriminate].
  reflexivity.
Qed.

(** X17.  A cat: button that names a category of the table, in any state and
    with or without a resolved account: the draft takes the identifier and
    the name of the category and keeps its other fields, the state becomes
    [awaiting_description], and the prompt for the description is sent after
    the acknowledgement of the button. *)
Theorem category_selected :
  forall env update cb m w id c,
    callback_query update = Some cb ->
    cb_message cb = Some m ->
    let chat := pretty (chat_id m) in
    let s := session_found (db w) chat in
    JsString.startsWith (default "" (data cb)) "cat:" = true ->
    Number (JsString.replace "cat:" "" (default "" (data cb))) = Some id ->
    category_by_id (db w) id = Some c ->
    session_fk (db w) chat ->
    handleTelegramCallback cfg Number env update w
    = Returned tt
        (saved_world cfg w
           (set_state awaiting_description (set_draft (with_category c (draft s)) s))
           [AnswerCallbackQuery (cb_id cb);
            SendMessage chat (Tr (language s) enterDescription) None]).
Proof.
  intros env update cb m w id c Hcb Hm chat s Hd Hn Hc Hfk.
  open_callback Hcb Hm. fold chat s. rewrite (prefix_cat _ Hd), Hd.
  unfold bind at 1, getDb. rewrite Hn. cbn [mbind option_bind].
  unfold category_by_id in *. cbn [reply_world db]. rewrite opened_categories, Hc.
  rewrite <- (saved_opened w chat) by apply found_chat.
  change [AnswerCallbackQuery (cb_id cb); SendMessage chat (Tr (language s) enterDescription) None]
    with ([AnswerCallbackQuery (cb_id cb)]
          ++ [SendMessage chat (Tr (language s) enterDescription) None]).
  rewrite <- saved_reply.
  apply save_then_send. exact (found_fk w chat Hfk).
Qed.

(** X18.  A button press that the handler does not act on: one without a
    message changes nothing at all; with a message, a lang: payload that
    names no language, a cat: payload that names no category of the table,
    and any payload other than the two confirm: ones are acknowledged and
    otherwise ignored.  The handler then writes nothing of its own: the
    world it leaves is the one the session lookup left, with the
    acknowledgement sent.  That lookup changes nothing for a chat that
    has a stored session, and stores the default session row for a chat
    that has none. *)
Theorem ignored_button :
  forall env update cb w,
    callback_query update = Some cb ->
    (cb_message cb = None ->
     handleTelegramCallback cfg Number env update w = Returned tt w)
    /\ (forall m,
          cb_message cb = Some m ->
          let chat := pretty (chat_id m) in
          let payload := default "" (data cb) in
          (JsString.startsWith payload "lang:" = true
           /\ parseTelegramLanguage (Some (JsString.replace "lang:" "" payload)) = None)
          \/ (JsString.startsWith payload "cat:" = true
              /\ (Number (JsString.replace "cat:" "" payload) ≫= category_by_id (db w)) = None)
          \/ (JsString.startsWith payload "lang:" = false
              /\ JsString.startsWith payload "cat:" = false
              /\ payload <> "confirm:cancel" /\ payload <> "confirm:submit") ->
          handleTelegramCallback cfg Number env update w
          = Returned tt
              (reply_world cfg (opened w chat) [AnswerCallbackQuery (cb_id cb)]))
    /\ (forall chat,
          (is_Some (telegram_sessions (db w) !! chat) -> opened w chat = w)
          /\ (telegram_sessions (db w) !! chat = None ->
              opened w chat
              = {| db := with_sessions (<[chat := default_row]> (telegram_sessions (db w)))
                                       (db w);
                   outbox := outbox w |})).
Proof.
  intros env update cb w Hcb. split; [|split; [|exact (opened_cases w)]].
  - intros Hm. unfold handleTelegramCallback. rewrite Hcb, Hm. reflexivity.
  - intros m Hm chat payload Hcase.
    open_callback Hcb Hm. fold chat payload.
    destruct Hcase as [(Hl & Hp) | [(Hc & Hn) | (Hl & Hc & H1 & H2)]].
    + rewrite Hl, Hp. reflexivity.
    + rewrite (prefix_cat _ Hc), Hc. unfold bind, getDb.
      unfold category_by_id in *. cbn [reply_world db].
      rewrite opened_categories, Hn. reflexivity.
    + rewrite Hl, Hc.
      apply String.eqb_neq in H1, H2. rewrite H1, H2. reflexivity.
Qed.

Lemma writer_run env s chat w :
  submitTelegramComplaint env s chat w
  = if submit_refused s then Returned (None, s) w
    else if row_rejected (db w) (ticket_row env s chat) then Thrown w
    else Returned (Some (ticketNumber env), reset_to idle s)
           {| db := with_sessions
                      (<[chatId s := row_of (reset_to idle s)]> (telegram_sessions (db w)))
                      (db (filed_world w (ticket_row env s chat)));
              outbox := outbox w |}.
Proof.
  unfold submitTelegramComplaint. destruct (submit_refused s); [reflexivity|].
  unfold bind at 1. unfold insert_grievance, bind, getDb, setDb, throw.
  fold (ticket_row env s chat). fold (row_rejected (db w) (ticket_row env s chat)).
  destruct (row_rejected (db w) (ticket_row env s chat)) eqn:Hr; [reflexivity|].
  unfold row_rejected in Hr.
  apply orb_false_iff in Hr as [Hr _]. apply orb_false_iff in Hr as [_ Hu].
  apply negb_false_iff in Hu.
  unfold ticket_row in Hu. cbn [g_citizen_id] in Hu.
  unfold saveTelegramSession, bind, getDb, setDb, ret, reset_to. cbn.
  destruct (userId s) as [u|] eqn:Hus; [|reflexivity].
  unfold user_exists in *. cbn in Hu. rewrite Hu. reflexivity.
Qed.

(** X19.  The ticket writer is all or nothing.  When it throws, on a ticket
    number that is taken or on a foreign key, nothing has been written; when
    it returns null the session was refused and nothing has been written;
    when it returns a ticket, that is the number made from the clock, the
    row of the session's draft was appended to the tickets, and the session
    of the chat was stored idle with an empty draft, with the accounts and
    the outbox untouched. *)
Theorem writer_all_or_nothing :
  forall env s chat w,
    match submitTelegramComplaint env s chat w with
    | Thrown w' =>
        w' = w /\ submit_refused s = false
        /\ row_rejected (db w) (ticket_row env s chat) = true
    | Returned (None, s') w' => w' = w /\ s' = s /\ submit_refused s = true
    | Returned (Some t, s') w' =>
        submit_refused s = false
        /\ row_rejected (db w) (ticket_row env s chat) = false
        /\ t = ticketNumber env /\ s' = reset_to idle s
        /\ grievances (db w') = grievances (db w) ++ [ticket_row env s chat]
        /\ telegram_sessions (db w')
           = <[chatId s := row_of (reset_to idle s)]> (telegram_sessions (db w))
        /\ users (db w') = users (db w)
        /\ outbox w' = outbox w
    end.
Proof.
  intros env s chat w. rewrite writer_run.
  destruct (submit_refused s); [auto|].
  destruct (row_rejected (db w) (ticket_row env s chat)); [auto|].
  cbn. auto 10.
Qed.

Lemma row_rejected_opened w chat out g :
  row_rejected (db (reply_world cfg (opened w chat) out)) g = row_rejected (db w) g.
Proof.
  unfold row_rejected, user_exists, category_by_id. cbn [reply_world db].
  rewrite opened_users, opened_grievances, opened_categories. reflexivity.
Qed.

Lemma filed_after_lookup w chat s g out1 out2 :
  chatId s = chat ->
  reply_world cfg
    {| db := with_sessions
               (<[chatId s := row_of s]>
                  (telegram_sessions (db (reply_world cfg (opened w chat) out1))))
               (db (filed_world (reply_world cfg (opened w chat) out1) g));
       outbox := outbox (reply_world cfg (opened w chat) out1) |} out2
  = saved_world cfg (filed_world w g) s (out1 ++ out2).
Proof.
  intros <-. unfold saved_world, reply_world, filed_world, opened.
  destruct (telegram_sessions (db w) !! chatId s); cbn;
    rewrite ?insert_insert_eq; destruct (isTelegramEnabled cfg);
    rewrite ?app_assoc; reflexivity.
Qed.

(** X20.  The confirm:submit button, in any state.  A session that the
    writer refuses is answered with the [unknown] text; no ticket is
    written and the handler stores no session, so the world is the one
    the session lookup left (unchanged for a chat that has a stored
    session, with the default session row for a chat that has none) with
    the two replies sent.  A session that the writer does not refuse is a
    stored one, so the lookup changes nothing: when the row is rejected
    by the schema the handler throws after the acknowledgement of the
    button, with no ticket, no change of the session and no message to
    the citizen; otherwise the ticket is appended, the session is stored
    idle with an empty draft, and the citizen is sent the ticket
    number. *)
Theorem submit_button :
  forall env update cb m w,
    callback_query update = Some cb ->
    cb_message cb = Some m ->
    data cb = Some "confirm:submit" ->
    let chat := pretty (chat_id m) in
    let s := session_found (db w) chat in
    let g := ticket_row env s chat in
    let ack := AnswerCallbackQuery (cb_id cb) in
    handleTelegramCallback cfg Number env update w
    = (if submit_refused s
       then Returned tt
              (reply_world cfg (opened w chat)
                 [ack; SendMessage chat (Tr (language s) unknown) None])
       else if row_rejected (db w) g
       then Thrown (reply_world cfg (opened w chat) [ack])
       else Returned tt
              (saved_world cfg (filed_world w g) (reset_to idle s)
                 [ack; SendMessage chat
                         (TrWith (language s) submitted [("ticket", ticketNumber env)])
                         None]))
    /\ (is_Some (telegram_sessions (db w) !! chat) -> opened w chat = w)
    /\ (telegram_sessions (db w) !! chat = None ->
        opened w chat
        = {| db := with_sessions (<[chat := default_row]> (telegram_sessions (db w))) (db w);
             outbox := outbox w |})
    /\ (submit_refused s = false -> opened w chat = w).
Proof.
  intros env update cb m w Hcb Hm Hd chat s g ack.
  split; [|split; [exact (proj1 (opened_cases w chat))|
                   split; [exact (proj2 (opened_cases w chat))|
                           intros Hs; apply (proj1 (opened_cases w chat));
                           exact (accepted_session_stored (db w) chat Hs)]]].
  open_callback Hcb Hm. fold chat s ack. rewrite Hd.
  change (default "" (Some "confirm:submit")) with "confirm:submit".
  change (JsString.startsWith "confirm:submit" "lang:") with false.
  change (JsString.startsWith "confirm:submit" "cat:") with false.
  change (String.eqb "confirm:submit" "confirm:cancel") with false.
  change (String.eqb "confirm:submit" "confirm:submit") with true.
  cbv iota. unfold bind at 1. rewrite writer_run. fold g.
  rewrite row_rejected_opened.
  destruct (submit_refused s).
  - rewrite send_only. unfold reply_world. cbn.
    destruct (isTelegramEnabled cfg); rewrite <- ?app_assoc; reflexivity.
  - destruct (row_rejected (db w) g); [reflexivity|].
    rewrite send_only.
    rewrite (filed_after_lookup w chat (reset_to idle s) g [ack]) by apply found_chat.
    reflexivity.
Qed.

Lemma slice0_length n s : String.length (JsString.slice0 n s) <= n.
Proof.
  unfold JsString.slice0. revert s.
  induction n as [|n IH]; intros [|c s]; cbn; try lia. specialize (IH s). lia.
Qed.

Lemma slice0_prefix n s : String.prefix (JsString.slice0 n s) s = true.
Proof.
  unfold JsString.slice0. revert s.
  induction n as [|n IH]; intros [|c s]; try reflexivity.
  cbn [String.substring]. rewrite prefix_String.
  destruct (ascii_dec c c); [apply IH | congruence].
Qed.

Lemma slice0_short n s : String.length s <= n -> JsString.slice0 n s = s.
Proof.
  unfold JsString.slice0. revert s.
  induction n as [|n IH]; intros [|c s]; cbn; try reflexivity; try lia.
  intros H. rewrite IH by lia. reflexivity.
Qed.

Lemma slice0_nonempty n s : s <> "" -> JsString.slice0 (S n) s <> "".
Proof. destruct s; [congruence|]. discriminate. Qed.

Lemma slice0_length_min n s :
  String.length (JsString.slice0 n s) = Nat.min n (String.length s).
Proof.
  unfold JsString.slice0. revert s.
  induction n as [|n IH]; intros [|c s]; cbn; try reflexivity.
  rewrite IH. reflexivity.
Qed.

Lemma slice0_rest n s : exists rest, s = JsString.slice0 n s +:+ rest.
Proof.
  unfold JsString.slice0. revert s.
  induction n as [|n IH]; intros [|c s].
  - exists "". reflexivity.
  - exists (String c s). reflexivity.
  - exists "". reflexivity.
  - destruct (IH s) as [rest Hrest]. exists rest.
    cbn [String.substring].
    change (String c (String.substring 0 n s) +:+ rest)
      with (String c (String.substring 0 n s +:+ rest)).
    rewrite <- Hrest. reflexivity.
Qed.

(** X21.  The row that the writer makes from a session it does not refuse:
    the title is exactly the first 100 code units of the description (the
    description is the title followed by the rest, and the title has 100
    code units or, when the description is shorter, as many as the
    description), so it is the whole description when that is no longer,
    and it is never empty; and the new ticket is at the stage submitted
    both on the dashboard and on the tracking page. *)
Theorem ticket_row_facts :
  forall env s chat,
    submit_refused s = false ->
    let g := ticket_row env s chat in
    description (draft s) = Some (g_description g)
    /\ String.length (g_title g) = Nat.min 100 (String.length (g_description g))
    /\ (exists rest, g_description g = g_title g +:+ rest)
    /\ String.length (g_title g) <= 100
    /\ String.prefix (g_title g) (g_description g) = true
    /\ g_title g <> ""
    /\ (String.length (g_description g) <= 100 -> g_title g = g_description g)
    /\ Status.normalizeStatus (g_status g) (g_complaint_status g) = "submitted"
    /\ Status.trackStage (g_status g) (g_complaint_status g) = "submitted".
Proof.
  intros env s chat Href g.
  unfold submit_refused in Href.
  apply orb_false_iff in Href as [Href _]. apply orb_false_iff in Href as [_ Hd].
  subst g. unfold ticket_row. cbn [g_description g_title g_status g_complaint_status].
  destruct (description (draft s)) as [x|]; [|discriminate Hd].
  cbn [default from_option id] in *. change (id x) with x.
  split; [reflexivity|].
  split; [apply slice0_length_min|]. split; [apply slice0_rest|].
  split; [apply slice0_length|]. split; [apply slice0_prefix|].
  split; [apply slice0_nonempty; intros ->; discriminate Hd|].
  split; [apply slice0_short|]. split; reflexivity.
Qed.

Lemma find_ticket_absent t chat l :
  existsb (fun x => String.eqb (g_ticket_number x) t) l = false ->
  find (fun g => String.eqb (g_ticket_number g) t
                 && opt_is (g_source_channel g) "telegram"
                 && opt_is (g_source_user_id g) chat) l = None.
Proof.
  induction l as [|x l IH]; cbn; [reflexivity|].
  intros H. apply orb_false_iff in H as [Hx H]. rewrite Hx. cbn. exact (IH H).
Qed.

Lemma find_app_miss {A} (f : A -> bool) l k :
  find f l = None -> find f (l ++ k) = find f k.
Proof.
  induction l as [|x l IH]; cbn; [reflexivity|].
  destruct (f x); [discriminate | exact IH].
Qed.

(** X22.  A ticket that the writer has filed is found by the lookup of
    /status from the chat that filed it, and from no other chat. *)
Theorem filed_ticket_lookup :
  forall env s chat w t s' w',
    submitTelegramComplaint env s chat w = Returned (Some t, s') w' ->
    telegram_grievance (db w') t chat = Some (ticket_row env s chat)
    /\ forall other, other <> chat -> telegram_grievance (db w') t other = None.
Proof.
  intros env s chat w t s' w'. rewrite writer_run.
  destruct (submit_refused s); [discriminate|].
  destruct (row_rejected (db w) (ticket_row env s chat)) eqn:Hr; [discriminate|].
  intros H. injection H as <- <- <-.
  unfold row_rejected in Hr.
  apply orb_false_iff in Hr as [Hr _]. apply orb_false_iff in Hr as [Ht _].
  cbn [g_ticket_number ticket_row] in Ht.
  unfold telegram_grievance. cbn [db filed_world with_sessions with_grievances grievances].
  split; [|intros other Hne]; rewrite (find_app_miss _ _ _ (find_ticket_absent _ _ _ Ht));
    cbn; rewrite String.eqb_refl; cbn.
  - rewrite String.eqb_refl. reflexivity.
  - apply String.eqb_neq in Hne. rewrite String.eqb_sym, Hne. reflexivity.
Qed.

Lemma refused_after_reset d chat s :
  telegram_sessions d !! chat = Some (row_of (reset_to idle s)) ->
  submit_refused (session_found d chat) = true.
Proof.
  intros H. unfold session_found. rewrite H. unfold submit_refused. cbn.
  apply orb_true_iff. left. apply orb_true_iff. left. apply orb_true_r.
Qed.

(** X23.  After a ticket was filed for a session, the stored session of
    that chat has an empty draft, so a press of the submit button whose
    handler reads the session after that is refused by the writer,
    whatever the clock: it writes nothing.  The guard of the writer tests
    the session object it is handed, not the stored row.  The handler
    reads the session, then awaits the acknowledgement of the button, then
    calls the writer; a second press whose handler read the session before
    the first ticket was stored hands the writer the session as it was,
    which passes the guard: the writer then files a second ticket with the
    same content when its ticket number is free, that is when the clock
    reads another number that no ticket has, and throws on the unique
    index otherwise. *)
Theorem second_submit_press :
  forall env s chat w t s' w',
    submitTelegramComplaint env s chat w = Returned (Some t, s') w' ->
    (forall env' chat',
        submitTelegramComplaint env' (session_found (db w') (chatId s)) chat' w'
        = Returned (None, session_found (db w') (chatId s)) w')
    /\ (forall env',
          row_rejected (db w') (ticket_row env' s chat)
          = (existsb (fun x => String.eqb (g_ticket_number x) (ticketNumber env'))
                     (grievances (db w))
             || String.eqb (ticketNumber env) (ticketNumber env')))
    /\ (forall env',
          row_rejected (db w') (ticket_row env' s chat) = false ->
          exists w'',
            submitTelegramComplaint env' s chat w'
            = Returned (Some (ticketNumber env'), reset_to idle s) w''
            /\ grievances (db w'')
               = grievances (db w) ++ [ticket_row env s chat; ticket_row env' s chat]
            /\ telegram_sessions (db w'') = telegram_sessions (db w'))
    /\ (forall env',
          row_rejected (db w') (ticket_row env' s chat) = true ->
          submitTelegramComplaint env' s chat w' = Thrown w').
Proof.
  intros env s chat w t s' w'. rewrite writer_run.
  destruct (submit_refused s) eqn:Href; [discriminate|].
  destruct (row_rejected (db w) (ticket_row env s chat)) eqn:Hrej; [discriminate|].
  intros H. injection H as <- <- <-.
  split; [|split; [|split]].
  - intros env' chat'.
    rewrite writer_run. rewrite (refused_after_reset _ _ s); [reflexivity|].
    cbn. apply lookup_insert_eq.
  - intros env'. unfold row_rejected in *. cbn.
    apply orb_false_iff in Hrej as [Hrej Hcat]. apply orb_false_iff in Hrej as [_ Huser].
    unfold user_exists, category_by_id in *. cbn in *.
    rewrite Huser, Hcat. rewrite existsb_app. cbn. rewrite !orb_false_r. reflexivity.
  - intros env' Hfree. rewrite writer_run, Href, Hfree.
    eexists. split; [reflexivity|]. cbn. split.
    + rewrite <- app_assoc. reflexivity.
    + apply insert_insert_eq.
  - intros env' Hused. rewrite writer_run, Href, Hused. reflexivity.
Qed.

Lemma returned_not_thrown {A} (o : Outcome A) a w w' :
  o = Thrown w' -> o = Returned a w -> False.
Proof. intros -> H. discriminate H. Qed.

(** X24.  No statement of the message handler fails on a constraint of the
    schema: with the session's account in the accounts table, a message is
    always handled to the end.  The button handler stops early in one case
    only, the confirm:submit button on a session that the writer does not
    refuse and whose row the schema rejects; then nothing but the session
    lookup and the acknowledgement of the button has happened. *)
Theorem handlers_throw_only_in_writer :
  forall env update w,
    (forall m, message update = Some m -> session_fk (db w) (pretty (chat_id m))) ->
    (forall cb m, callback_query update = Some cb -> cb_message cb = Some m ->
                  session_fk (db w) (pretty (chat_id m))) ->
    (exists w', handleTelegramMessage cfg env update w = Returned tt w')
    /\ (forall w',
          handleTelegramCallback cfg Number env update w = Thrown w' ->
          exists cb m,
            callback_query update = Some cb /\ cb_message cb = Some m
            /\ default "" (data cb) = "confirm:submit"
            /\ submit_refused (session_found (db w) (pretty (chat_id m))) = false
            /\ row_rejected (db w)
                 (ticket_row env (session_found (db w) (pretty (chat_id m)))
                    (pretty (chat_id m))) = true
            /\ w' = reply_world cfg (opened w (pretty (chat_id m)))
                      [AnswerCallbackQuery (cb_id cb)]).
Proof.
  intros env update w Hfm Hfc. split.
  - destruct (message update) as [m|] eqn:Hm;
      [|unfold handleTelegramMessage; rewrite Hm; eexists; reflexivity].
    pose proof (found_fk w _ (Hfm m eq_refl)) as Hfk.
    open_message Hm.
    set (chat := pretty (chat_id m)) in *.
    set (s := session_found (db w) chat) in *.
    set (txt := JsString.trim (default "" (text m))).
    destruct (JsString.startsWith (JsString.toLowerCase txt) "/start"
              || JsString.startsWith (JsString.toLowerCase txt) "/new");
      [eexists; apply save_then_send; exact Hfk|].
    destruct (JsString.startsWith (JsString.toLowerCase txt) "/help");
      [eexists; apply send_only|].
    destruct (JsString.startsWith (JsString.toLowerCase txt) "/cancel");
      [eexists; apply save_then_send; exact Hfk|].
    destruct (JsString.startsWith (JsString.toLowerCase txt) "/status").
    { destruct (falsy_str (JsString.trim <$> nth_error (JsString.split_ws txt) 1));
        [eexists; apply send_only|].
      unfold bind, getDb.
      destruct (telegram_grievance _ _ chat); eexists; apply send_only. }
    destruct (state s).
    + eexists; apply send_only.
    + destruct (parseTelegramLanguage (Some txt)) as [l|]; [|eexists; apply send_only].
      destruct (select_language env chat (msg_from m) s l (opened w chat))
        as (uid & w1 & _ & _ & Hrun).
      eexists. exact Hrun.
    + eexists; apply send_only.
    + destruct (String.length txt <? 10)%nat; [eexists; apply send_only|].
      eexists; apply save_then_send; exact Hfk.
    + destruct (msg_location m) as [loc|];
        [eexists; apply save_then_send; exact Hfk|].
      destruct (3 <=? String.length txt)%nat;
        [eexists; apply save_then_send; exact Hfk | eexists; apply send_only].
    + eexists; apply send_only.
  - intros w'.
    destruct (callback_query update) as [cb|] eqn:Hcb;
      [|unfold handleTelegramCallback; rewrite Hcb; discriminate].
    destruct (cb_message cb) as [m|] eqn:Hm;
      [|unfold handleTelegramCallback; rewrite Hcb, Hm; discriminate].
    pose proof (found_fk w _ (Hfc cb m eq_refl Hm)) as Hfk.
    open_callback Hcb Hm.
    set (chat := pretty (chat_id m)) in *.
    set (s := session_found (db w) chat) in *.
    set (ack := AnswerCallbackQuery (cb_id cb)).
    set (payload := default "" (data cb)).
    destruct (JsString.startsWith payload "lang:").
    { destruct (parseTelegramLanguage _) as [l|]; [|discriminate].
      destruct (select_language env chat (Some (cb_from cb)) s l
                  (reply_world cfg (opened w chat) [ack])) as (uid & w1 & _ & _ & Hrun).
      intros H. destruct (returned_not_thrown _ _ _ _ H Hrun). }
    destruct (JsString.startsWith payload "cat:").
    { unfold bind at 1, getDb.
      destruct (Number _ ≫= category_by_id _) as [c|]; [|discriminate].
      intros H. refine (match returned_not_thrown _ _ _ _ H _ with end).
      apply save_then_send. exact Hfk. }
    destruct (String.eqb payload "confirm:cancel").
    { intros H. refine (match returned_not_thrown _ _ _ _ H _ with end).
      apply save_then_send. exact Hfk. }
    destruct (String.eqb payload "confirm:submit") eqn:Hp; [|discriminate].
    apply String.eqb_eq in Hp.
    unfold bind at 1. rewrite writer_run, row_rejected_opened.
    destruct (submit_refused s) eqn:Href.
    { rewrite send_only. discriminate. }
    destruct (row_rejected (db w) (ticket_row env s chat)) eqn:Hrej.
    + intros H. injection H as <-. exists cb, m. auto 10.
    + rewrite send_only. discriminate.
Qed.

End ConversationFacts.

(** ** The category keyboard *)

Section KeyboardFacts.
Variable Number : string -> option Z.

Lemma insert_by_name_perm c cs : insert_by_name c cs ≡ₚ c :: cs.
Proof.
  induction cs as [|x r IH]; cbn; [reflexivity|].
  destruct (String.leb (cat_name c) (cat_name x)); [reflexivity|].
  rewrite IH. apply Permutation_swap.
Qed.

Lemma insert_by_name_sorted c cs :
  Sorted by_name cs -> Sorted by_name (insert_by_name c cs).
Proof.
  induction cs as [|x r IH]; cbn; intros Hs.
  - repeat constructor.
  - destruct (String.leb (cat_name c) (cat_name x)) eqn:Hcx.
    + constructor; [exact Hs|]. constructor. exact Hcx.
    + inversion Hs as [|? ? Hr Hhd]; subst. constructor; [exact (IH Hr)|].
      assert (Hxc : by_name x c).
      { unfold by_name. destruct (String.leb_total (cat_name x) (cat_name c)) as [H|H];
          [exact H | congruence]. }
      destruct r as [|y r']; cbn; [constructor; exact Hxc|].
      destruct (String.leb (cat_name c) (cat_name y)); constructor;
        [exact Hxc | inversion Hhd; assumption].
Qed.

Lemma keyboard_rows_pair cs a :
  (concat (keyboard_rows cs) = map category_button cs
   /\ Forall (fun row => 1 <= length row <= 2) (keyboard_rows cs)
   /\ length (keyboard_rows cs) = Nat.div2 (S (length cs)))
  /\ (concat (keyboard_rows (a :: cs)) = map category_button (a :: cs)
      /\ Forall (fun row => 1 <= length row <= 2) (keyboard_rows (a :: cs))
      /\ length (keyboard_rows (a :: cs)) = Nat.div2 (S (length (a :: cs)))).
Proof.
  revert a. induction cs as [|b r IH]; intros a.
  - split; [cbn; auto|]. cbn. split; [reflexivity|]. split; [|reflexivity].
    repeat constructor.
  - destruct (IH b) as [H0 H1]. split; [exact H1|].
    destruct H0 as (Hc & Hf & Hl).
    change (keyboard_rows (a :: b :: r))
      with ([category_button a; category_button b] :: keyboard_rows r).
    cbn [concat map length app]. rewrite Hc. split; [reflexivity|].
    split; [constructor; [cbn; lia | exact Hf]|].
    rewrite Hl. reflexivity.
Qed.

Lemma sorted_fold cs : Sorted by_name (fold_right insert_by_name [] cs).
Proof.
  induction cs as [|c r IH]; cbn; [constructor|]. apply insert_by_name_sorted, IH.
Qed.

Lemma perm_fold cs : fold_right insert_by_name [] cs ≡ₚ cs.
Proof.
  induction cs as [|c r IH]; cbn; [reflexivity|].
  rewrite insert_by_name_perm, IH. reflexivity.
Qed.

Lemma keyboard_concat cs : concat (keyboard_rows cs) = map category_button cs.
Proof.
  destruct cs as [|a r]; [reflexivity|]. exact (proj1 (proj2 (keyboard_rows_pair r a))).
Qed.

Lemma keyboard_rows_lookup_pair cs :
  (forall k, keyboard_rows cs !! k = row_at cs k)
  /\ (forall a k, keyboard_rows (a :: cs) !! k = row_at (a :: cs) k).
Proof.
  induction cs as [|b r [IH0 IH1]].
  - split; [intros [|k]; reflexivity|].
    intros a [|k]; [reflexivity|]. unfold row_at.
    replace (2 * S k) with (S (S (2 * k))) by lia. reflexivity.
  - split; [exact (IH1 b)|].
    intros a [|k]; [reflexivity|].
    change (keyboard_rows (a :: b :: r))
      with ([category_button a; category_button b] :: keyboard_rows r).
    cbn [lookup list_lookup]. rewrite IH0. unfold row_at.
    replace (2 * S k) with (S (S (2 * k))) by lia.
    replace (S (S (2 * k)) + 1) with (S (S (2 * k + 1))) by lia. reflexivity.
Qed.

Lemma last_row_lookup {A} (l : list A) (d : A) :
  0 < length l -> l !! (length l - 1) = Some (List.last l d).
Proof.
  induction l as [|x [|y r] IH]; cbn [length]; [lia | reflexivity |].
  intros _. replace (S (S (length r)) - 1) with (S (S (length r) - 1)) by lia.
  apply IH. cbn. lia.
Qed.

(** X25.  The category keyboard lists the categories of the table, each
    once, in the order of their names, two buttons to a row: row [k] holds
    the buttons of the categories at places [2k] and [2k+1] of that order,
    so every row but the last has two buttons, and the last row has one
    button exactly when the number of categories is odd. *)
Theorem category_keyboard_layout :
  forall d,
    let cs := getTelegramCategories d in
    cs ≡ₚ grievance_categories d
    /\ Sorted by_name cs
    /\ concat (keyboard_rows cs) = map category_button cs
    /\ Forall (fun row => 1 <= length row <= 2) (keyboard_rows cs)
    /\ length (keyboard_rows cs) = Nat.div2 (S (length (grievance_categories d)))
    /\ (forall k, keyboard_rows cs !! k
                  = match cs !! (2 * k) with
                    | None => None
                    | Some a => Some (category_button a
                                        :: match cs !! (2 * k + 1) with
                                           | Some b => [category_button b]
                                           | None => []
                                           end)
                    end)
    /\ (forall k row, keyboard_rows cs !! k = Some row ->
                      S k < length (keyboard_rows cs) -> length row = 2)
    /\ (forall row, List.last (keyboard_rows cs) [] = row -> cs <> [] ->
                    length row = if Nat.even (length cs) then 2 else 1).
Proof.
  intros d cs.
  assert (Hp : cs ≡ₚ grievance_categories d) by apply perm_fold.
  assert (Hrow : forall k, keyboard_rows cs !! k = row_at cs k)
    by apply keyboard_rows_lookup_pair.
  assert (Hlen : length (keyboard_rows cs) = Nat.div2 (S (length cs))).
  { destruct cs as [|a r]; [reflexivity|].
    exact (proj2 (proj2 (proj2 (keyboard_rows_pair r a)))). }
  split; [exact Hp|]. split; [apply sorted_fold|].
  split; [apply keyboard_concat|].
  split.
  { destruct cs as [|a r]; [constructor|].
    exact (proj1 (proj2 (proj2 (keyboard_rows_pair r a)))). }
  split; [rewrite <- (Permutation_length Hp); exact Hlen|].
  split; [exact Hrow|].
  split.
  - intros k row Hk Hlt. rewrite Hrow in Hk. unfold row_at in Hk.
    rewrite Hlen in Hlt.
    assert (H2 : 2 * k + 1 < length cs).
    { pose proof (Nat.div2_odd (S (length cs))) as Hodd.
      destruct (Nat.odd (S (length cs))); unfold Nat.b2n in Hodd; lia. }
    destruct (lookup_lt_is_Some_2 cs (2 * k)) as [a Ha]; [lia|].
    destruct (lookup_lt_is_Some_2 cs (2 * k + 1)) as [b Hb]; [lia|].
    rewrite Ha, Hb in Hk. injection Hk as <-. reflexivity.
  - intros row Hlast Hne.
    assert (Hpos : 0 < length cs) by (destruct cs; [congruence | cbn; lia]).
    pose proof (Nat.div2_odd (S (length cs))) as Hodd.
    rewrite Nat.odd_succ in Hodd.
    set (n := Nat.div2 (S (length cs))) in *.
    assert (Hn : 0 < n) by (destruct (Nat.even (length cs)); unfold Nat.b2n in Hodd; lia).
    assert (Hk : keyboard_rows cs !! (n - 1) = Some row).
    { rewrite <- Hlast. rewrite <- Hlen. apply last_row_lookup.
      rewrite Hlen. exact Hn. }
    rewrite Hrow in Hk. unfold row_at in Hk.
    destruct (Nat.even (length cs)) eqn:He; unfold Nat.b2n, negb in Hodd.
    + destruct (lookup_lt_is_Some_2 cs (2 * (n - 1))) as [a Ha]; [lia|].
      destruct (lookup_lt_is_Some_2 cs (2 * (n - 1) + 1)) as [b Hb]; [lia|].
      rewrite Ha, Hb in Hk. injection Hk as <-. reflexivity.
    + destruct (lookup_lt_is_Some_2 cs (2 * (n - 1))) as [a Ha]; [lia|].
      rewrite Ha in Hk.
      rewrite (lookup_ge_None_2 cs (2 * (n - 1) + 1)) in Hk by lia.
      injection Hk as <-. reflexivity.
Qed.

Lemma replace_at_start p r t :
  String.prefix p t = true ->
  JsString.replace p r t = r +:+ JsString.drop (String.length p) t.
Proof. intros H. destruct t; cbn [JsString.replace]; rewrite H; reflexivity. Qed.

Lemma prefix_append p s : String.prefix p (p +:+ s) = true.
Proof.
  induction p as [|c p IH]; [destruct s; reflexivity|].
  change (String c p +:+ s) with (String c (p +:+ s)). rewrite prefix_String.
  destruct (ascii_dec c c); [exact IH | congruence].
Qed.

Lemma replace_prefix p r s : JsString.replace p r (p +:+ s) = r +:+ s.
Proof.
  assert (Hd : JsString.drop (String.length p) (p +:+ s) = s).
  { induction p as [|c p IH]; [reflexivity | exact IH]. }
  rewrite (replace_at_start _ _ _ (prefix_append p s)), Hd. reflexivity.
Qed.

Lemma category_by_id_unique d c :
  NoDup (map cat_id (grievance_categories d)) ->
  In c (grievance_categories d) ->
  category_by_id d (cat_id c) = Some c.
Proof.
  unfold category_by_id. induction (grievance_categories d) as [|x r IH]; cbn; [done|].
  intros Hnd [->|Hin]; [rewrite Z.eqb_refl; reflexivity|].
  inversion Hnd as [|? ? Hx Hr]; subst.
  destruct (Z.eqb (cat_id x) (cat_id c)) eqn:E; [|exact (IH Hr Hin)].
  apply Z.eqb_eq in E. exfalso. apply Hx. rewrite E.
  apply list_elem_of_In, in_map, Hin.
Qed.

(** X26.  Pressing a button of the category keyboard selects the category it
    shows: its payload starts with cat:, and, [Number] reading the decimal
    numeral of the identifier back, the lookup by that identifier under the
    primary key finds the category of the button. *)
Theorem category_button_round_trip :
  forall d c,
    In c (grievance_categories d) ->
    NoDup (map cat_id (grievance_categories d)) ->
    Number (pretty (cat_id c)) = Some (cat_id c) ->
    let payload := snd (category_button c) in
    In (category_button c) (concat (keyboard_rows (getTelegramCategories d)))
    /\ JsString.startsWith payload "cat:" = true
    /\ JsString.startsWith payload "lang:" = false
    /\ (Number (JsString.replace "cat:" "" payload) ≫= category_by_id d) = Some c.
Proof.
  intros d c Hin Hnd Hnum payload. split.
  { rewrite keyboard_concat. apply in_map. apply list_elem_of_In.
    unfold getTelegramCategories. rewrite perm_fold. apply list_elem_of_In, Hin. }
  subst payload. cbn [snd category_button].
  split; [apply prefix_append|]. split; [reflexivity|].
  rewrite (replace_prefix "cat:" "" (pretty (cat_id c))).
  change ("" +:+ pretty (cat_id c)) with (pretty (cat_id c)).
  rewrite Hnum. cbn. apply category_by_id_unique; assumption.
Qed.

End KeyboardFacts.

(** ** Ticket numbers and fallback addresses *)

Section NumberFacts.

Lemma append_cons c s t : String c s +:+ t = String c (s +:+ t).
Proof. reflexivity. Qed.

Lemma length_append s t : String.length (s +:+ t) = String.length s + String.length t.
Proof.
  induction s as [|c s IH]; [reflexivity|].
  rewrite append_cons. cbn [String.length]. rewrite IH. reflexivity.
Qed.

Lemma append_assoc s t u : (s +:+ t) +:+ u = s +:+ (t +:+ u).
Proof.
  induction s as [|c s IH]; [reflexivity|]. rewrite !append_cons, IH. reflexivity.
Qed.

Lemma append_cancel_r s1 s2 t : s1 +:+ t = s2 +:+ t -> s1 = s2.
Proof.
  revert s2. induction s1 as [|c s1 IH]; intros [|c2 s2] H.
  - reflexivity.
  - apply (f_equal String.length) in H. rewrite !length_append in H.
    cbn [String.length] in H. lia.
  - apply (f_equal String.length) in H. rewrite !length_append in H.
    cbn [String.length] in H. lia.
  - rewrite !append_cons in H. injection H as -> H. rewrite (IH s2 H). reflexivity.
Qed.

Lemma toUpperCase_append s t :
  JsString.toUpperCase (s +:+ t) = JsString.toUpperCase s +:+ JsString.toUpperCase t.
Proof.
  induction s as [|c s IH]; [reflexivity|].
  rewrite append_cons. cbn [JsString.toUpperCase]. rewrite append_cons, IH. reflexivity.
Qed.

Lemma parse36_append a s t : parse36_go a (s +:+ t) = parse36_go (parse36_go a s) t.
Proof.
  revert a. induction s as [|c s IH]; intros a; [reflexivity|].
  rewrite append_cons. cbn [parse36_go]. apply IH.
Qed.

Lemma value36_digit d :
  (d < 36)%N -> value36 (JsString.upperChar (JsNumber.digit36 d)) = d.
Proof.
  intros H. destruct d as [|p]; [reflexivity|].
  do 6 (try (destruct p as [p|p|]; try reflexivity; try (exfalso; lia))).
Qed.

Lemma toString36_go_digits fuel n acc :
  (n < 2 ^ N.of_nat fuel)%N -> 0 < fuel ->
  exists ds,
    JsNumber.toString36_go fuel n acc = ds +:+ acc
    /\ forall a, parse36_go a (JsString.toUpperCase ds)
                 = (a * 36 ^ N.of_nat (String.length ds) + n)%N.
Proof.
  revert n acc. induction fuel as [|f IH]; intros n acc Hn Hf; [lia|].
  cbn [JsNumber.toString36_go].
  assert (Hmod : (n mod 36 < 36)%N) by (apply N.mod_lt; lia).
  pose proof (N.div_mod n 36 ltac:(lia)) as Hdm.
  destruct (N.eqb_spec (n / 36) 0) as [Hz|Hnz].
  - exists (String (JsNumber.digit36 (n mod 36)) EmptyString). split; [reflexivity|].
    intros a. cbn. rewrite (value36_digit _ Hmod). lia.
  - assert (Hf' : 0 < f).
    { destruct f; [|lia]. cbn in Hn.
      assert (n / 36 = 0)%N by (apply N.div_small; lia). contradiction. }
    assert (Hn' : (n / 36 < 2 ^ N.of_nat f)%N).
    { apply N.Div0.div_lt_upper_bound.
      rewrite Nat2N.inj_succ, N.pow_succ_r' in Hn. lia. }
    destruct (IH (n / 36)%N (String (JsNumber.digit36 (n mod 36)) acc) Hn' Hf')
      as (ds & Hds & Hparse).
    exists (ds +:+ String (JsNumber.digit36 (n mod 36)) EmptyString). split.
    + rewrite Hds, append_assoc. reflexivity.
    + intros a. rewrite toUpperCase_append, parse36_append, Hparse. cbn.
      rewrite (value36_digit _ Hmod), length_append. cbn [String.length].
      replace (String.length ds + 1) with (S (String.length ds)) by lia.
      rewrite Nat2N.inj_succ, N.pow_succ_r'. lia.
Qed.

(** X27.  The ticket number of the bot reads back to the clock reading it
    was made from, so two ticket numbers are the same exactly when the two
    clock readings are the same millisecond. *)
Theorem ticket_number_reads_clock :
  forall env,
    clockOfTicket (ticketNumber env) = now env
    /\ forall env', ticketNumber env = ticketNumber env' <-> now env = now env'.
Proof.
  assert (Hread : forall env, clockOfTicket (ticketNumber env) = now env).
  { intros env. unfold clockOfTicket, ticketNumber, JsNumber.toString36.
    change (JsString.drop 4 ("TGM-" +:+ ?x)) with x.
    assert (Hfuel : (now env < 2 ^ N.of_nat (S (N.to_nat (N.log2 (now env)))))%N).
    { rewrite Nat2N.inj_succ, N2Nat.id.
      destruct (N.eq_dec (now env) 0%N) as [->|Hpos]; [reflexivity|].
      apply N.log2_spec. lia. }
    destruct (toString36_go_digits _ _ EmptyString Hfuel ltac:(lia))
      as (ds & -> & Hparse).
    rewrite toUpperCase_append, parse36_append, Hparse. cbn. lia. }
  intros env. split; [apply Hread|]. intros env'. split.
  - intros H. rewrite <- (Hread env), <- (Hread env'), H. reflexivity.
  - intros H. unfold ticketNumber. rewrite H. reflexivity.
Qed.

Lemma keep_digit k : keepChar (pretty_N_char k) = true.
Proof.
  destruct k as [|p]; [reflexivity|].
  do 5 (try (destruct p as [p|p|]; try reflexivity)).
Qed.

Lemma sanitize_pretty_N_go x s :
  sanitize s = s -> sanitize (pretty_N_go x s) = pretty_N_go x s.
Proof.
  revert s. induction (N.lt_wf_0 x) as [x _ IH]. intros s Hs.
  destruct (N.eq_dec x 0%N) as [->|Hx]; [rewrite pretty_N_go_0; exact Hs|].
  rewrite pretty_N_go_step by lia. apply IH.
  - apply N.div_lt; lia.
  - cbn. rewrite keep_digit, Hs. reflexivity.
Qed.

Lemma sanitize_pretty_pos p : sanitize (pretty (N.pos p)) = pretty (N.pos p).
Proof.
  unfold pretty, pretty_N. destruct (decide (N.pos p = 0%N)); [reflexivity|].
  apply sanitize_pretty_N_go. reflexivity.
Qed.

(** X28.  The chat ids that reach the bot are decimal renderings of
    integers; on these the replacement of the characters outside
    [a-zA-Z0-9_-] changes nothing, so the fallback address carries the chat
    id as it is and two chats never share a fallback address. *)
Theorem fallbackEmail_of_integer :
  forall z : Z,
    sanitize (pretty z) = pretty z
    /\ fallbackEmail (pretty z) = "tg_" +:+ pretty z +:+ "@telegram.local"
    /\ forall z' : Z, fallbackEmail (pretty z) = fallbackEmail (pretty z') -> z = z'.
Proof.
  assert (Hs : forall z : Z, sanitize (pretty z) = pretty z).
  { intros [|p|p].
    - reflexivity.
    - exact (sanitize_pretty_pos p).
    - change (pretty (Z.neg p)) with ("-" +:+ pretty (N.pos p)).
      change (sanitize ("-" +:+ pretty (N.pos p)))
        with ("-" +:+ sanitize (pretty (N.pos p))).
      rewrite sanitize_pretty_pos. reflexivity. }
  intros z. split; [apply Hs|]. unfold fallbackEmail.
  split; [rewrite Hs; reflexivity|].
  intros z'. rewrite !Hs. intros H.
  apply (inj (String.append "tg_")) in H. apply append_cancel_r in H.
  exact (inj pretty _ _ H).
Qed.

End NumberFacts.

(** ** Bearer tokens *)

Section TokenFacts.
Variable isEmail : string -> bool.
Variable compareSync : string -> string -> bool.

Lemma bearer_of token : bearer (Some ("Bearer " +:+ token)) = Some token.
Proof. unfold bearer. cbn [fmap option_fmap option_map]. rewrite replace_prefix. reflexivity. Qed.

Lemma login_ok d token body t su t1 :
  login isEmail compareSync d token body t = (LoginOk token su, t1) ->
  exists email password user,
    cred_email body = Some email /\ cred_password body = Some password
    /\ isEmail email = true /\ 6 <= String.length password
    /\ In user (users d) /\ u_email user = email
    /\ u_role user = default "citizen" (cred_role body)
    /\ compareSync password (u_password user) = true
    /\ su = sessionUser_of user
    /\ t1 = {| token_cache := <[token := su]> (token_cache t);
               user_sessions := <[token := u_id user]> (user_sessions t) |}.
Proof.
  unfold login, authSchema.
  destruct (cred_email body) as [email|]; [|discriminate].
  destruct (cred_password body) as [password|]; [|discriminate].
  destruct (isEmail email && (6 <=? String.length password)%nat) eqn:Hv; [|discriminate].
  apply andb_true_iff in Hv as [He Hp]. apply Nat.leb_le in Hp.
  destruct (find _ (users d)) as [user|] eqn:Hf; [|discriminate].
  destruct (compareSync password (u_password user)) eqn:Hc; [|discriminate].
  intros H. injection H as <- <-.
  apply find_some in Hf as [Hin Hm]. apply andb_true_iff in Hm as [Hm1 Hm2].
  apply String.eqb_eq in Hm1, Hm2.
  exists email, password, user. auto 12.
Qed.

(** X29.  The life of a bearer token.  A login that succeeds found an
    account with the e-mail address and the role of the request (citizen
    when none is given) whose stored hash the password matches, and answers
    with that account.  The token it issued then authenticates as that
    account.  After a logout with the token the same header is refused, in
    the process and in the table, and every other token is as it was before
    the login. *)
Theorem token_life_cycle :
  forall d token body t su t1,
    login isEmail compareSync d token body t = (LoginOk token su, t1) ->
    token <> "" ->
    let header := Some ("Bearer " +:+ token) in
    let t2 := snd (logout d header t1) in
    (exists user password,
        In user (users d) /\ su = sessionUser_of user
        /\ cred_email body = Some (u_email user)
        /\ u_role user = default "citizen" (cred_role body)
        /\ cred_password body = Some password
        /\ compareSync password (u_password user) = true)
    /\ auth d header t1 = (Some su, t1)
    /\ fst (logout d header t1) = 200
    /\ auth d header t2 = (None, t2)
    /\ token_cache t2 !! token = None /\ user_sessions t2 !! token = None
    /\ forall other, other <> token ->
         token_cache t2 !! other = token_cache t !! other
         /\ user_sessions t2 !! other = user_sessions t !! other.
Proof.
  intros d token body t su t1 Hlogin Hne header t2.
  destruct (login_ok _ _ _ _ _ _ Hlogin)
    as (email & password & user & He & Hp & _ & _ & Hin & Hmail & Hrole & Hc & Hsu & Ht1).
  apply String.eqb_neq in Hne.
  assert (Hauth : auth d header t1 = (Some su, t1)).
  { unfold auth, header. rewrite bearer_of, Hne, Ht1. cbn [token_cache].
    rewrite lookup_insert_eq. reflexivity. }
  assert (Hout : logout d header t1
                 = (200, {| token_cache := delete token (token_cache t1);
                            user_sessions := delete token (user_sessions t1) |})).
  { unfold logout. rewrite Hauth. unfold header. rewrite bearer_of, Hne. reflexivity. }
  split; [exists user, password; subst email; auto 10|].
  split; [exact Hauth|]. subst t2. rewrite Hout. cbn [fst snd].
  split; [reflexivity|]. split.
  { unfold auth, header. rewrite bearer_of, Hne. cbn [token_cache].
    rewrite lookup_delete_eq. unfold session_row. cbn [user_sessions].
    rewrite lookup_delete_eq. reflexivity. }
  cbn [token_cache user_sessions]. rewrite !lookup_delete_eq.
  split; [reflexivity|]. split; [reflexivity|].
  intros other Hother. rewrite !lookup_delete_ne by congruence.
  rewrite Ht1. cbn [token_cache user_sessions].
  rewrite !lookup_insert_ne by congruence. auto.
Qed.

End TokenFacts.

(** ** A whole conversation *)

(** Enters a handler up to the session lookup. *)
Ltac enter_message Hm :=
  unfold handleTelegramMessage; rewrite Hm; cbv zeta;
  unfold bind at 1; rewrite open_session.

Ltac enter_callback Hcb Hm :=
  unfold handleTelegramCallback; rewrite Hcb, Hm; cbv zeta;
  unfold bind at 1; rewrite open_session;
  unfold bind at 1; rewrite answer_only.

Section ConversationRun.
Variable cfg : Config.
Variable Number : string -> option Z.

Lemma message_at e u m w :
  callback_query u = None -> message u = Some m ->
  final (dispatch cfg Number e u w) = final (handleTelegramMessage cfg e u w).
Proof.
  intros Hc Hm. unfold dispatch, try_catch. rewrite Hc, Hm.
  destruct (handleTelegramMessage cfg e u w); reflexivity.
Qed.

Lemma callback_at e u cb w :
  callback_query u = Some cb ->
  final (dispatch cfg Number e u w) = final (handleTelegramCallback cfg Number e u w).
Proof.
  intros Hc. unfold dispatch, try_catch. rewrite Hc.
  destruct (handleTelegramCallback cfg Number e u w); reflexivity.
Qed.

Lemma opened_some w chat :
  is_Some (telegram_sessions (db w) !! chat) -> opened w chat = w.
Proof. intros [row H]. unfold opened. rewrite H. reflexivity. Qed.

Lemma at_step_saved w0 us seq chat w s out :
  chatId s = chat -> users (db w) = us -> users_seq (db w) = seq ->
  grievances (db w) = grievances (db w0) ->
  grievance_categories (db w) = grievance_categories (db w0) ->
  at_step w0 us seq chat
    {| chatId := chat; userId := userId s; state := state s;
       language := language s; draft := draft s |}
    (saved_world cfg w s out).
Proof.
  intros <- Hu Hq Hg Hc. unfold at_step, saved_world, session_found. cbn.
  rewrite lookup_insert_eq. cbn. auto 10.
Qed.

Lemma at_step_fk w0 us seq chat s w out :
  at_step w0 us seq chat s w ->
  (forall x, userId s = Some x -> existsb (fun a => Z.eqb (u_id a) x) us = true) ->
  forall x, userId s = Some x -> user_exists (db (reply_world cfg w out)) x = true.
Proof.
  intros (_ & _ & Hu & _) Hfk x Hx. unfold user_exists. cbn [reply_world db].
  rewrite Hu. exact (Hfk x Hx).
Qed.

Lemma at_step_chat w0 us seq chat s w : at_step w0 us seq chat s w -> chatId s = chat.
Proof. intros (<- & _). apply found_chat. Qed.

Lemma start_step e u z w :
  says z "/start" u ->
  session_fk (db w) (pretty z) ->
  let s0 := session_found (db w) (pretty z) in
  at_step w (users (db w)) (users_seq (db w)) (pretty z)
    {| chatId := pretty z; userId := userId s0; state := awaiting_language;
       language := language s0; draft := emptyDraft |}
    (final (dispatch cfg Number e u w)).
Proof.
  intros (Hc & m & Hm & Hz & Ht & _) Hfk s0.
  rewrite (message_at _ _ _ _ Hc Hm). enter_message Hm. rewrite Hz, Ht.
  change (JsString.startsWith
            (JsString.toLowerCase (JsString.trim (default "" (Some "/start")))) "/start")
    with true.
  cbn [orb]. rewrite save_then_send by exact (found_fk w (pretty z) Hfk).
  cbn [final]. rewrite saved_opened by apply found_chat.
  apply at_step_saved; try reflexivity. apply found_chat.
Qed.

Lemma fold_max_seq l s : (s <= fold_right Z.max s l)%Z.
Proof. induction l as [|x l IH]; cbn; lia. Qed.

Lemma ensure_nonzero env chat user w id w1 :
  (forall a, In a (users (db w)) -> u_id a <> 0%Z) -> (0 <= users_seq (db w))%Z ->
  ensureTelegramCitizen env chat user w = Returned id w1 ->
  id <> 0%Z /\ (forall a, In a (users (db w1)) -> u_id a <> 0%Z)
  /\ (0 <= users_seq (db w1))%Z.
Proof.
  intros Hpos Hseq.
  pose proof (fold_max_seq (map u_id (users (db w))) (users_seq (db w))) as Hmax.
  destruct (ensure_cases env chat user w)
    as [(e & He & ->) | [(b & Hnone & Hb & ->) | (Hnone & Hemail & ->)]];
    intros H; injection H as <- <-.
  - split; [|auto]. apply Hpos. unfold user_by_chat in He.
    apply find_some in He as [Hin _]. exact Hin.
  - split; [|split; [|exact Hseq]].
    + apply Hpos. unfold user_by_email in Hb. apply find_some in Hb as [Hin _]. exact Hin.
    + cbn. intros a Hin. apply in_map_iff in Hin as (x & <- & Hx).
      rewrite bind_chat_id. exact (Hpos x Hx).
  - unfold next_user_id. cbn. split; [lia|]. split; [|lia].
    intros a Hin. apply in_app_iff in Hin as [Hin | [<- | []]]; [exact (Hpos a Hin)|].
    cbn. lia.
Qed.

Ltac run_as E :=
  match goal with
  | |- context [final ?t] =>
      let X := fresh in assert (X : t = _) by exact E; rewrite X; clear X
  end.

Lemma language_step e u z p l w0 us seq s w :
  presses z p u ->
  JsString.startsWith p "lang:" = true ->
  parseTelegramLanguage (Some (JsString.replace "lang:" "" p)) = Some l ->
  at_step w0 us seq (pretty z) s w ->
  (forall a, In a us -> u_id a <> 0%Z) -> (0 <= seq)%Z ->
  exists uid us' seq',
    uid <> 0%Z
    /\ existsb (fun a => Z.eqb (u_id a) uid) us' = true
    /\ (exists a, find (has_chat (pretty z)) us' = Some a /\ u_id a = uid)
    /\ at_step w0 us' seq' (pretty z)
         {| chatId := pretty z; userId := Some uid; state := awaiting_category;
            language := l; draft := draft s |}
         (final (dispatch cfg Number e u w)).
Proof.
  intros (cb & m & Hcb & Hm & Hz & Hd) Hl Hp Hat Hpos Hseq.
  pose proof (at_step_chat _ _ _ _ _ _ Hat) as Hchat.
  destruct Hat as (Hs & Hsome & Hu & Hq & Hg & Hc).
  rewrite (callback_at _ _ _ _ Hcb). enter_callback Hcb Hm. rewrite Hz, Hd.
  change (default "" (Some p)) with p. rewrite Hl, Hp.
  rewrite (opened_some _ _ Hsome), Hs.
  destruct (select_language cfg e (pretty z) (Some (cb_from cb)) s l
              (reply_world cfg w [AnswerCallbackQuery (cb_id cb)]))
    as (uid & w1 & He & Hb & Hrun).
  run_as Hrun. cbn [final].
  destruct (ensure_result e (pretty z) (Some (cb_from cb))
              (reply_world cfg w [AnswerCallbackQuery (cb_id cb)]))
    as (uid' & w1' & He' & Hex & _ & Hg1 & Hc1 & _).
  rewrite He in He'. injection He' as <- <-.
  assert (Hnz : uid <> 0%Z).
  { refine (proj1 (ensure_nonzero _ _ _ _ _ _ _ _ He)); cbn [reply_world db].
    - rewrite Hu. exact Hpos.
    - rewrite Hq. exact Hseq. }
  exists uid, (users (db w1)), (users_seq (db w1)).
  split; [exact Hnz|]. split; [exact Hex|]. split; [exact Hb|].
  apply (at_step_saved w0 _ _ _ w1
           (set_userId (Some uid) (set_state awaiting_category (set_language l s))));
    [exact Hchat | reflexivity | reflexivity | rewrite Hg1; exact Hg | rewrite Hc1; exact Hc].
Qed.

Lemma category_step e u z p c w0 us seq s w :
  presses z p u ->
  JsString.startsWith p "cat:" = true ->
  (Number (JsString.replace "cat:" "" p) ≫= category_by_id (db w0)) = Some c ->
  at_step w0 us seq (pretty z) s w ->
  (forall x, userId s = Some x -> existsb (fun a => Z.eqb (u_id a) x) us = true) ->
  at_step w0 us seq (pretty z)
    {| chatId := pretty z; userId := userId s; state := awaiting_description;
       language := language s; draft := with_category c (draft s) |}
    (final (dispatch cfg Number e u w)).
Proof.
  intros (cb & m & Hcb & Hm & Hz & Hd) Hp Hn Hat Hfk.
  pose proof (at_step_chat _ _ _ _ _ _ Hat) as Hchat.
  pose proof (at_step_fk _ _ _ _ _ _ [AnswerCallbackQuery (cb_id cb)] Hat Hfk) as Hfk'.
  destruct Hat as (Hs & Hsome & Hu & Hq & Hg & Hc).
  rewrite (callback_at _ _ _ _ Hcb). enter_callback Hcb Hm. rewrite Hz, Hd.
  change (default "" (Some p)) with p. rewrite (prefix_cat _ Hp), Hp.
  rewrite (opened_some _ _ Hsome), Hs.
  unfold bind at 1, getDb. unfold category_by_id in *. cbn [reply_world db].
  rewrite Hc, Hn.
  rewrite save_then_send by exact Hfk'.
  cbn [final]. rewrite saved_reply.
  apply (at_step_saved w0 _ _ _ w
           (set_state awaiting_description (set_draft (with_category c (draft s)) s)));
    assumption.
Qed.

Lemma description_step e u z t w0 us seq s w :
  says z t u ->
  is_command (JsString.trim t) = false ->
  10 <= String.length (JsString.trim t) ->
  at_step w0 us seq (pretty z) s w ->
  state s = awaiting_description ->
  (forall x, userId s = Some x -> existsb (fun a => Z.eqb (u_id a) x) us = true) ->
  at_step w0 us seq (pretty z)
    {| chatId := pretty z; userId := userId s; state := awaiting_location;
       language := language s; draft := with_description (JsString.trim t) (draft s) |}
    (final (dispatch cfg Number e u w)).
Proof.
  intros (Hnc & m & Hm & Hz & Ht & _) Hc Hlen Hat Hst Hfk.
  pose proof (at_step_chat _ _ _ _ _ _ Hat) as Hchat.
  pose proof (at_step_fk _ _ _ _ _ _ [] Hat Hfk) as Hfk'.
  destruct Hat as (Hs & Hsome & Hu & Hq & Hg & Hcat).
  destruct (not_command _ Hc) as (H1 & H2 & H3 & H4).
  rewrite (message_at _ _ _ _ Hnc Hm). enter_message Hm. rewrite Hz, Ht.
  change (default "" (Some t)) with t.
  rewrite H1, H2, H3, H4, (opened_some _ _ Hsome), Hs, Hst.
  apply Nat.ltb_ge in Hlen. rewrite Hlen.
  rewrite save_then_send by exact Hfk'.
  cbn [final].
  apply (at_step_saved w0 _ _ _ w
           (set_state awaiting_location
              (set_draft (with_description (JsString.trim t) (draft s)) s)));
    assumption.
Qed.

Lemma location_step e u z t w0 us seq s w :
  says z t u ->
  is_command (JsString.trim t) = false ->
  3 <= String.length (JsString.trim t) ->
  at_step w0 us seq (pretty z) s w ->
  state s = awaiting_location ->
  (forall x, userId s = Some x -> existsb (fun a => Z.eqb (u_id a) x) us = true) ->
  at_step w0 us seq (pretty z)
    {| chatId := pretty z; userId := userId s; state := awaiting_confirmation;
       language := language s; draft := with_place (JsString.trim t) (draft s) |}
    (final (dispatch cfg Number e u w)).
Proof.
  intros (Hnc & m & Hm & Hz & Ht & Hloc) Hc Hlen Hat Hst Hfk.
  pose proof (at_step_chat _ _ _ _ _ _ Hat) as Hchat.
  pose proof (at_step_fk _ _ _ _ _ _ [] Hat Hfk) as Hfk'.
  destruct Hat as (Hs & Hsome & Hu & Hq & Hg & Hcat).
  destruct (not_command _ Hc) as (H1 & H2 & H3 & H4).
  rewrite (message_at _ _ _ _ Hnc Hm). enter_message Hm. rewrite Hz, Ht, Hloc.
  change (default "" (Some t)) with t.
  rewrite H1, H2, H3, H4, (opened_some _ _ Hsome), Hs, Hst.
  apply Nat.leb_le in Hlen. rewrite Hlen.
  rewrite save_then_send by exact Hfk'.
  cbn [final].
  apply (at_step_saved w0 _ _ _ w
           (set_state awaiting_confirmation
              (set_draft (with_place (JsString.trim t) (draft s)) s)));
    assumption.
Qed.

Lemma submit_step e u z w0 us seq s w :
  presses z "confirm:submit" u ->
  at_step w0 us seq (pretty z) s w ->
  submit_refused s = false ->
  row_rejected (db w) (ticket_row e s (pretty z)) = false ->
  let w' := final (dispatch cfg Number e u w) in
  grievances (db w') = grievances (db w0) ++ [ticket_row e s (pretty z)]
  /\ users (db w') = us
  /\ session_found (db w') (pretty z)
     = {| chatId := pretty z; userId := userId s; state := idle;
          language := language s; draft := emptyDraft |}.
Proof.
  intros (cb & m & Hcb & Hm & Hz & Hd) Hat Href Hrej w'.
  destruct Hat as (Hs & Hsome & Hu & Hq & Hg & Hcat). subst s.
  set (s := session_found (db w) (pretty z)) in *.
  assert (E : w' = saved_world cfg (filed_world w (ticket_row e s (pretty z)))
                     (reset_to idle s)
                     [AnswerCallbackQuery (cb_id cb);
                      SendMessage (pretty z)
                        (TrWith (language s) submitted [("ticket", ticketNumber e)])
                        None]).
  { subst w'. rewrite (callback_at _ _ _ _ Hcb). enter_callback Hcb Hm. rewrite Hz, Hd.
    change (default "" (Some "confirm:submit")) with "confirm:submit".
    change (JsString.startsWith "confirm:submit" "lang:") with false.
    change (JsString.startsWith "confirm:submit" "cat:") with false.
    change (String.eqb "confirm:submit" "confirm:cancel") with false.
    change (String.eqb "confirm:submit" "confirm:submit") with true.
    cbv iota. fold s. unfold bind at 1.
    rewrite writer_run, row_rejected_opened, Href, Hrej, send_only. cbn [final].
    rewrite (filed_after_lookup cfg w (pretty z) (reset_to idle s) _
               [AnswerCallbackQuery (cb_id cb)]) by apply found_chat.
    reflexivity. }
  clearbody w'. subst w'.
  split; [cbn; rewrite Hg; reflexivity|]. split; [exact Hu|].
  unfold session_found at 1. unfold saved_world.
  cbn [db telegram_sessions with_sessions chatId reset_to set_draft set_state].
  unfold s at 1. rewrite found_chat, lookup_insert_eq. reflexivity.
Qed.

(** X30.  A whole conversation.  A chat says /start, picks a language and a
    category on the keyboards, sends a description of at least 10 code units
    and a place of at least 3, and presses submit, each update arriving at
    its own clock reading.  When the category is in the table and the ticket
    number of the last clock reading is free, the conversation leaves
    exactly one more ticket: it has that number, the account bound to the
    chat as its citizen, the category, the trimmed description and place,
    the first 100 code units of the description as its title, no
    coordinates, and the stage submitted; and the session of the chat is
    idle with an empty draft in the chosen language. *)
Theorem conversation_files_ticket :
  forall z lang cat c desc place e1 u1 e2 u2 e3 u3 e4 u4 e5 u5 e6 u6 w,
    let chat := pretty z in
    says z "/start" u1 ->
    presses z lang u2 ->
    JsString.startsWith lang "lang:" = true ->
    is_Some (parseTelegramLanguage (Some (JsString.replace "lang:" "" lang))) ->
    presses z cat u3 ->
    JsString.startsWith cat "cat:" = true ->
    (Number (JsString.replace "cat:" "" cat) ≫= category_by_id (db w)) = Some c ->
    cat_id c <> 0%Z ->
    says z desc u4 ->
    is_command (JsString.trim desc) = false ->
    10 <= String.length (JsString.trim desc) ->
    says z place u5 ->
    is_command (JsString.trim place) = false ->
    3 <= String.length (JsString.trim place) ->
    presses z "confirm:submit" u6 ->
    session_fk (db w) chat ->
    (forall a, In a (users (db w)) -> u_id a <> 0%Z) ->
    (0 <= users_seq (db w))%Z ->
    existsb (fun g => String.eqb (g_ticket_number g) (ticketNumber e6)) (grievances (db w))
    = false ->
    let w' := converse cfg Number
                [(e1, u1); (e2, u2); (e3, u3); (e4, u4); (e5, u5); (e6, u6)] w in
    exists account,
      user_by_chat (db w') chat = Some account
      /\ grievances (db w')
         = grievances (db w)
           ++ [{| g_ticket_number := ticketNumber e6;
                  g_citizen_id := u_id account;
                  g_category_id := cat_id c;
                  g_title := JsString.slice0 100 (JsString.trim desc);
                  g_description := JsString.trim desc;
                  g_location := JsString.trim place;
                  g_latitude := None; g_longitude := None;
                  g_priority := "medium"; g_status := "submitted";
                  g_complaint_status := Some "pending";
                  g_source_channel := Some "telegram";
                  g_source_user_id := Some chat |}]
      /\ exists l,
           parseTelegramLanguage (Some (JsString.replace "lang:" "" lang)) = Some l
           /\ session_found (db w') chat
              = {| chatId := chat; userId := Some (u_id account); state := idle;
                   language := l; draft := emptyDraft |}.
Proof.
  intros z lang cat c desc place e1 u1 e2 u2 e3 u3 e4 u4 e5 u5 e6 u6 w chat
    H1 H2 Hl [l Hp] H3 Hc Hn Hcz H4 Hd Hdl H5 Hpl Hpll H6 Hfk Hpos Hseq Hfree w'.
  subst w' chat. unfold converse. cbn [fold_left fst snd].
  pose proof (start_step e1 u1 z w H1 Hfk) as S1. cbv zeta in S1.
  destruct (language_step e2 u2 z lang l _ _ _ _ _ H2 Hl Hp S1 Hpos Hseq)
    as (uid & us & seq & Hnz & Hex & (a & Ha & Hid) & S2).
  assert (Hfk2 : forall x, Some uid = Some x ->
                           existsb (fun a => Z.eqb (u_id a) x) us = true).
  { intros x Hx. injection Hx as <-. exact Hex. }
  pose proof (category_step e3 u3 z cat c _ _ _ _ _ H3 Hc Hn S2 Hfk2) as S3.
  pose proof (description_step e4 u4 z desc _ _ _ _ _ H4 Hd Hdl S3 eq_refl Hfk2) as S4.
  pose proof (location_step e5 u5 z place _ _ _ _ _ H5 Hpl Hpll S4 eq_refl Hfk2) as S5.
  cbn [userId language draft] in S3, S4, S5.
  set (w5 := final (dispatch cfg Number e5 u5 _)) in *. clearbody w5.
  assert (Href : forall text, 3 <= String.length text -> falsy_str (Some text) = false).
  { intros [|ch text] Hlen; [cbn in Hlen; lia | reflexivity]. }
  destruct (submit_step e6 u6 z _ _ _ _ w5 H6 S5) as (Hg & Hu & Hs).
  - unfold submit_refused. cbn -[falsy_str].
    apply Z.eqb_neq in Hnz, Hcz. rewrite Hnz, Hcz.
    rewrite (Href (JsString.trim desc)) by lia. rewrite (Href (JsString.trim place) Hpll).
    reflexivity.
  - destruct S5 as (_ & _ & Hu5 & _ & Hg5 & Hc5).
    unfold row_rejected, user_exists, category_by_id, ticket_row. cbn.
    rewrite Hg5, Hu5, Hc5, Hfree, Hex.
    destruct (Number (JsString.replace "cat:" "" cat)) as [id|]; [|discriminate Hn].
    cbn in Hn. unfold category_by_id in Hn.
    pose proof (find_some _ _ Hn) as [_ Hid']. apply Z.eqb_eq in Hid'.
    rewrite Hid', Hn. reflexivity.
  - exists a. unfold user_by_chat. fold (has_chat (pretty z)). rewrite Hu.
    split; [exact Ha|]. split.
    + rewrite Hg. unfold ticket_row. cbn. rewrite Hid. reflexivity.
    + exists l. split; [exact Hp|]. rewrite Hs, Hid. reflexivity.
Qed.

End ConversationRun.

(** ** The further properties on the sample run *)

(** The foreign key of a session of the sample run. *)
Ltac sample_fk :=
  let row := fresh "row" in
  let x := fresh "x" in
  let Hrow := fresh "Hrow" in
  let Hx := fresh "Hx" in
  intros row x Hrow Hx; vm_compute in Hrow;
  first [ discriminate Hrow
        | injection Hrow as <-; first [ discriminate Hx
                                      | injection Hx as <-; vm_compute; reflexivity ] ].

(** X6 on the sample run.  An authority accepts the second seeded ticket:
    the first legacy value of the stage is taken.  Under a constraint
    that refuses [under_review], the second one is. *)
Lemma patch_sets_stage_witness :
  let out := patchStatus schema_status_check "authority" (Some "accepted") (Some 1) seeded_db in
  let older := fun c => negb (String.eqb c "under_review") in
  let out' := patchStatus older "authority" (Some "accepted") (Some 1) seeded_db in
  out = (PatchOk "GRV-PNE002" "under_review" (Some "accepted"), snd out)
  /\ Status.normalizeStatus "under_review" (Some "accepted") = "accepted"
  /\ Status.trackStage "under_review" (Some "accepted") = "accepted"
  /\ out' = (PatchOk "GRV-PNE002" "assigned" (Some "accepted"), snd out')
  /\ exists pre post, statusMap "accepted" = pre ++ "assigned" :: post
                      /\ Forall (fun c => older c = false) pre.
Proof.
  intros out older out'.
  assert (H : out = (PatchOk "GRV-PNE002" "under_review" (Some "accepted"), snd out))
    by (vm_compute; reflexivity).
  assert (H' : out' = (PatchOk "GRV-PNE002" "assigned" (Some "accepted"), snd out'))
    by (vm_compute; reflexivity).
  destruct (patch_sets_stage schema_status_check "authority" (Some "accepted") (Some 1)
              seeded_db _ _ _ _ H)
    as (_ & requested & i & old & Hs & _ & _ & _ & _ & _ & _ & _ & _ & Hn & Ht).
  injection Hs as <-.
  destruct (patch_sets_stage older "authority" (Some "accepted") (Some 1)
              seeded_db _ _ _ _ H')
    as (_ & requested & i' & old' & Hs' & _ & _ & _ & Hfirst & _).
  injection Hs' as <-.
  exact (conj H (conj Hn (conj Ht (conj H' Hfirst)))).
Defined.

(** X7 on the sample run.  A citizen, a body without a status, and a target
    that selects no row. *)
Lemma patch_refusals_witness :
  patchStatus schema_status_check "citizen" (Some "closed") (Some 0) seeded_db
  = (PatchError 403 "Forbidden", seeded_db)
  /\ patchStatus schema_status_check "authority" (Some "resolved") (Some 0) seeded_db
     = (PatchError 400 "Invalid status payload", seeded_db)
  /\ patchStatus schema_status_check "authority" (Some "closed") (Some 7) seeded_db
     = (PatchError 404 "Complaint not found", seeded_db).
Proof.
  split; [|split].
  - apply (proj1 (proj2 (patch_refusals schema_status_check "citizen" (Some "closed")
                           (Some 0) seeded_db))).
    discriminate.
  - apply (proj1 (proj2 (proj2 (patch_refusals schema_status_check "authority"
                                  (Some "resolved") (Some 0) seeded_db))));
      reflexivity.
  - apply (proj1 (proj2 (proj2 (proj2 (patch_refusals schema_status_check "authority"
                                         (Some "closed") (Some 7) seeded_db))))).
    + reflexivity.
    + exists "closed". reflexivity.
    + reflexivity.
Defined.

(** X8 on the sample run.  The first update of the sample run passes the
    checks, so the handler throws and sends no response; with no body, the
    request is refused with 400. *)
Lemma webhook_never_acknowledges_witness :
  let u := text_update 1 555 "/start" in
  let empty := {| secret_header := Some "s3cret"; body := None |} in
  result (webhook sample_cfg decimalNumber sample_env (request_of u) seeded_world) = None
  /\ final (webhook sample_cfg decimalNumber sample_env (request_of u) seeded_world)
     = seeded_world
  /\ (status_code <$> result (webhook sample_cfg decimalNumber sample_env empty seeded_world))
     = Some 400.
Proof.
  intros u empty.
  destruct (webhook_never_acknowledges sample_cfg decimalNumber sample_env (request_of u)
              seeded_world) as (Hw & _ & Hnone).
  split; [|split; [exact Hw|]].
  - apply Hnone. split; [reflexivity|]. split; [reflexivity|].
    exists (default {| body_update_id := JsNull; body_message := None;
                       body_callback_query := None |} (body (request_of u))).
    split; reflexivity.
  - destruct (webhook_never_acknowledges sample_cfg decimalNumber sample_env empty
                seeded_world) as (_ & Hr & Hn).
    destruct (result (webhook sample_cfg decimalNumber sample_env empty seeded_world))
      as [r|] eqn:E.
    + destruct (Hr r eq_refl) as [-> | [-> | ->]]; [vm_compute in E.. | reflexivity];
        discriminate E.
    + exfalso. destruct (proj1 Hn eq_refl) as (_ & _ & b & Hb & _). discriminate Hb.
Defined.

Lemma seeded_schema_ok : schema_ok seeded_db.
Proof.
  split; [split|].
  - cbn. repeat constructor; rewrite ?elem_of_cons; rewrite ?elem_of_nil; intuition discriminate.
  - intros chat. cbn. lia.
  - split; [|split; [|split]].
    + unfold emails_unique. cbn.
      repeat constructor; rewrite ?elem_of_cons; rewrite ?elem_of_nil; intuition discriminate.
    + unfold tickets_unique. cbn.
      repeat constructor; rewrite ?elem_of_cons; rewrite ?elem_of_nil; intuition discriminate.
    + intros chat row u H. cbn in H. rewrite lookup_empty in H. discriminate H.
    + unfold grievances_fk. cbn. repeat constructor.
Qed.

(** X10 on the sample run.  The seeded database satisfies its schema, and so
    does the database after the first message of chat 555. *)
Lemma webhook_keeps_schema_witness :
  schema_ok (db seeded_world)
  /\ schema_ok (db (serve (text_update 1 555 "en") seeded_world)).
Proof.
  split; [exact seeded_schema_ok|].
  exact (proj1 (proj2 (webhook_keeps_schema sample_cfg decimalNumber sample_env
                         (request_of (text_update 1 555 "en")) (JsNumeric 1)
                         (text_update 1 555 "en") seeded_world seeded_schema_ok))).
Defined.

(** X11 on the sample run.  Chat 555 starts over at the confirmation prompt. *)
Lemma restart_command_witness :
  let u := text_update 20 555 "/new complaint" in
  let w := world_555_confirming in
  let s := session_found (db w) "555" in
  session_fk (db w) "555"
  /\ state s = awaiting_confirmation
  /\ handleTelegramMessage sample_cfg sample_env u w
     = Returned tt
         (saved_world sample_cfg w (reset_to awaiting_language s)
            [SendMessage "555"
               (TwoLines (Tr (language s) welcome) (Tr (language s) chooseLanguage))
               (Some languageKeyboard)]).
Proof.
  intros u w s.
  assert (Hfk : session_fk (db w) "555") by sample_fk.
  split; [exact Hfk|]. split; [vm_compute; reflexivity|].
  exact (restart_command sample_cfg sample_env u (text_message 555 "/new complaint") w
           eq_refl eq_refl Hfk).
Defined.

(** X12 on the sample run.  Chat 555 asks for the status of a ticket of
    the web form, which the seeded database holds. *)
Lemma read_only_commands_witness :
  let u := text_update 21 555 "/status GRV-PNE001" in
  let w := world_555_confirming in
  In "GRV-PNE001" (map g_ticket_number (grievances (db w)))
  /\ handleTelegramMessage sample_cfg sample_env u w
     = Returned tt
         (reply_world sample_cfg w [SendMessage "555" (Tr en statusNotFound) None]).
Proof.
  intros u w.
  assert (Hin : In "GRV-PNE001" (map g_ticket_number (grievances (db w))))
    by (vm_compute; auto).
  split; [exact Hin|].
  destruct (proj1 (proj2 (read_only_commands sample_cfg sample_env u
                            (text_message 555 "/status GRV-PNE001") w eq_refl)) eq_refl)
    as (body & Hrun & Hbody).
  rewrite Hrun. clear Hrun.
  destruct Hbody as [(Hf & _) | [(t & _ & _ & ->) | (t & g & Ht & Hg & Hn & Hc & _)]].
  - vm_compute in Hf. discriminate Hf.
  - vm_compute. reflexivity.
  - exfalso. vm_compute in Ht. injection Ht as <-. vm_compute in Hg.
    destruct Hg as [<- | [<- | [<- | []]]]; discriminate Hc.
Defined.

(** X13 on the sample run.  Chat 555 types a greeting at the confirmation
    prompt. *)
Lemma rejected_message_witness :
  let u := text_update 22 555 "hello" in
  let w := world_555_confirming in
  is_command "hello" = false
  /\ handleTelegramMessage sample_cfg sample_env u w
     = Returned tt (reply_world sample_cfg (opened w "555")
                      [SendMessage "555" (Tr en unknown) None])
  /\ opened w "555" = w.
Proof.
  intros u w.
  assert (Hc : is_command "hello" = false) by reflexivity.
  assert (Ho : reprompt (session_found (db w) "555") "hello" None
               = Some (SendMessage "555" (Tr en unknown) None)) by (vm_compute; reflexivity).
  destruct (rejected_message sample_cfg sample_env u (text_message 555 "hello") w
              (SendMessage "555" (Tr en unknown) None) eq_refl Hc Ho)
    as (Hrun & Hstored & _).
  split; [exact Hc|]. split; [exact Hrun|].
  apply Hstored. vm_compute. eauto.
Defined.

(** X14 on the sample run.  Chat 555 describes the problem. *)
Lemma description_accepted_witness :
  let t := "Garbage overflowing near the market for five days" in
  let u := text_update 4 555 t in
  let w := world_555_describing in
  let s := session_found (db w) "555" in
  state s = awaiting_description
  /\ session_fk (db w) "555"
  /\ handleTelegramMessage sample_cfg sample_env u w
     = Returned tt
         (saved_world sample_cfg w
            (set_state awaiting_location (set_draft (with_description t (draft s)) s))
            [SendMessage "555" (Tr (language s) enterLocation) None]).
Proof.
  intros t u w s.
  assert (Hst : state s = awaiting_description) by (vm_compute; reflexivity).
  assert (Hfk : session_fk (db w) "555") by sample_fk.
  assert (Hlen : 10 <= String.length (JsString.trim t)) by (vm_compute; lia).
  split; [exact Hst|]. split; [exact Hfk|].
  exact (description_accepted sample_cfg sample_env u (text_message 555 t) w
           eq_refl eq_refl Hst Hlen Hfk).
Defined.

(** X15 on the sample run.  Chat 555 names the place. *)
Lemma location_accepted_witness :
  let u := text_update 5 555 "Market Road" in
  let w := world_555_locating in
  let s := session_found (db w) "555" in
  state s = awaiting_location
  /\ session_fk (db w) "555"
  /\ handleTelegramMessage sample_cfg sample_env u w
     = Returned tt
         (saved_world sample_cfg w
            (set_state awaiting_confirmation
               (set_draft (with_place "Market Road" (draft s)) s))
            [SendMessage "555"
               (ComplaintSummary (language s) (with_place "Market Road" (draft s)))
               (Some (ConfirmationKeyboard (language s)))]).
Proof.
  intros u w s.
  assert (Hst : state s = awaiting_location) by (vm_compute; reflexivity).
  assert (Hfk : session_fk (db w) "555") by sample_fk.
  assert (Hlen : 3 <= String.length (JsString.trim "Market Road")) by (vm_compute; lia).
  split; [exact Hst|]. split; [exact Hfk|].
  exact (location_accepted sample_cfg sample_env u (text_message 555 "Market Road") w
           (with_place "Market Road" (draft s)) eq_refl eq_refl Hst
           (or_intror (conj eq_refl (conj Hlen eq_refl))) Hfk).
Defined.

(** X16 on the sample run.  The first message of chat 555 is a language, and
    chat 555 switches to Marathi at the confirmation prompt. *)
Lemma language_selected_witness :
  (exists uid w1,
      handleTelegramMessage sample_cfg sample_env (text_update 1 555 "Hindi") seeded_world
      = Returned tt
          (saved_world sample_cfg w1
             (set_userId (Some uid)
                (set_state awaiting_category
                   (set_language hi (session_found (db seeded_world) "555"))))
             [SendMessage "555" (TwoLines (Tr hi languageSet) (Tr hi chooseCategory))
                (Some (categoryKeyboard seeded_db))]))
  /\ (exists uid w1,
         handleTelegramCallback sample_cfg decimalNumber sample_env
           (button_update 23 555 "lang:mr") world_555_confirming
         = Returned tt
             (saved_world sample_cfg w1
                (set_userId (Some uid)
                   (set_state awaiting_category
                      (set_language mr (session_found (db world_555_confirming) "555"))))
                [SendMessage "555" (TwoLines (Tr mr languageSet) (Tr mr chooseCategory))
                   (Some (categoryKeyboard (db world_555_confirming)))])).
Proof.
  split.
  - destruct (proj1 (language_selected sample_cfg decimalNumber sample_env
                       (text_update 1 555 "Hindi") (text_message 555 "Hindi")
                       seeded_world hi) eq_refl eq_refl eq_refl eq_refl)
      as (uid & w1 & _ & _ & Hrun).
    exists uid, w1. exact Hrun.
  - destruct (proj2 (language_selected sample_cfg decimalNumber sample_env
                       (button_update 23 555 "lang:mr") (text_message 555 "")
                       world_555_confirming mr)
                (button_query 555 "lang:mr") eq_refl eq_refl eq_refl eq_refl)
      as (uid & w1 & _ & _ & Hrun).
    exists uid, w1. exact Hrun.
Defined.

(** X17 on the sample run.  Chat 555 picks the second category. *)
Lemma category_selected_witness :
  let u := button_update 3 555 "cat:2" in
  let w := world_555_choosing in
  let s := session_found (db w) "555" in
  let c := {| cat_id := 2; cat_name := "Waste Management" |} in
  state s = awaiting_category
  /\ session_fk (db w) "555"
  /\ category_by_id (db w) 2 = Some c
  /\ handleTelegramCallback sample_cfg decimalNumber sample_env u w
     = Returned tt
         (saved_world sample_cfg w
            (set_state awaiting_description (set_draft (with_category c (draft s)) s))
            [AnswerCallbackQuery "cbq";
             SendMessage "555" (Tr (language s) enterDescription) None]).
Proof.
  intros u w s c.
  assert (Hst : state s = awaiting_category) by (vm_compute; reflexivity).
  assert (Hfk : session_fk (db w) "555") by sample_fk.
  assert (Hc : category_by_id (db w) 2 = Some c) by (vm_compute; reflexivity).
  split; [exact Hst|]. split; [exact Hfk|]. split; [exact Hc|].
  exact (category_selected sample_cfg decimalNumber sample_env u (button_query 555 "cat:2")
           (text_message 555 "") w 2%Z c eq_refl eq_refl eq_refl eq_refl Hc Hfk).
Defined.

(** X18 on the sample run.  Chat 555 presses a button that the bot does not
    know. *)
Lemma ignored_button_witness :
  let u := button_update 30 555 "noop" in
  let w := world_555_confirming in
  handleTelegramCallback sample_cfg decimalNumber sample_env u w
  = Returned tt (reply_world sample_cfg (opened w "555") [AnswerCallbackQuery "cbq"])
  /\ opened w "555" = w.
Proof.
  intros u w.
  destruct (ignored_button sample_cfg decimalNumber sample_env u
              (button_query 555 "noop") w eq_refl) as (_ & Hrun & Hlookup).
  split; [|apply (proj1 (Hlookup "555")); vm_compute; eauto].
  apply (Hrun (text_message 555 "") eq_refl).
  right. right. repeat split; discriminate.
Defined.

(** X20 on the sample run.  Chat 555 presses submit at the confirmation
    prompt. *)
Lemma submit_button_witness :
  let u := button_update 6 555 "confirm:submit" in
  let w := world_555_confirming in
  let s := session_found (db w) "555" in
  submit_refused s = false
  /\ row_rejected (db w) (ticket_row sample_env s "555") = false
  /\ handleTelegramCallback sample_cfg decimalNumber sample_env u w
     = Returned tt
         (saved_world sample_cfg (filed_world w (ticket_row sample_env s "555"))
            (reset_to idle s)
            [AnswerCallbackQuery "cbq";
             SendMessage "555" (TrWith (language s) submitted [("ticket", "TGM-LOYW3V28")])
               None]).
Proof.
  intros u w s.
  assert (Href : submit_refused s = false) by (vm_compute; reflexivity).
  assert (Hrej : row_rejected (db w) (ticket_row sample_env s "555") = false)
    by (vm_compute; reflexivity).
  split; [exact Href|]. split; [exact Hrej|].
  pose proof (proj1 (submit_button sample_cfg decimalNumber sample_env u
                       (button_query 555 "confirm:submit") (text_message 555 "") w
                       eq_refl eq_refl eq_refl)) as Hrun.
  cbv zeta in Hrun.
  change (pretty (chat_id (text_message 555 ""))) with "555" in Hrun.
  fold w s in Hrun. rewrite Href, Hrej in Hrun. exact Hrun.
Defined.

(** X21 on the sample run.  The row for the draft of chat 555. *)
Lemma ticket_row_facts_witness :
  let s := session_found (db world_555_confirming) "555" in
  let g := ticket_row sample_env s "555" in
  submit_refused s = false
  /\ g_title g = "Garbage overflowing near the market for five days"
  /\ g_title g = g_description g
  /\ Status.normalizeStatus (g_status g) (g_complaint_status g) = "submitted"
  /\ Status.trackStage (g_status g) (g_complaint_status g) = "submitted".
Proof.
  intros s g.
  assert (Href : submit_refused s = false) by (vm_compute; reflexivity).
  destruct (ticket_row_facts sample_env s "555" Href)
    as (_ & _ & _ & _ & _ & _ & Hshort & Hn & Ht).
  split; [exact Href|]. split; [vm_compute; reflexivity|].
  split; [apply Hshort; vm_compute; lia|]. split; [exact Hn | exact Ht].
Defined.

(** X22 on the sample run.  The ticket of chat 555 is found from chat 555
    and not from chat 777. *)
Lemma filed_ticket_lookup_witness :
  let w := world_two_confirming in
  let s := session_found (db w) "555" in
  let w' := final (submitTelegramComplaint sample_env s "555" w) in
  telegram_grievance (db w') "TGM-LOYW3V28" "555" = Some (ticket_row sample_env s "555")
  /\ telegram_grievance (db w') "TGM-LOYW3V28" "777" = None.
Proof.
  intros w s w'.
  assert (H : submitTelegramComplaint sample_env s "555" w
              = Returned (Some "TGM-LOYW3V28", reset_to idle s) w')
    by (vm_compute; reflexivity).
  destruct (filed_ticket_lookup sample_env s "555" w _ _ _ H) as [Hown Hother].
  split; [exact Hown|]. apply Hother. discriminate.
Defined.

(** X23 on the sample run.  Chat 555 presses submit a second time, a
    millisecond later.  Read after the first ticket was stored, the session
    is refused; the session as it was before passes the guard and gets a
    second ticket. *)
Lemma second_submit_press_witness :
  let w := world_two_confirming in
  let s := session_found (db w) "555" in
  let w' := final (submitTelegramComplaint sample_env s "555" w) in
  let later := {| now := 1700000000001; tempPassword := tempPassword sample_env |} in
  submitTelegramComplaint later (session_found (db w') "555") "555" w'
  = Returned (None, session_found (db w') "555") w'
  /\ map g_ticket_number
       (grievances (db (final (submitTelegramComplaint later s "555" w'))))
     = map g_ticket_number (grievances (db w)) ++ ["TGM-LOYW3V28"; "TGM-LOYW3V29"]
  /\ submitTelegramComplaint sample_env s "555" w' = Thrown w'.
Proof.
  intros w s w' later.
  assert (H : submitTelegramComplaint sample_env s "555" w
              = Returned (Some "TGM-LOYW3V28", reset_to idle s) w')
    by (vm_compute; reflexivity).
  destruct (second_submit_press sample_env s "555" w _ _ _ H)
    as (Hread & _ & Hstale & Hsame).
  split; [exact (Hread later "555")|]. split.
  - destruct (Hstale later) as (w'' & Hrun & Hg & _); [vm_compute; reflexivity|].
    rewrite Hrun. cbn [final]. rewrite Hg. rewrite map_app. reflexivity.
  - apply Hsame. vm_compute. reflexivity.
Defined.

(** X24 on the sample run.  Chat 777 presses submit in the millisecond of
    the ticket of chat 555: the only way the handler stops early. *)
Lemma handlers_throw_only_in_writer_witness :
  let w := serve (button_update 16 555 "confirm:submit") world_two_confirming in
  let u := button_update 17 777 "confirm:submit" in
  (exists w', handleTelegramMessage sample_cfg sample_env u w = Returned tt w')
  /\ handleTelegramCallback sample_cfg decimalNumber sample_env u w
     = Thrown (reply_world sample_cfg w [AnswerCallbackQuery "cbq"])
  /\ row_rejected (db w) (ticket_row sample_env (session_found (db w) "777") "777") = true.
Proof.
  intros w u.
  assert (Hm : forall m, message u = Some m -> session_fk (db w) (pretty (chat_id m)))
    by (intros m Hm; discriminate Hm).
  assert (Hc : forall cb m, callback_query u = Some cb -> cb_message cb = Some m ->
                            session_fk (db w) (pretty (chat_id m))).
  { intros cb m Hcb Hmsg. injection Hcb as <-. injection Hmsg as <-. sample_fk. }
  destruct (handlers_throw_only_in_writer sample_cfg decimalNumber sample_env u w Hm Hc)
    as [Hret Hthrow].
  assert (Hrun : handleTelegramCallback sample_cfg decimalNumber sample_env u w
                 = Thrown (reply_world sample_cfg w [AnswerCallbackQuery "cbq"]))
    by (vm_compute; reflexivity).
  split; [exact Hret|]. split; [exact Hrun|].
  destruct (Hthrow _ Hrun) as (cb & m & Hcb & Hmsg & _ & _ & Hrej & _).
  injection Hcb as <-. injection Hmsg as <-. exact Hrej.
Defined.

(** X26 on the sample run.  The button of the second seeded category. *)
Lemma category_button_round_trip_witness :
  let c := {| cat_id := 2; cat_name := "Waste Management" |} in
  category_button c = ("Waste Management", "cat:2")
  /\ In (category_button c) (concat (keyboard_rows (getTelegramCategories seeded_db)))
  /\ (decimalNumber (JsString.replace "cat:" "" "cat:2") ≫= category_by_id seeded_db)
     = Some c.
Proof.
  intros c.
  assert (Hin : In c (grievance_categories seeded_db)) by (cbn; auto).
  assert (Hnd : NoDup (map cat_id (grievance_categories seeded_db))).
  { cbn. repeat constructor; rewrite ?elem_of_cons; rewrite ?elem_of_nil;
      intuition discriminate. }
  assert (Hnum : decimalNumber (pretty (cat_id c)) = Some (cat_id c))
    by (vm_compute; reflexivity).
  destruct (category_button_round_trip decimalNumber seeded_db c Hin Hnd Hnum)
    as (Hkb & _ & _ & Hsel).
  split; [vm_compute; reflexivity|]. split; [exact Hkb | exact Hsel].
Defined.

(** X29 on the sample run.  The seeded citizen logs in, uses the token and
    logs out; the stand-in for bcrypt compares the two strings. *)
Lemma token_life_cycle_witness :
  let body := {| cred_email := Some "citizen@nagarseva.com";
                 cred_password := Some "$2a$10$citizen"; cred_role := None |} in
  let t := {| token_cache := ∅; user_sessions := ∅ |} in
  let out := login (fun _ => true) String.eqb seeded_db "0f8fad5b" body t in
  let su := {| su_id := 2; su_email := "citizen@nagarseva.com"; su_name := "Harsh";
               su_role := "citizen" |} in
  let header := Some "Bearer 0f8fad5b" in
  out = (LoginOk "0f8fad5b" su, snd out)
  /\ auth seeded_db header (snd out) = (Some su, snd out)
  /\ fst (logout seeded_db header (snd out)) = 200
  /\ fst (auth seeded_db header (snd (logout seeded_db header (snd out)))) = None.
Proof.
  intros body t out su header.
  assert (H : out = (LoginOk "0f8fad5b" su, snd out)) by (vm_compute; reflexivity).
  assert (Hne : "0f8fad5b" <> "") by discriminate.
  destruct (token_life_cycle (fun _ => true) String.eqb seeded_db "0f8fad5b" body t su
              (snd out) H Hne) as (_ & Hauth & Hcode & Hafter & _).
  split; [exact H|]. split; [exact Hauth|]. split; [exact Hcode|].
  exact (f_equal fst Hafter).
Defined.

(** X30 on the sample run.  The sample conversation of chat 555, from the
    seeded database. *)
Lemma conversation_files_ticket_witness :
  let desc := "Garbage overflowing near the market for five days" in
  let steps := [ (sample_env, text_update 1 555 "/start");
                 (sample_env, button_update 2 555 "lang:en");
                 (sample_env, button_update 3 555 "cat:2");
                 (sample_env, text_update 4 555 desc);
                 (sample_env, text_update 5 555 "Market Road");
                 (sample_env, button_update 6 555 "confirm:submit") ] in
  let w' := converse sample_cfg decimalNumber steps seeded_world in
  exists account,
    user_by_chat (db w') "555" = Some account
    /\ grievances (db w')
       = grievances seeded_db
         ++ [{| g_ticket_number := "TGM-LOYW3V28";
                g_citizen_id := u_id account;
                g_category_id := 2;
                g_title := desc;
                g_description := desc;
                g_location := "Market Road";
                g_latitude := None; g_longitude := None;
                g_priority := "medium"; g_status := "submitted";
                g_complaint_status := Some "pending";
                g_source_channel := Some "telegram";
                g_source_user_id := Some "555" |}]
    /\ session_found (db w') "555"
       = {| chatId := "555"; userId := Some (u_id account); state := idle;
            language := en; draft := emptyDraft |}.
Proof.
  intros desc steps w'.
  assert (Hsay : forall id t, says 555 t (text_update id 555 t)).
  { intros id t. split; [reflexivity|]. exists (text_message 555 t). auto. }
  assert (Hpress : forall id p, presses 555 p (button_update id 555 p)).
  { intros id p. exists (button_query 555 p), (text_message 555 ""). auto. }
  assert (Hfk : session_fk (db seeded_world) (pretty 555%Z)).
  { intros row x Hrow. cbn in Hrow. rewrite lookup_empty in Hrow. discriminate Hrow. }
  assert (Hpos : forall a, In a (users (db seeded_world)) -> u_id a <> 0%Z).
  { intros a [<- | [<- | []]]; discriminate. }
  assert (Hseq : (0 <= users_seq (db seeded_world))%Z) by (cbn; lia).
  assert (Hd : 10 <= String.length (JsString.trim desc)) by (vm_compute; lia).
  assert (Hp : 3 <= String.length (JsString.trim "Market Road")) by (vm_compute; lia).
  destruct (conversation_files_ticket sample_cfg decimalNumber 555 "lang:en" "cat:2"
              {| cat_id := 2; cat_name := "Waste Management" |} desc "Market Road"
              sample_env (text_update 1 555 "/start")
              sample_env (button_update 2 555 "lang:en")
              sample_env (button_update 3 555 "cat:2")
              sample_env (text_update 4 555 desc)
              sample_env (text_update 5 555 "Market Road")
              sample_env (button_update 6 555 "confirm:submit")
              seeded_world
              (Hsay _ _) (Hpress _ _) eq_refl (ex_intro _ en eq_refl)
              (Hpress _ _) eq_refl eq_refl ltac:(discriminate)
              (Hsay _ _) eq_refl Hd (Hsay _ _) eq_refl Hp (Hpress _ _)
              Hfk Hpos Hseq eq_refl)
    as (account & Hacc & Hg & l & Hl & Hs).
  exists account. split; [exact Hacc|]. split; [exact Hg|].
  injection Hl as <-. exact Hs.
Defined.

(** X5 on the sample run.  The poll finds the second seeded ticket accepted. *)
Lemma poll_alerts_witness :
  let p := {| Dashboard.previousStatuses := {[ 2%Z := "submitted" ]};
              Dashboard.initialized := true |} in
  let item := {| Dashboard.gr_id := 2; Dashboard.gr_ticket_number := "GRV-PNE002";
                 Dashboard.gr_status := "under_review";
                 Dashboard.gr_complaint_status := Some "accepted";
                 Dashboard.gr_category_name := Some "Waste Management" |} in
  is_Some (fst (Dashboard.load p [item]))
  /\ fst (Dashboard.load p [item])
     = Some "Government authority has changed status of GRV-PNE002 to Accepted.".
Proof.
  intros p item. split; [|vm_compute; reflexivity].
  apply (proj1 (proj2 (proj2 (poll_alerts p [item])))); [reflexivity|].
  exists item, "submitted". split; [left; reflexivity|].
  split; [vm_compute; reflexivity|]. split; discriminate.
Defined.
